(** * The Dukascopy minute-bar downloader ([ducascopy_download.py])

    A shallow embedding of the five functions of the module: [read_day],
    [bi5_to_df], [normalize_df], [download_period] and [download_data],
    together with the parts of the Python library they rest on (integer
    formatting of f-strings, [datetime] arithmetic and [strptime],
    [struct.unpack] in its standard-size modes, binary64 floats).

    The network ([requests.get]) and the LZMA decompressor are the
    environment of the program: they are variables of the section that
    holds the pipeline.  Console output, network reads and decompression
    attempts are recorded in a log. *)

From Stdlib Require Import ZArith List String Ascii Bool Lia Floats.
From Stdlib Require Import Strings.Byte.
Import ListNotations.

Open Scope Z_scope.

#[local] Set Warnings "-inexact-float".

(** ** Python values shared by the whole module *)

Definition bytes := list byte.

(** [len(x)] is a Python integer. *)
Definition len {A : Type} (l : list A) : Z := Z.of_nat (List.length l).

(** [x[i:j]] for indices [0 <= i], clamped at the end of [x] as Python
    slices are. *)
Definition slice {A : Type} (l : list A) (i j : Z) : list A :=
  firstn (Z.to_nat (j - i)) (skipn (Z.to_nat i) l).

(** [range(lo, hi)]: empty when [hi <= lo]. *)
Definition range (lo hi : Z) : list Z :=
  map (fun k => lo + Z.of_nat k) (seq 0 (Z.to_nat (hi - lo))).

(** The exceptions that the module can let escape. *)
Inductive exn : Type :=
| ValueError
| TypeError
| ZeroDivisionError
| OverflowError
| UnboundLocalError
| StructError
| RequestException.

Inductive result (A : Type) : Type :=
| Ok (a : A)
| Raise (e : exn).
Arguments Ok {A} a.
Arguments Raise {A} e.

Definition rbind {A B : Type} (r : result A) (k : A -> result B) : result B :=
  match r with
  | Ok a => k a
  | Raise e => Raise e
  end.

Notation "'let?' x ':=' r 'in' k" := (rbind r (fun x => k))
  (at level 10, x name, r at level 100, k at level 200).

(** [[f(x) for x in xs]], stopping at the first exception. *)
Fixpoint rmap {A B : Type} (f : A -> result B) (xs : list A)
  : result (list B) :=
  match xs with
  | [] => Ok []
  | x :: xs' =>
      let? y := f x in
      let? ys := rmap f xs' in
      Ok (y :: ys)
  end.

(** ** Formatting integers in f-strings: [{n:0Wd}] *)

Module PyFormat.

Definition digit_char (d : Z) : ascii := ascii_of_nat (48 + Z.to_nat d).

Fixpoint digits (fuel : nat) (n : Z) (acc : string) : string :=
  match fuel with
  | O => acc
  | S fuel' =>
      let acc' := String (digit_char (n mod 10)) acc in
      if n <? 10 then acc' else digits fuel' (n / 10) acc'
  end.

(** [str(n)] for [0 <= n]; a number has at most [log2 n + 1] digits. *)
Definition str_of_nonneg (n : Z) : string :=
  digits (S (Z.to_nat (Z.log2 n))) n EmptyString.

Fixpoint zeros (k : nat) : string :=
  match k with
  | O => EmptyString
  | S k' => String "0"%char (zeros k')
  end.

Definition zfill (w : nat) (s : string) : string :=
  (zeros (w - String.length s) ++ s)%string.

(** [format(n, '0Wd')]: the sign comes first and counts in the width. *)
Definition format_0d (w : nat) (n : Z) : string :=
  if n <? 0
  then String "-"%char (zfill (w - 1) (str_of_nonneg (- n)))
  else zfill w (str_of_nonneg n).

End PyFormat.

(** ** [datetime]: the proleptic Gregorian calendar of the Python library *)

Module Datetime.

Record datetime : Type := mkdatetime {
  year : Z;
  month : Z;
  day : Z;
  hour : Z;
  minute : Z;
  second : Z;
  microsecond : Z
}.

Definition MINYEAR : Z := 1.
Definition MAXYEAR : Z := 9999.
Definition MAXORDINAL : Z := 3652059.

Definition is_leap (y : Z) : bool :=
  (y mod 4 =? 0) && (negb (y mod 100 =? 0) || (y mod 400 =? 0)).

(** [_DAYS_IN_MONTH] and [_DAYS_BEFORE_MONTH], indexed from 1. *)
Definition DAYS_IN_MONTH (m : Z) : Z :=
  match m with
  | 1 => 31 | 2 => 28 | 3 => 31 | 4 => 30 | 5 => 31 | 6 => 30
  | 7 => 31 | 8 => 31 | 9 => 30 | 10 => 31 | 11 => 30 | 12 => 31
  | _ => -1
  end.

Definition DAYS_BEFORE_MONTH (m : Z) : Z :=
  match m with
  | 1 => 0 | 2 => 31 | 3 => 59 | 4 => 90 | 5 => 120 | 6 => 151
  | 7 => 181 | 8 => 212 | 9 => 243 | 10 => 273 | 11 => 304 | 12 => 334
  | _ => -1
  end.

Definition b2z (b : bool) : Z := if b then 1 else 0.

Definition days_before_year (y : Z) : Z :=
  let y' := y - 1 in
  y' * 365 + y' / 4 - y' / 100 + y' / 400.

Definition days_in_month (y m : Z) : Z :=
  if (m =? 2) && is_leap y then 29 else DAYS_IN_MONTH m.

Definition days_before_month (y m : Z) : Z :=
  DAYS_BEFORE_MONTH m + b2z ((2 <? m) && is_leap y).

Definition ymd2ord (y m d : Z) : Z :=
  days_before_year y + days_before_month y m + d.

Definition DI400Y : Z := 146097.
Definition DI100Y : Z := 36524.
Definition DI4Y : Z := 1461.

(** The tail of [_ord2ymd]: month and day of the [n]-th day (from 0) of
    a year, from an estimate of the month that is exact or one too
    large. *)
Definition month_day (n : Z) (leapyear : bool) : Z * Z :=
  let m := Z.shiftr (n + 50) 5 in
  let preceding := DAYS_BEFORE_MONTH m + b2z ((2 <? m) && leapyear) in
  if n <? preceding
  then
    let m := m - 1 in
    let preceding :=
      preceding - (DAYS_IN_MONTH m + b2z ((m =? 2) && leapyear)) in
    (m, n - preceding + 1)
  else (m, n - preceding + 1).

(** [_ord2ymd]: ordinal to (year, month, day), 0001-01-01 being day 1. *)
Definition ord2ymd (n : Z) : Z * Z * Z :=
  let n := n - 1 in
  let n400 := n / DI400Y in
  let n := n mod DI400Y in
  let y := n400 * 400 + 1 in
  let n100 := n / DI100Y in
  let n := n mod DI100Y in
  let n4 := n / DI4Y in
  let n := n mod DI4Y in
  let n1 := n / 365 in
  let n := n mod 365 in
  let y := y + n100 * 100 + n4 * 4 + n1 in
  if (n1 =? 4) || (n100 =? 4) then (y - 1, 12, 31)
  else
    let leapyear := (n1 =? 3) && (negb (n4 =? 24) || (n100 =? 3)) in
    let '(m, d) := month_day n leapyear in
    (y, m, d).

(** [_check_date_fields] and [_check_time_fields]. *)
Definition valid_date (y m d : Z) : bool :=
  (MINYEAR <=? y) && (y <=? MAXYEAR) &&
  (1 <=? m) && (m <=? 12) &&
  (1 <=? d) && (d <=? days_in_month y m).

Definition valid_time (h mi s us : Z) : bool :=
  (0 <=? h) && (h <=? 23) && (0 <=? mi) && (mi <=? 59) &&
  (0 <=? s) && (s <=? 59) && (0 <=? us) && (us <=? 999999).

Definition valid (t : datetime) : bool :=
  valid_date (year t) (month t) (day t) &&
  valid_time (hour t) (minute t) (second t) (microsecond t).

Definition toordinal (t : datetime) : Z :=
  ymd2ord (year t) (month t) (day t).

(** [datetime(y, m, d)]: midnight of a calendar day. *)
Definition midnight (y m d : Z) : datetime := mkdatetime y m d 0 0 0 0.

(** A [timedelta], normalised: [0 <= seconds < 86400] and
    [0 <= microseconds < 10^6]; [|days| <= 999999999]. *)
Record timedelta : Type := mktimedelta {
  td_days : Z;
  td_seconds : Z;
  td_microseconds : Z
}.

Definition MAXDELTADAYS : Z := 999999999.

(** [timedelta(days, seconds, microseconds)] for integer arguments. *)
Definition timedelta_of (days seconds microseconds : Z) : result timedelta :=
  let s := seconds + microseconds / 1000000 in
  let us := microseconds mod 1000000 in
  let d := days + s / 86400 in
  let s := s mod 86400 in
  if Z.abs d >? MAXDELTADAYS then Raise OverflowError
  else Ok (mktimedelta d s us).

Definition td_add (a b : timedelta) : result timedelta :=
  timedelta_of (td_days a + td_days b) (td_seconds a + td_seconds b)
    (td_microseconds a + td_microseconds b).

(** [datetime.__add__]: the datetime as a delta since day 0, plus
    [other], split again; [OverflowError] outside years 1..9999. *)
Definition add (t : datetime) (other : timedelta) : result datetime :=
  let? delta :=
    timedelta_of (toordinal t)
      (second t + minute t * 60 + hour t * 3600) (microsecond t) in
  let? delta := td_add delta other in
  let hour := td_seconds delta / 3600 in
  let rem := td_seconds delta mod 3600 in
  let minute := rem / 60 in
  let second := rem mod 60 in
  if (0 <? td_days delta) && (td_days delta <=? MAXORDINAL)
  then
    let '(y, m, d) := ord2ymd (td_days delta) in
    Ok (mkdatetime y m d hour minute second (td_microseconds delta))
  else Raise OverflowError.

(** [datetime.__sub__] of two naive datetimes. *)
Definition sub (a b : datetime) : result timedelta :=
  let secs1 := second a + minute a * 60 + hour a * 3600 in
  let secs2 := second b + minute b * 60 + hour b * 3600 in
  timedelta_of (toordinal a - toordinal b) (secs1 - secs2)
    (microsecond a - microsecond b).

End Datetime.

(** ** Text: the code points of a string and the decimal digits

    A string stands for a Python [str] through UTF-8; [re] and [int]
    work on its code points. *)

Module Unicode.

Definition byte_of (a : ascii) : Z := Z.of_nat (nat_of_ascii a).

(** The code point of a character of the source text. *)
Definition ch (a : ascii) : Z := byte_of a.

Definition is_cont (b : Z) : bool := (0x80 <=? b) && (b <? 0xC0).

(** What stands for bytes that are not the UTF-8 form of a [str]. *)
Definition REPLACEMENT : Z := 0xFFFD.

(** The code points that sequences of two, three and four bytes
    encode. *)
Definition two (b0 b1 : Z) : Z := (b0 - 0xC0) * 64 + (b1 - 0x80).

Definition three (b0 b1 b2 : Z) : Z :=
  ((b0 - 0xE0) * 64 + (b1 - 0x80)) * 64 + (b2 - 0x80).

Definition four (b0 b1 b2 b3 : Z) : Z :=
  (((b0 - 0xF0) * 64 + (b1 - 0x80)) * 64 + (b2 - 0x80)) * 64 + (b3 - 0x80).

Definition is_surrogate (c : Z) : bool := (0xD800 <=? c) && (c <=? 0xDFFF).

(** The code points that the bytes of a string encode; a byte that
    begins no sequence of UTF-8 gives [REPLACEMENT]. *)
Fixpoint codepoints (s : string) : list Z :=
  match s with
  | EmptyString => []
  | String a0 s1 =>
      let b0 := byte_of a0 in
      if b0 <? 0x80 then b0 :: codepoints s1
      else
        match s1 with
        | EmptyString => [REPLACEMENT]
        | String a1 s2 =>
            let b1 := byte_of a1 in
            if (0xC2 <=? b0) && (b0 <? 0xE0) && is_cont b1
            then two b0 b1 :: codepoints s2
            else
              match s2 with
              | EmptyString => REPLACEMENT :: codepoints s1
              | String a2 s3 =>
                  let b2 := byte_of a2 in
                  if (0xE0 <=? b0) && (b0 <? 0xF0) && is_cont b1
                     && is_cont b2 && (0x800 <=? three b0 b1 b2)
                     && negb (is_surrogate (three b0 b1 b2))
                  then three b0 b1 b2 :: codepoints s3
                  else
                    match s3 with
                    | EmptyString => REPLACEMENT :: codepoints s1
                    | String a3 s4 =>
                        let b3 := byte_of a3 in
                        if (0xF0 <=? b0) && (b0 <? 0xF8) && is_cont b1
                           && is_cont b2 && is_cont b3
                           && (0x10000 <=? four b0 b1 b2 b3)
                           && (four b0 b1 b2 b3 <=? 0x10FFFF)
                        then four b0 b1 b2 b3 :: codepoints s4
                        else REPLACEMENT :: codepoints s1
                    end
              end
        end
  end.

(** The decimal digits (category Nd) of Unicode 14.0, the database of
    CPython 3.11, as ranges of code points; in a range the digits 0 to
    9 follow each other, once or several times. *)
Definition digit_ranges : list (Z * Z) :=
  [(0x30, 0x39); (0x660, 0x669); (0x6F0, 0x6F9); (0x7C0, 0x7C9);
   (0x966, 0x96F); (0x9E6, 0x9EF); (0xA66, 0xA6F); (0xAE6, 0xAEF);
   (0xB66, 0xB6F); (0xBE6, 0xBEF); (0xC66, 0xC6F); (0xCE6, 0xCEF);
   (0xD66, 0xD6F); (0xDE6, 0xDEF); (0xE50, 0xE59); (0xED0, 0xED9);
   (0xF20, 0xF29); (0x1040, 0x1049); (0x1090, 0x1099); (0x17E0, 0x17E9);
   (0x1810, 0x1819); (0x1946, 0x194F); (0x19D0, 0x19D9); (0x1A80, 0x1A89);
   (0x1A90, 0x1A99); (0x1B50, 0x1B59); (0x1BB0, 0x1BB9); (0x1C40, 0x1C49);
   (0x1C50, 0x1C59); (0xA620, 0xA629); (0xA8D0, 0xA8D9); (0xA900, 0xA909);
   (0xA9D0, 0xA9D9); (0xA9F0, 0xA9F9); (0xAA50, 0xAA59); (0xABF0, 0xABF9);
   (0xFF10, 0xFF19); (0x104A0, 0x104A9); (0x10D30, 0x10D39);
   (0x11066, 0x1106F); (0x110F0, 0x110F9); (0x11136, 0x1113F);
   (0x111D0, 0x111D9); (0x112F0, 0x112F9); (0x11450, 0x11459);
   (0x114D0, 0x114D9); (0x11650, 0x11659); (0x116C0, 0x116C9);
   (0x11730, 0x11739); (0x118E0, 0x118E9); (0x11950, 0x11959);
   (0x11C50, 0x11C59); (0x11D50, 0x11D59); (0x11DA0, 0x11DA9);
   (0x16A60, 0x16A69); (0x16AC0, 0x16AC9); (0x16B50, 0x16B59);
   (0x1D7CE, 0x1D7FF); (0x1E140, 0x1E149); (0x1E2F0, 0x1E2F9);
   (0x1E950, 0x1E959); (0x1FBF0, 0x1FBF9)].

(** The value of a decimal digit; [None] for any other code point.
    This is what [\d] of [re] tests and what [int] converts. *)
Definition decimal (c : Z) : option Z :=
  match find (fun r => (fst r <=? c) && (c <=? snd r)) digit_ranges with
  | Some r => Some ((c - fst r) mod 10)
  | None => None
  end.

End Unicode.

(** ** [datetime.strptime(s, '%Y-%m-%d')]

    [_strptime] turns the format into a regular expression, matches it
    at the start of the string with the backtracking matcher of [re],
    refuses text left over after the match, converts the groups with
    [int] and builds the date.  The pattern is a [str] pattern: [\d] is
    any decimal digit of Unicode, the classes [[0-2]], [[1-9]] and the
    like hold ASCII digits only. *)

Module Strptime.

Import Unicode.

Inductive regex : Type :=
| Lit (c : Z)
| Digit
| Range (lo hi : Z)
| Seq (r1 r2 : regex)
| Alt (r1 r2 : regex)
| Group (name : string) (r : regex).

Definition is_digit (c : Z) : bool :=
  match decimal c with
  | Some _ => true
  | None => false
  end.

Definition in_range (lo hi c : Z) : bool := (lo <=? c) && (c <=? hi).

(** The text of [s] that was consumed when [rest] is what remains. *)
Definition consumed (s rest : list Z) : list Z :=
  firstn (List.length s - List.length rest) s.

Definition groups := list (string * list Z).

(** Backtracking match of [r] at the start of [s]; [k] is the rest of
    the pattern.  The first alternative that lets the rest succeed wins. *)
Fixpoint re_match {X : Type} (r : regex) (s : list Z) (g : groups)
  (k : list Z -> groups -> option X) : option X :=
  match r with
  | Lit c =>
      match s with
      | c' :: s' => if c' =? c then k s' g else None
      | [] => None
      end
  | Digit =>
      match s with
      | c' :: s' => if is_digit c' then k s' g else None
      | [] => None
      end
  | Range lo hi =>
      match s with
      | c' :: s' => if in_range lo hi c' then k s' g else None
      | [] => None
      end
  | Seq r1 r2 => re_match r1 s g (fun s' g' => re_match r2 s' g' k)
  | Alt r1 r2 =>
      match re_match r1 s g k with
      | Some x => Some x
      | None => re_match r2 s g k
      end
  | Group name r1 =>
      re_match r1 s g (fun s' g' => k s' ((name, consumed s s') :: g'))
  end.

Fixpoint group (name : string) (g : groups) : list Z :=
  match g with
  | [] => []
  | (n, v) :: g' => if String.eqb n name then v else group name g'
  end.

(** [(?P<Y>\d\d\d\d)] *)
Definition re_Y : regex :=
  Group "Y" (Seq Digit (Seq Digit (Seq Digit Digit))).

(** [(?P<m>1[0-2]|0[1-9]|[1-9])] *)
Definition re_m : regex :=
  Group "m"
    (Alt (Seq (Lit (ch "1")) (Range (ch "0") (ch "2")))
    (Alt (Seq (Lit (ch "0")) (Range (ch "1") (ch "9")))
         (Range (ch "1") (ch "9")))).

(** [(?P<d>3[0-1]|[1-2]\d|0[1-9]|[1-9]| [1-9])] *)
Definition re_d : regex :=
  Group "d"
    (Alt (Seq (Lit (ch "3")) (Range (ch "0") (ch "1")))
    (Alt (Seq (Range (ch "1") (ch "2")) Digit)
    (Alt (Seq (Lit (ch "0")) (Range (ch "1") (ch "9")))
    (Alt (Range (ch "1") (ch "9"))
         (Seq (Lit (ch " ")) (Range (ch "1") (ch "9"))))))).

(** The pattern of ['%Y-%m-%d']. *)
Definition format_regex : regex :=
  Seq re_Y (Seq (Lit (ch "-")) (Seq re_m (Seq (Lit (ch "-")) re_d))).

(** Blanks in front are skipped; the groups of the pattern begin with
    no other white space. *)
Fixpoint lstrip (s : list Z) : list Z :=
  match s with
  | c :: s' => if c =? ch " " then lstrip s' else s
  | [] => []
  end.

Fixpoint digits_value (s : list Z) (acc : Z) : option Z :=
  match s with
  | [] => Some acc
  | c :: s' =>
      match decimal c with
      | Some v => digits_value s' (10 * acc + v)
      | None => None
      end
  end.

(** [int(s)] on the text of a group: blanks in front are skipped and
    the rest must be decimal digits, of any script. *)
Definition int (s : list Z) : result Z :=
  match lstrip s with
  | [] => Raise ValueError
  | s' =>
      match digits_value s' 0 with
      | Some v => Ok v
      | None => Raise ValueError
      end
  end.

(** The match and the conversion of its groups: year, month, day. *)
Definition scan (data_string : list Z) : result (Z * Z * Z) :=
  match re_match format_regex data_string []
          (fun rest g => Some (rest, g)) with
  | None => Raise ValueError
  | Some (rest, found_dict) =>
      match rest with
      | _ :: _ => Raise ValueError
      | [] =>
          let? y := int (group "Y" found_dict) in
          let? m := int (group "m" found_dict) in
          let? d := int (group "d" found_dict) in
          Ok (y, m, d)
      end
  end.

Definition strptime (data_string : string) : result Datetime.datetime :=
  let? ymd := scan (codepoints data_string) in
  let '(y, m, d) := ymd in
  if Datetime.valid_date y m d
  then Ok (Datetime.midnight y m d)
  else Raise ValueError.

End Strptime.

(** ** Python floats (binary64) *)

Module PyFloat.

(** [float(z)]: the nearest binary64 number, ties to even. *)
Definition of_int (z : Z) : float :=
  SF2Prim (binary_normalize prec emax z 0 false).

(** [int(x)]: truncation toward zero; [None] for NaN and infinities. *)
Definition trunc (x : float) : option Z :=
  match Prim2SF x with
  | S754_zero _ => Some 0
  | S754_finite s m e =>
      let a := if 0 <=? e then Zpos m * 2 ^ e else Z.shiftr (Zpos m) (- e) in
      Some (if s then - a else a)
  | _ => None
  end.

(** [round(x)]: the nearest integer, ties to even. *)
Definition round (x : float) : option Z :=
  match Prim2SF x with
  | S754_zero _ => Some 0
  | S754_finite s m e =>
      let a :=
        if 0 <=? e then Zpos m * 2 ^ e
        else
          let q := Z.shiftr (Zpos m) (- e) in
          let r := Zpos m - Z.shiftl q (- e) in
          let half := 2 ^ (- e - 1) in
          if r <? half then q
          else if half <? r then q + 1
          else if Z.even q then q else q + 1 in
      Some (if s then - a else a)
  | _ => None
  end.

(** The number an IEEE 754 bit pattern stands for, with [ebits]
    exponent bits and [mbits] fraction bits, as a Python float. *)
Definition of_ieee_bits (ebits mbits : Z) (u : Z) : float :=
  let sign := Z.testbit u (ebits + mbits) in
  let e := Z.shiftr u mbits mod 2 ^ ebits in
  let m := u mod 2 ^ mbits in
  let bias := 2 ^ (ebits - 1) - 1 in
  let mag :=
    if e =? 2 ^ ebits - 1 then (if m =? 0 then infinity else nan)
    else if e =? 0 then Z.ldexp (of_int m) (1 - bias - mbits)
    else Z.ldexp (of_int (2 ^ mbits + m)) (e - bias - mbits) in
  if sign then PrimFloat.opp mag else mag.

End PyFloat.

(** ** Python objects that the module handles *)

Inductive obj : Type :=
| Int (z : Z)
| Float (f : float)
| Bytes (b : bytes)
| Date (t : Datetime.datetime).

(** [a != b] where [b] is an integer. *)
Definition ne_int (a : obj) (b : Z) : bool :=
  match a with
  | Int z => negb (z =? b)
  | _ => true
  end.

(** [timedelta(seconds=x)]: [x] an integer, or a float that is split
    into whole seconds and a fraction rounded to microseconds. *)
Definition timedelta_seconds (x : obj) : result Datetime.timedelta :=
  match x with
  | Int z => Datetime.timedelta_of 0 z 0
  | Float f =>
      match PyFloat.trunc f with
      | None => Raise (if PrimFloat.is_nan f then ValueError else OverflowError)
      | Some seconds =>
          let secondsfrac := PrimFloat.sub f (PyFloat.of_int seconds) in
          let usdouble := PrimFloat.mul secondsfrac 1000000%float in
          match PyFloat.round usdouble with
          | Some us => Datetime.timedelta_of 0 seconds us
          | None => Raise OverflowError
          end
      end
  | _ => Raise TypeError
  end.

(** [column / 1000] on one cell: integers are converted to float64. *)
Definition truediv_1000 (x : obj) : result obj :=
  match x with
  | Int z => Ok (Float (PrimFloat.div (PyFloat.of_int z) 1000%float))
  | Float f => Ok (Float (PrimFloat.div f 1000%float))
  | _ => Raise TypeError
  end.

(** ** [struct]: the standard-size modes

    A format is a byte order and the list of its field codes; repeat
    counts are written out ([>5if] is [i;i;i;i;i;f]). *)

Module Struct.

Inductive byte_order : Type := BigEndian | LittleEndian.

Inductive code : Type :=
| c_b | c_B | c_h | c_H | c_i | c_I | c_l | c_L | c_q | c_Q | c_f | c_d.

Record format : Type := mkformat {
  order : byte_order;
  codes : list code
}.

Definition size (c : code) : Z :=
  match c with
  | c_b | c_B => 1
  | c_h | c_H => 2
  | c_i | c_I | c_l | c_L | c_f => 4
  | c_q | c_Q | c_d => 8
  end.

Definition calcsize (fmt : format) : Z :=
  fold_right (fun c acc => size c + acc) 0 (codes fmt).

Definition byte_val (b : byte) : Z := Z.of_N (Byte.to_N b).

(** The unsigned integer that the bytes of a field spell. *)
Definition unsigned (o : byte_order) (bs : bytes) : Z :=
  fold_left (fun acc b => acc * 256 + byte_val b)
    (match o with BigEndian => bs | LittleEndian => rev bs end) 0.

Definition signed (o : byte_order) (bs : bytes) : Z :=
  let u := unsigned o bs in
  let w := 8 * len bs in
  if u <? 2 ^ (w - 1) then u else u - 2 ^ w.

Definition decode (o : byte_order) (c : code) (bs : bytes) : obj :=
  match c with
  | c_b | c_h | c_i | c_l | c_q => Int (signed o bs)
  | c_B | c_H | c_I | c_L | c_Q => Int (unsigned o bs)
  | c_f => Float (PyFloat.of_ieee_bits 8 23 (unsigned o bs))
  | c_d => Float (PyFloat.of_ieee_bits 11 52 (unsigned o bs))
  end.

Fixpoint unpack_fields (o : byte_order) (cs : list code) (bs : bytes)
  : list obj :=
  match cs with
  | [] => []
  | c :: cs' =>
      let w := Z.to_nat (size c) in
      decode o c (firstn w bs) :: unpack_fields o cs' (skipn w bs)
  end.

(** [struct.unpack(fmt, buffer)]: the buffer must have exactly
    [calcsize(fmt)] bytes. *)
Definition unpack (fmt : format) (buffer : bytes) : result (list obj) :=
  if len buffer =? calcsize fmt
  then Ok (unpack_fields (order fmt) (codes fmt) buffer)
  else Raise StructError.

End Struct.

(** ** Tables

    A [DataFrame] with the six columns [time], [open], [high], [low],
    [close], [volume] is the list of its rows, in index order. *)

Record row : Type := mkrow {
  time : obj;
  open : obj;
  high : obj;
  low : obj;
  close : obj;
  volume : obj
}.

Definition DataFrame := list row.

(** [pd.DataFrame(data_list, columns=[six names])]: every tuple of
    [data_list] must have six fields; an empty list is an empty table. *)
Definition row_of_tuple (t : list obj) : result row :=
  match t with
  | [a; b; c; d; e; f] => Ok (mkrow a b c d e f)
  | _ => Raise ValueError
  end.

Definition DataFrame_of (data_list : list (list obj)) : result DataFrame :=
  rmap row_of_tuple data_list.

(** A row of the table of [download_data]: the six columns and
    ['Ticker Full Name']. *)
Record tagged_row : Type := mktagged {
  data : row;
  ticker_full_name : string
}.

(** Line 175 of [download_data], [tmp.loc[:, 'Ticker Full Name'] = n]:
    the new column holds [n] in every row.  On a table without rows
    [loc] cannot enlarge the frame with a scalar and raises
    [ValueError] (cannot set a frame with no defined index and a
    scalar). *)
Definition set_ticker (tmp : DataFrame) (n : string)
  : result (list tagged_row) :=
  match tmp with
  | [] => Raise ValueError
  | _ :: _ => Ok (map (fun r => mktagged r n) tmp)
  end.

(** [a // b] on Python integers. *)
Definition floordiv (a b : Z) : result Z :=
  if b =? 0 then Raise ZeroDivisionError else Ok (a / b).

(** ** [bi5_to_df] (lines 50-75) *)

(** [len(raw_data)] and the slices need a bytes object. *)
Definition as_bytes (x : obj) : result bytes :=
  match x with
  | Bytes b => Ok b
  | _ => Raise TypeError
  end.

Definition bi5_to_df (raw_data : obj) (fmt : Struct.format)
  : result DataFrame :=
  let chunk_size := Struct.calcsize fmt in
  let? raw := as_bytes raw_data in
  let? chunk_count := floordiv (len raw) chunk_size in
  let? data_list :=
    rmap (fun step =>
            let left := chunk_size * step in
            let right := chunk_size * step + chunk_size in
            Struct.unpack fmt (slice raw left right))
         (range 0 chunk_count) in
  DataFrame_of data_list.

(** ** [normalize_df] (lines 77-98) *)

(** Line 96: [df.iloc[:,0].apply(lambda x: day+timedelta(seconds=x))] *)
Definition apply_time (day : Datetime.datetime) (df : DataFrame)
  : result DataFrame :=
  rmap (fun r =>
          let? delta := timedelta_seconds (time r) in
          let? t := Datetime.add day delta in
          Ok (mkrow (Date t) (open r) (high r) (low r) (close r) (volume r)))
       df.

(** Line 97: [df.iloc[:, 1:5] = df.iloc[:, 1:5]/1000] *)
Definition scale_prices (df : DataFrame) : result DataFrame :=
  rmap (fun r =>
          let? o := truediv_1000 (open r) in
          let? h := truediv_1000 (high r) in
          let? l := truediv_1000 (low r) in
          let? c := truediv_1000 (close r) in
          Ok (mkrow (time r) o h l c (volume r)))
       df.

Definition normalize_df (df : DataFrame) (day : Datetime.datetime)
  : result DataFrame :=
  let? df := apply_time day df in
  let? df := scale_prices df in
  Ok df.

(** ** [read_day]: the address of a day's file (lines 30-32) *)

Definition url_prefix : string := "https://datafeed.dukascopy.com/datafeed".
Definition file_name : string := "BID_candles_min_1.bi5".

Definition url (symbol : string) (day : Datetime.datetime) : string :=
  (url_prefix ++ "/" ++ symbol ++ "/"
   ++ PyFormat.format_0d 4 (Datetime.year day) ++ "/"
   ++ PyFormat.format_0d 2 (Datetime.month day - 1) ++ "/"
   ++ PyFormat.format_0d 2 (Datetime.day day) ++ "/"
   ++ file_name)%string.

(** ** The environment and the effects of the program *)

Record response : Type := mkresponse {
  status_code : Z;
  content : bytes
}.

Inductive event : Type :=
| EvGet (address : string)
| EvPrint (msg : string)
| EvDecompress (raw : bytes).

Section Pipeline.

(** The remote service: [requests.get] answers from the state of the
    world, which it may change, or raises. *)
Variable World : Type.
Variable requests_get : string -> World -> result response * World.

(** [LZMADecompressor(FORMAT_AUTO).decompress]: [None] is [LZMAError]. *)
Variable lzma_decompress : bytes -> option bytes.

Record State : Type := mkstate {
  world : World;
  log : list event
}.

Definition M (A : Type) : Type := State -> result A * State.

Definition ret {A : Type} (a : A) : M A := fun s => (Ok a, s).

Definition raise {A : Type} (e : exn) : M A := fun s => (Raise e, s).

Definition bind {A B : Type} (m : M A) (k : A -> M B) : M B :=
  fun s =>
    match m s with
    | (Ok a, s') => k a s'
    | (Raise e, s') => (Raise e, s')
    end.

Definition lift {A : Type} (r : result A) : M A := fun s => (r, s).

Definition emit (e : event) : M unit :=
  fun s => (Ok tt, mkstate (world s) (log s ++ [e])).

Definition print (msg : string) : M unit := emit (EvPrint msg).

Definition get (address : string) : M response :=
  fun s =>
    let '(r, w) := requests_get address (world s) in
    (r, mkstate w (log s ++ [EvGet address])).

Notation "x <- m ;; k" := (bind m (fun x => k))
  (at level 61, m at next level, right associativity).
Notation "m ;;; k" := (bind m (fun _ => k))
  (at level 61, right associativity).

(** [for x in xs: acc = body(acc, x)] *)
Fixpoint for_each {A B : Type} (xs : list A) (acc : B)
  (body : B -> A -> M B) : M B :=
  match xs with
  | [] => ret acc
  | x :: xs' => acc' <- body acc x ;; for_each xs' acc' body
  end.

(** A local variable is unbound until it is assigned; reading it
    unbound raises [UnboundLocalError]. *)
Definition read_local {A : Type} (v : option A) : M A :=
  match v with
  | Some a => ret a
  | None => raise UnboundLocalError
  end.

(** [read_day] (lines 13-47).  The sentinel [-1] stands for a file
    that does not exist; [decompresseddata] is assigned only when the
    body is not empty and decompresses. *)
Definition read_day (symbol : string) (day : Datetime.datetime) : M obj :=
  res <- get (url symbol day) ;;
  if status_code res =? 404
  then print "download failed..." ;;; ret (Int (-1))
  else
    let rawdata := content res in
    decompresseddata <-
      (if negb (len rawdata =? 0)
       then
         emit (EvDecompress rawdata) ;;;
         match lzma_decompress rawdata with
         | Some d => ret (Some d)
         | None => print "decompress failed. continuing.." ;;; ret None
         end
       else ret None) ;;
    d <- read_local decompresseddata ;;
    ret (Bytes d).

(** The body of the loop of [download_period], for day number [d]. *)
Definition period_step (symbol : string) (start_day : Datetime.datetime)
  (fmt : Struct.format) (dataset : DataFrame) (d : Z) : M DataFrame :=
  delta <- lift (Datetime.timedelta_of d 0 0) ;;
  current_day <- lift (Datetime.add start_day delta) ;;
  raw_day <- read_day symbol current_day ;;
  if ne_int raw_day (-1)
  then
    df <- lift (bi5_to_df raw_day fmt) ;;
    df <- lift (normalize_df df current_day) ;;
    ret (dataset ++ df)
  else ret dataset.

(** [download_period] (lines 100-138).  The progress bar of [tqdm] is
    not recorded; [reset_index(drop=True)] renumbers the rows and leaves
    them as they are. *)
Definition download_period (symbol start_day end_day : string)
  (fmt : Struct.format) : M DataFrame :=
  start_day <- lift (Strptime.strptime start_day) ;;
  end_day <- lift (Strptime.strptime end_day) ;;
  delta <- lift (Datetime.sub end_day start_day) ;;
  let period := Datetime.td_days delta in
  dataset <- for_each (range 0 period) [] (period_step symbol start_day fmt) ;;
  ret dataset.

(** The body of the loop of [download_data], for the pair [(s, n)]. *)
Definition data_step (start_day end_day : string) (fmt : Struct.format)
  (data : list tagged_row) (sn : string * string) : M (list tagged_row) :=
  let '(s, n) := sn in
  print ("Downloading " ++ n ++ " data") ;;;
  tmp <- download_period s start_day end_day fmt ;;
  tmp <- lift (set_ticker tmp n) ;;
  ret (data ++ tmp).

(** [download_data] (lines 140-178): [zip] is [combine]. *)
Definition download_data (symbols symbols_names : list string)
  (start_day end_day : string) (fmt : Struct.format) : M (list tagged_row) :=
  for_each (combine symbols symbols_names) []
    (data_step start_day end_day fmt).

(** *** The pipeline as the specification words it

    One day: fetch, skip if not found, parse, normalize.  A period: the
    days one after the other, their rows concatenated. *)

Fixpoint map_m {A B : Type} (f : A -> M B) (xs : list A) : M (list B) :=
  match xs with
  | [] => ret []
  | x :: xs' => y <- f x ;; ys <- map_m f xs' ;; ret (y :: ys)
  end.

Definition process_day (symbol : string) (fmt : Struct.format)
  (day : Datetime.datetime) : M DataFrame :=
  raw_day <- read_day symbol day ;;
  if ne_int raw_day (-1)
  then df <- lift (bi5_to_df raw_day fmt) ;; lift (normalize_df df day)
  else ret [].

Definition period_rows (symbol : string) (fmt : Struct.format)
  (days : list Datetime.datetime) : M DataFrame :=
  per_day <- map_m (process_day symbol fmt) days ;;
  ret (List.concat per_day).

(** The block of one symbol, as [download_data] makes it: announce it,
    run the period, set the display name in every row. *)
Definition symbol_block (start_day end_day : string) (fmt : Struct.format)
  (sn : string * string) : M (list tagged_row) :=
  let '(s, n) := sn in
  print ("Downloading " ++ n ++ " data") ;;;
  tmp <- download_period s start_day end_day fmt ;;
  lift (set_ticker tmp n).

(** A table that must have a row: what line 175 makes of a block. *)
Definition with_rows {A : Type} (m : M (list A)) : M (list A) :=
  rows <- m ;;
  match rows with
  | [] => raise ValueError
  | _ :: _ => ret rows
  end.

(** The block of one symbol over given days: the rows of the days, in
    their order, each with the display name. *)
Definition tagged_block (fmt : Struct.format) (days : list Datetime.datetime)
  (sn : string * string) : M (list tagged_row) :=
  let '(s, n) := sn in
  print ("Downloading " ++ n ++ " data") ;;;
  rows <- period_rows s fmt days ;;
  ret (map (fun r => mktagged r n) rows).

End Pipeline.

Arguments mkstate {World} world log.
Arguments world {World} s.
Arguments log {World} s.
Arguments ret {World A} a _.
Arguments raise {World A} e _.
Arguments bind {World A B} m k _.
Arguments lift {World A} r _.
Arguments with_rows {World A} m _.

(** ** Notions that the properties are stated with *)

(** [s.split(sep)] *)
Fixpoint split_on (sep : ascii) (s : string) : list string :=
  match s with
  | EmptyString => [EmptyString]
  | String c s' =>
      if Ascii.eqb c sep then EmptyString :: split_on sep s'
      else
        match split_on sep s' with
        | seg :: segs => String c seg :: segs
        | [] => [String c EmptyString]
        end
  end.

Fixpoint free_of (sep : ascii) (s : string) : bool :=
  match s with
  | EmptyString => true
  | String c s' => negb (Ascii.eqb c sep) && free_of sep s'
  end.

(** The segments of a path counted from its end: the file name is
    segment 0, the day 1, the month 2, the year 3. *)
Definition segment_from_end (k : nat) (path : string) : option string :=
  nth_error (rev (split_on "/" path)) k.

(** A number below 100 written with exactly two decimal digits. *)
Definition two_digits (n : Z) : string :=
  String (PyFormat.digit_char (n / 10))
    (String (PyFormat.digit_char (n mod 10)) EmptyString).

(** Cells that [struct.unpack] can produce. *)
Definition is_number (x : obj) : bool :=
  match x with
  | Int _ | Float _ => true
  | _ => false
  end.

Definition parsed_row (r : row) : bool :=
  is_number (time r) && is_number (open r) && is_number (high r) &&
  is_number (low r) && is_number (close r) && is_number (volume r).

(** A price cell [b] is the cell [a] divided by 1000. *)
Definition divided_by_1000 (a b : obj) : Prop :=
  match a with
  | Int z => b = Float (PrimFloat.div (PyFloat.of_int z) 1000%float)
  | Float f => b = Float (PrimFloat.div f 1000%float)
  | _ => False
  end.

(** The instant of a datetime, in microseconds on the time line whose
    day 1 is 0001-01-01. *)
Definition abs_us (t : Datetime.datetime) : Z :=
  (Datetime.toordinal t * 86400 + Datetime.hour t * 3600
   + Datetime.minute t * 60 + Datetime.second t) * 1000000
  + Datetime.microsecond t.

(** The instants that a [datetime] can hold: 0001-01-01 00:00:00 up to
    9999-12-31 23:59:59.999999. *)
Definition representable (us : Z) : Prop :=
  86400 * 1000000 <= us < (Datetime.MAXORDINAL + 1) * 86400 * 1000000.

(** [date.fromordinal(k)], at midnight. *)
Definition day_of_ordinal (k : Z) : Datetime.datetime :=
  let '(y, m, d) := Datetime.ord2ymd k in Datetime.midnight y m d.

(** The calendar days of the half-open interval [[start, end)], in
    ascending order. *)
Definition days_between (start_day end_day : Datetime.datetime)
  : list Datetime.datetime :=
  map day_of_ordinal
    (range (Datetime.toordinal start_day) (Datetime.toordinal end_day)).

(** *** Date texts *)

(** An ASCII decimal digit. *)
Definition ascii_digit (c : ascii) : bool :=
  (48 <=? nat_of_ascii c)%nat && (nat_of_ascii c <=? 57)%nat.

(** The number that a string of ASCII digits spells after [acc]. *)
Fixpoint read_decimal (s : string) (acc : Z) : option Z :=
  match s with
  | EmptyString => Some acc
  | String c s' =>
      if ascii_digit c
      then read_decimal s' (10 * acc + (Z.of_nat (nat_of_ascii c) - 48))
      else None
  end.

(** The strict form YYYY-MM-DD: ten characters, ASCII digits around
    two hyphens. *)
Definition strict_shape (s : string) : bool :=
  match s with
  | String y1 (String y2 (String y3 (String y4 (String h1
      (String m1 (String m2 (String h2 (String d1 (String d2
        EmptyString))))))))) =>
      ascii_digit y1 && ascii_digit y2 && ascii_digit y3
      && ascii_digit y4 && Ascii.eqb h1 "-"
      && ascii_digit m1 && ascii_digit m2 && Ascii.eqb h2 "-"
      && ascii_digit d1 && ascii_digit d2
  | _ => false
  end.

(** The texts of a year: four decimal digits, of any script. *)
Definition year_value (t : list Z) : option Z :=
  match t with
  | [a; b; c; d] =>
      match Unicode.decimal a, Unicode.decimal b,
            Unicode.decimal c, Unicode.decimal d with
      | Some va, Some vb, Some vc, Some vd =>
          Some (1000 * va + 100 * vb + 10 * vc + vd)
      | _, _, _, _ => None
      end
  | _ => None
  end.

Definition between (lo hi : ascii) (c : Z) : bool :=
  (Unicode.ch lo <=? c) && (c <=? Unicode.ch hi).

(** The texts of a month: [10] to [12], [01] to [09], [1] to [9], in
    ASCII digits. *)
Definition month_value (t : list Z) : option Z :=
  match t with
  | [c] => if between "1" "9" c then Some (c - 48) else None
  | [a; c] =>
      if (a =? Unicode.ch "1") && between "0" "2" c then Some (10 + (c - 48))
      else if (a =? Unicode.ch "0") && between "1" "9" c then Some (c - 48)
      else None
  | _ => None
  end.

(** The texts of a day: [30], [31]; [1] or [2] and any decimal digit;
    [01] to [09]; [1] to [9]; a blank and [1] to [9]. *)
Definition day_value (t : list Z) : option Z :=
  match t with
  | [c] => if between "1" "9" c then Some (c - 48) else None
  | [a; c] =>
      if (a =? Unicode.ch "3") && between "0" "1" c then Some (30 + (c - 48))
      else if between "1" "2" a
      then match Unicode.decimal c with
           | Some v => Some (10 * (a - 48) + v)
           | None => None
           end
      else if (a =? Unicode.ch "0") && between "1" "9" c then Some (c - 48)
      else if (a =? Unicode.ch " ") && between "1" "9" c then Some (c - 48)
      else None
  | _ => None
  end.

(** The code points of a text of the date [y]-[m]-[d]. *)
Definition date_points (t : list Z) (y m d : Z) : Prop :=
  exists ys ms ds,
    t = ys ++ Unicode.ch "-" :: ms ++ Unicode.ch "-" :: ds /\
    year_value ys = Some y /\ month_value ms = Some m /\
    day_value ds = Some d.

(** [date.isoformat()]: the strict text of a date. *)
Definition isoformat (y m d : Z) : string :=
  (PyFormat.format_0d 4 y ++ "-" ++ PyFormat.format_0d 2 m ++ "-"
   ++ PyFormat.format_0d 2 d)%string.

(** A text of a date that exists, years 1 to 9999. *)
Definition date_text (s : string) : Prop :=
  exists y m d,
    Datetime.valid_date y m d = true /\
    date_points (Unicode.codepoints s) y m d.

(** A string of ASCII characters only. *)
Fixpoint is_ascii (s : string) : bool :=
  match s with
  | EmptyString => true
  | String a s' => (Unicode.byte_of a <? 128) && is_ascii s'
  end.

(** *** Instants *)

(** The length of a [timedelta] in microseconds. *)
Definition td_us (td : Datetime.timedelta) : Z :=
  (Datetime.td_days td * 86400 + Datetime.td_seconds td) * 1000000
  + Datetime.td_microseconds td.

(** The datetime of an instant. *)
Definition of_abs_us (us : Z) : Datetime.datetime :=
  let '(y, m, d) := Datetime.ord2ymd (us / 86400000000) in
  let secs := us mod 86400000000 / 1000000 in
  Datetime.mkdatetime y m d
    (secs / 3600) (secs mod 3600 / 60) (secs mod 3600 mod 60)
    (us mod 1000000).

(** The time of a row converts: line 96 of [normalize_df] does not
    raise on it. *)
Definition time_converts (day : Datetime.datetime) (r : row) : Prop :=
  exists delta t,
    timedelta_seconds (time r) = Ok delta /\ Datetime.add day delta = Ok t.

(** *** Chronological order *)

(** The instant of a time cell that holds a date. *)
Definition instant (x : obj) : option Z :=
  match x with
  | Date t => Some (abs_us t)
  | _ => None
  end.

(** The instants of the rows of a table whose times are all dates. *)
Fixpoint instants (rows : DataFrame) : option (list Z) :=
  match rows with
  | [] => Some []
  | r :: rest =>
      match instant (time r), instants rest with
      | Some a, Some l => Some (a :: l)
      | _, _ => None
      end
  end.

Fixpoint ascending (l : list Z) : bool :=
  match l with
  | [] => true
  | a :: rest =>
      match rest with
      | [] => true
      | b :: _ => a <=? b
      end && ascending rest
  end.

(** The rows are in chronological order: their times are dates and no
    row is earlier than the row before it. *)
Definition chronological (rows : DataFrame) : bool :=
  match instants rows with
  | Some l => ascending l
  | None => false
  end.

(** Chronological rows whose instants lie in [[lo, hi)]. *)
Definition chronological_in (lo hi : Z) (rows : DataFrame) : Prop :=
  exists l,
    instants rows = Some l /\ ascending l = true /\
    Forall (fun a => lo <= a < hi) l.

(** The records of one day in order: the times are whole seconds of
    the day, from [lo] on, and none is below the one before it. *)
Fixpoint day_ordered (lo : Z) (df : DataFrame) : bool :=
  match df with
  | [] => true
  | r :: rest =>
      match time r with
      | Int x => (lo <=? x) && (x <? 86400) && day_ordered x rest
      | _ => false
      end
  end.

(** The rows of a day whose file lists its records in order. *)
Definition ordered_day (day : Datetime.datetime) (rows : DataFrame) : Prop :=
  exists df, day_ordered 0 df = true /\ normalize_df df day = Ok rows.

(** *** Checks that proofs run over finite tables *)

(** [month_day] is right on day [n] of a year. *)
Definition month_day_ok (leap : bool) (n : Z) : bool :=
  let '(m, d) := Datetime.month_day n leap in
  (1 <=? m) && (m <=? 12) && (1 <=? d)
  && (d <=? Datetime.days_in_month (if leap then 4 else 1) m)
  && (Datetime.DAYS_BEFORE_MONTH m + Datetime.b2z ((2 <? m) && leap) + d
      =? n + 1).

Definition four_digits (y : Z) : string :=
  String (PyFormat.digit_char (y / 1000))
    (String (PyFormat.digit_char (y / 100 mod 10))
       (String (PyFormat.digit_char (y / 10 mod 10))
          (String (PyFormat.digit_char (y mod 10)) EmptyString))).

(** [value] reads the number [n] in the ASCII string [t]. *)
Definition reads (value : list Z -> option Z) (t : string) (n : Z) : bool :=
  is_ascii t &&
  match value (Unicode.codepoints t) with
  | Some v => v =? n
  | None => false
  end.

(** *** Requests, formats and answers *)

(** The addresses requested, in order, among the events of a log. *)
Definition requests_of (evs : list event) : list string :=
  flat_map (fun e => match e with EvGet a => [a] | _ => [] end) evs.

(** [p] is the beginning of [l]. *)
Definition prefix_of {A : Type} (p l : list A) : Prop :=
  exists rest, l = p ++ rest.

(** Whatever the state, the computation [m] requests addresses of
    [expected], from the first on and in their order: all of them when it
    returns, the first of them when it raises. *)
Definition requests_within {World A : Type} (m : M World A)
  (expected : list string) : Prop :=
  forall st,
    exists r st' evs,
      m st = (r, st') /\
      log st' = log st ++ evs /\
      prefix_of (requests_of evs) expected /\
      ((exists a, r = Ok a) -> requests_of evs = expected).

(** The codes of integer fields. *)
Definition is_int_code (c : Struct.code) : bool :=
  match c with
  | Struct.c_f | Struct.c_d => false
  | _ => true
  end.

(** The time field of a format is an integer of at most four bytes. *)
Definition short_time (fmt : Struct.format) : bool :=
  match Struct.codes fmt with
  | c :: _ => is_int_code c && (Struct.size c <=? 4)
  | [] => false
  end.

(** The fields of chunk number [step] of a buffer. *)
Definition chunk_fields (fmt : Struct.format) (raw : bytes) (step : Z)
  : list obj :=
  Struct.unpack_fields (Struct.order fmt) (Struct.codes fmt)
    (slice raw (Struct.calcsize fmt * step)
       (Struct.calcsize fmt * step + Struct.calcsize fmt)).

(** An answer that [read_day] turns into the sentinel or into bytes:
    status 404, or a body that is not empty and decompresses. *)
Definition answer_ok (lzma_decompress : bytes -> option bytes)
  (res : response) : bool :=
  (status_code res =? 404)
  || (negb (len (content res) =? 0)
      && match lzma_decompress (content res) with
         | Some _ => true
         | None => false
         end).

(** ** A small remote service, for examples *)

Module Example.

(** The world counts the requests served. *)
Definition World : Type := nat.

(** A service with a fixed set of files; any other address is answered
    with status 404. *)
Definition serve (files : list (string * response)) (address : string)
  (w : World) : result response * World :=
  (Ok match find (fun f => String.eqb (fst f) address) files with
      | Some f => snd f
      | None => mkresponse 404 []
      end,
   S w).

(** A stand-in for the decompressor: a leading zero byte marks a stored
    payload, anything else is a corrupt stream. *)
Definition stored (raw : bytes) : option bytes :=
  match raw with
  | x00%byte :: payload => Some payload
  | _ => None
  end.

(** [>5if]: the minute bars of the provider. *)
Definition candle : Struct.format :=
  Struct.mkformat Struct.BigEndian
    [Struct.c_i; Struct.c_i; Struct.c_i; Struct.c_i; Struct.c_i; Struct.c_f].

(** [>3i2f]: the ticks of the provider, five fields. *)
Definition tick : Struct.format :=
  Struct.mkformat Struct.BigEndian
    [Struct.c_i; Struct.c_i; Struct.c_i; Struct.c_f; Struct.c_f].

(** [>4i2h]: six fields in twenty bytes. *)
Definition short_candle : Struct.format :=
  Struct.mkformat Struct.BigEndian
    [Struct.c_i; Struct.c_i; Struct.c_i; Struct.c_i; Struct.c_h; Struct.c_h].

(** One bar: 3661 s, open 123456, high 123500, low 123400, close
    123450, volume 1.5. *)
Definition bar : bytes :=
  [x00; x00; x0e; x4d;  x00; x01; xe2; x40;  x00; x01; xe2; x6c;
   x00; x01; xe2; x08;  x00; x01; xe2; x3a;  x3f; xc0; x00; x00]%byte.

(** A second bar, one minute later. *)
Definition bar' : bytes :=
  [x00; x00; x0e; x89;  x00; x01; xe2; x3a;  x00; x01; xe2; x41;
   x00; x01; xe2; x30;  x00; x01; xe2; x40;  x40; x00; x00; x00]%byte.

(** EURUSD has a file for 2024-03-15 and one for 2024-03-17, none for
    2024-03-16; the file of 2024-03-18 is empty and that of 2024-03-19
    is corrupt.  GBPUSD has a file for 2024-03-15. *)
Definition site : list (string * response) :=
  [ (url "EURUSD" (Datetime.midnight 2024 3 15),
     mkresponse 200 (x00%byte :: bar ++ bar'));
    (url "EURUSD" (Datetime.midnight 2024 3 17),
     mkresponse 200 (x00%byte :: bar));
    (url "EURUSD" (Datetime.midnight 2024 3 18), mkresponse 200 []);
    (url "EURUSD" (Datetime.midnight 2024 3 19),
     mkresponse 200 [xff; x00]%byte);
    (url "GBPUSD" (Datetime.midnight 2024 3 15),
     mkresponse 200 (x00%byte :: bar')) ].

(** A bar whose time is 93600 s, two hours into the day after. *)
Definition late_bar : bytes :=
  [x00; x01; x6d; xa0;  x00; x01; xe2; x40;  x00; x01; xe2; x6c;
   x00; x01; xe2; x08;  x00; x01; xe2; x3a;  x3f; xc0; x00; x00]%byte.

(** Files that are not in order.  The file of USDJPY for 2024-03-15
    holds the later bar first.  The file of AUDUSD for 2024-03-15 holds
    a bar of the day after, and the file of 2024-03-16 an earlier one. *)
Definition untidy : list (string * response) :=
  [ (url "USDJPY" (Datetime.midnight 2024 3 15),
     mkresponse 200 (x00%byte :: bar' ++ bar));
    (url "AUDUSD" (Datetime.midnight 2024 3 15),
     mkresponse 200 (x00%byte :: late_bar));
    (url "AUDUSD" (Datetime.midnight 2024 3 16),
     mkresponse 200 (x00%byte :: bar)) ].

Definition start : State World := mkstate 0%nat [].

(** The string of given UTF-8 bytes. *)
Definition utf8 (bs : list Z) : string :=
  string_of_list_ascii (map (fun b => ascii_of_nat (Z.to_nat b)) bs).

(** The date 2024-03-15 with digits of the Arabic-Indic script: the
    year (U+0662 U+0660 U+0662 U+0664), the month (U+0660 U+0663), and
    the second digit of the day (U+0665). *)
Definition arabic_year : string :=
  (utf8 [0xD9; 0xA2; 0xD9; 0xA0; 0xD9; 0xA2; 0xD9; 0xA4] ++ "-03-15")%string.

Definition arabic_month : string :=
  ("2024-" ++ utf8 [0xD9; 0xA0; 0xD9; 0xA3] ++ "-15")%string.

Definition arabic_day : string :=
  ("2024-03-1" ++ utf8 [0xD9; 0xA5])%string.

Definition read_day := read_day World (serve site) stored.
Definition download_period := download_period World (serve site) stored.
Definition download_data := download_data World (serve site) stored.

(** 45 bytes: two bars cut short. *)
Definition buffer45 : bytes := firstn 45 (bar ++ bar').

(** One parsed record. *)
Definition sample : DataFrame :=
  [mkrow (Int 3661) (Int 123456) (Int 123500) (Int 123400) (Int 123450)
     (Float 1.5)].

End Example.

(** * Properties *)

(** ** Lists and results *)

Lemma In_range lo hi k : lo <= k < hi -> In k (range lo hi).
Proof.
  intros H. unfold range. apply in_map_iff.
  exists (Z.to_nat (k - lo)). split; [lia|].
  apply in_seq. lia.
Qed.

Lemma range_In lo hi k : In k (range lo hi) -> lo <= k < hi.
Proof.
  unfold range. intros H. apply in_map_iff in H.
  destruct H as [i [<- H]]. apply in_seq in H. lia.
Qed.

Lemma rmap_ok {A B : Type} (f : A -> result B) xs ys :
  rmap f xs = Ok ys <-> Forall2 (fun x y => f x = Ok y) xs ys.
Proof.
  revert ys. induction xs as [|x xs IH]; intros ys; cbn.
  - split; intros H.
    + injection H as <-. constructor.
    + inversion H. reflexivity.
  - destruct (f x) as [y|e] eqn:E; cbn.
    + destruct (rmap f xs) as [ys'|e] eqn:E'; cbn.
      * split; intros H.
        -- injection H as <-. constructor; [exact E | apply IH; reflexivity].
        -- inversion H as [|? y0 ? ys0 H1 H2]; subst.
           apply IH in H2. congruence.
      * split; [discriminate|]. intros H.
        inversion H as [|? y0 ? ys0 H1 H2]; subst. apply IH in H2. discriminate.
    + split; [discriminate|]. intros H. inversion H; subst. congruence.
Qed.

Lemma rmap_total {A B : Type} (f : A -> result B) xs :
  (forall x, In x xs -> exists y, f x = Ok y) ->
  exists ys, rmap f xs = Ok ys.
Proof.
  induction xs as [|x xs IH]; intros H; cbn.
  - eexists; reflexivity.
  - destruct (H x (or_introl eq_refl)) as [y ->].
    destruct IH as [ys ->]; [intros; apply H; right; assumption|].
    eexists; reflexivity.
Qed.

Lemma rmap_ext {A B : Type} (f g : A -> result B) xs :
  (forall x, In x xs -> f x = g x) -> rmap f xs = rmap g xs.
Proof.
  induction xs as [|x xs IH]; intros H; cbn; [reflexivity|].
  rewrite (H x (or_introl eq_refl)), IH; [reflexivity|].
  intros; apply H; right; assumption.
Qed.

Lemma len_nonneg {A : Type} (l : list A) : 0 <= len l.
Proof. unfold len. lia. Qed.

Lemma len_slice {A : Type} (l : list A) i j :
  0 <= i <= j -> j <= len l -> len (slice l i j) = j - i.
Proof.
  unfold len, slice. intros H1 H2.
  rewrite length_firstn, length_skipn. lia.
Qed.

Lemma slice_slice {A : Type} (l : list A) n i j :
  0 <= i <= j -> j <= n -> slice (slice l 0 n) i j = slice l i j.
Proof.
  intros H1 H2. unfold slice. cbn [Z.to_nat skipn]. rewrite Z.sub_0_r.
  rewrite skipn_firstn_comm, firstn_firstn. f_equal. lia.
Qed.

Lemma length_range lo hi : List.length (range lo hi) = Z.to_nat (hi - lo).
Proof. unfold range. now rewrite length_map, length_seq. Qed.

Lemma nth_error_range lo hi k :
  lo <= k < hi -> nth_error (range lo hi) (Z.to_nat (k - lo)) = Some k.
Proof.
  intros H. unfold range. rewrite nth_error_map, nth_error_seq.
  destruct (Nat.ltb_spec (Z.to_nat (k - lo)) (Z.to_nat (hi - lo))); [|lia].
  cbn. f_equal. lia.
Qed.

Lemma range_shift lo hi :
  range lo hi = map (fun d => lo + d) (range 0 (hi - lo)).
Proof.
  unfold range. rewrite map_map, Z.sub_0_r. apply map_ext. intros; lia.
Qed.

Lemma Forall2_nth_error {A B : Type} (R : A -> B -> Prop) xs ys i x :
  Forall2 R xs ys -> nth_error xs i = Some x ->
  exists y, nth_error ys i = Some y /\ R x y.
Proof.
  intros H. revert i. induction H as [|x0 y0 xs ys H0 H IH]; intros i Hi.
  - destruct i; discriminate.
  - destruct i as [|i]; cbn in *.
    + injection Hi as <-. eauto.
    + apply IH, Hi.
Qed.

(** ** Formatting: the digits written denote the number *)

Lemma decimal_app p q a :
  read_decimal (p ++ q) a =
  match read_decimal p a with
  | Some v => read_decimal q v
  | None => None
  end.
Proof.
  revert a. induction p as [|c p IH]; intros a; cbn; [reflexivity|].
  destruct (ascii_digit c); [apply IH | reflexivity].
Qed.

Lemma digit_char_value d :
  0 <= d <= 9 ->
  ascii_digit (PyFormat.digit_char d) = true /\
  Z.of_nat (nat_of_ascii (PyFormat.digit_char d)) - 48 = d.
Proof.
  intros H.
  assert (C : d = 0 \/ d = 1 \/ d = 2 \/ d = 3 \/ d = 4 \/
              d = 5 \/ d = 6 \/ d = 7 \/ d = 8 \/ d = 9) by lia.
  repeat (destruct C as [-> | C]; [split; reflexivity|]).
  subst d. split; reflexivity.
Qed.

Lemma decimal_digit_char d a :
  0 <= d <= 9 ->
  read_decimal (String (PyFormat.digit_char d) EmptyString) a =
  Some (10 * a + d).
Proof.
  intros H. destruct (digit_char_value d H) as [D V].
  cbn [read_decimal]. rewrite D, V. reflexivity.
Qed.

(** [digits] puts in front of [acc] the decimal writing of [n], when the
    fuel covers the binary length of [n]. *)
Lemma digits_spec fuel n acc :
  0 <= n < 2 ^ Z.of_nat fuel ->
  exists p k,
    PyFormat.digits fuel n acc = (p ++ acc)%string /\
    0 <= k /\
    forall a, read_decimal p a = Some (a * 10 ^ k + n).
Proof.
  revert n acc. induction fuel as [|fuel IH]; intros n acc H.
  - exists EmptyString, 0. cbn in *. repeat split; [lia|].
    intros a. f_equal. lia.
  - cbn [PyFormat.digits]. cbv zeta.
    pose proof (Z.mod_pos_bound n 10 ltac:(lia)) as Hm.
    destruct (n <? 10) eqn:E.
    + apply Z.ltb_lt in E. rewrite Z.mod_small by lia.
      exists (String (PyFormat.digit_char n) EmptyString), 1.
      repeat split; [lia|]. intros a.
      rewrite decimal_digit_char by lia. f_equal. lia.
    + apply Z.ltb_ge in E.
      destruct (IH (n / 10)
                  (String (PyFormat.digit_char (n mod 10)) acc))
        as (p & k & Ep & Hk & Hp).
      { rewrite Nat2Z.inj_succ, Z.pow_succ_r in H by lia.
        split; [apply Z.div_pos; lia|].
        apply Z.div_lt_upper_bound; lia. }
      exists (p ++ String (PyFormat.digit_char (n mod 10)) EmptyString)%string,
             (k + 1).
      split; [|split; [lia|]].
      * rewrite Ep. clear. generalize (PyFormat.digit_char (n mod 10)).
        intros c. induction p as [|x p IHp]; cbn [append];
          [reflexivity | now rewrite IHp].
      * intros a. rewrite decimal_app, Hp, decimal_digit_char by lia.
        f_equal. rewrite Z.pow_add_r, Z.pow_1_r by lia.
        pose proof (Z.div_mod n 10 ltac:(lia)). lia.
Qed.

(** [str(n)] read back as a decimal number is [n]. *)
Lemma str_of_nonneg_decimal n :
  0 <= n -> read_decimal (PyFormat.str_of_nonneg n) 0 = Some n.
Proof.
  intros H. unfold PyFormat.str_of_nonneg.
  destruct (digits_spec (S (Z.to_nat (Z.log2 n))) n EmptyString)
    as (p & k & Ep & Hk & Hp).
  { split; [exact H|]. rewrite Nat2Z.inj_succ, Z2Nat.id by apply Z.log2_nonneg.
    destruct (Z.eq_dec n 0) as [->|N]; [reflexivity|].
    apply Z.log2_spec. lia. }
  rewrite Ep.
  replace (p ++ "")%string with p
    by (clear; induction p as [|c p IHp]; cbn;
        [reflexivity | now rewrite <- IHp]).
  rewrite Hp. reflexivity.
Qed.

Lemma format_2_table :
  forallb (fun n => String.eqb (PyFormat.format_0d 2 n) (two_digits n))
    (range 0 100) = true.
Proof. vm_compute. reflexivity. Qed.

Lemma format_2 n : 0 <= n <= 99 -> PyFormat.format_0d 2 n = two_digits n.
Proof.
  intros H. pose proof format_2_table as T. rewrite forallb_forall in T.
  apply String.eqb_eq, T, In_range. lia.
Qed.

(** ** The calendar: ordinals and dates correspond *)

Module DatetimeFacts.
Import Datetime.

Lemma days_before_year_succ y :
  days_before_year (y + 1) = days_before_year y + 365 + b2z (is_leap y).
Proof.
  unfold days_before_year, is_leap, b2z.
  replace (y + 1 - 1) with y by lia.
  destruct (y mod 4 =? 0) eqn:E4; destruct (y mod 100 =? 0) eqn:E100;
  destruct (y mod 400 =? 0) eqn:E400; simpl;
  rewrite ?Z.eqb_eq, ?Z.eqb_neq in *;
  Z.to_euclidean_division_equations; lia.
Qed.

Lemma month_day_table leap :
  forallb (month_day_ok leap) (range 0 (365 + b2z leap)) = true.
Proof. destruct leap; vm_compute; reflexivity. Qed.

Lemma days_in_month_leap y m :
  days_in_month y m = days_in_month (if is_leap y then 4 else 1) m.
Proof. unfold days_in_month. destruct (is_leap y); reflexivity. Qed.

Lemma month_day_spec n y :
  0 <= n < 365 + b2z (is_leap y) ->
  let '(m, d) := month_day n (is_leap y) in
  1 <= m <= 12 /\ 1 <= d <= days_in_month y m /\
  days_before_month y m + d = n + 1.
Proof.
  intros H.
  pose proof (month_day_table (is_leap y)) as T.
  rewrite forallb_forall in T. specialize (T n (In_range _ _ _ H)).
  unfold month_day_ok in T. destruct (month_day n (is_leap y)) as [m d].
  rewrite !andb_true_iff, !Z.leb_le, Z.eqb_eq in T.
  rewrite days_in_month_leap. unfold days_before_month. lia.
Qed.


Lemma is_leap_digits a b c e :
  0 <= b <= 3 -> 0 <= c <= 24 -> 0 <= e <= 3 ->
  is_leap (a * 400 + 1 + b * 100 + c * 4 + e) =
  (e =? 3) && (negb (c =? 24) || (b =? 3)).
Proof.
  intros Hb Hc He. unfold is_leap.
  set (y := a * 400 + 1 + b * 100 + c * 4 + e).
  assert (M4 : y mod 4 = (e + 1) mod 4).
  { unfold y. replace (a * 400 + 1 + b * 100 + c * 4 + e)
      with (e + 1 + (a * 100 + b * 25 + c) * 4) by lia.
    apply Z.mod_add. lia. }
  assert (M100 : y mod 100 = (c * 4 + e + 1) mod 100).
  { unfold y. replace (a * 400 + 1 + b * 100 + c * 4 + e)
      with (c * 4 + e + 1 + (a * 4 + b) * 100) by lia.
    apply Z.mod_add. lia. }
  assert (M400 : y mod 400 = (b * 100 + c * 4 + e + 1) mod 400).
  { unfold y. replace (a * 400 + 1 + b * 100 + c * 4 + e)
      with (b * 100 + c * 4 + e + 1 + a * 400) by lia.
    apply Z.mod_add. lia. }
  rewrite M4, M100, M400. clear M4 M100 M400 y.
  destruct (e =? 3) eqn:E3; destruct (c =? 24) eqn:E24;
  destruct (b =? 3) eqn:E33; rewrite ?Z.eqb_eq, ?Z.eqb_neq in *; simpl;
  repeat match goal with
  | |- context [?x mod ?k =? 0] =>
      let E := fresh "E" in
      destruct (x mod k =? 0) eqn:E; rewrite ?Z.eqb_eq, ?Z.eqb_neq in E
  end; simpl; try reflexivity; exfalso;
  Z.to_euclidean_division_equations; lia.
Qed.

Lemma days_before_year_digits a b c e :
  0 <= b <= 3 -> 0 <= c <= 24 -> 0 <= e <= 3 ->
  days_before_year (a * 400 + 1 + b * 100 + c * 4 + e) =
  146097 * a + 36524 * b + 1461 * c + 365 * e.
Proof.
  intros Hb Hc He. unfold days_before_year.
  replace (a * 400 + 1 + b * 100 + c * 4 + e - 1)
    with (a * 400 + b * 100 + c * 4 + e) by lia.
  Z.to_euclidean_division_equations; lia.
Qed.

(** The decomposition of a day number into cycles. *)
Lemma ord2ymd_ymd2ord n :
  1 <= n <= MAXORDINAL ->
  let '(y, m, d) := ord2ymd n in
  valid_date y m d = true /\ ymd2ord y m d = n.
Proof.
  intros Hn. unfold ord2ymd, MAXORDINAL in *.
  set (n0 := n - 1).
  set (n400 := n0 / DI400Y). set (r400 := n0 mod DI400Y).
  set (n100 := r400 / DI100Y). set (r100 := r400 mod DI100Y).
  set (n4 := r100 / DI4Y). set (r4 := r100 mod DI4Y).
  set (n1 := r4 / 365). set (r1 := r4 mod 365).
  assert (E400 : n0 = DI400Y * n400 + r400 /\ 0 <= r400 < DI400Y)
    by (split; [apply Z.div_mod | apply Z.mod_pos_bound]; unfold DI400Y; lia).
  assert (E100 : r400 = DI100Y * n100 + r100 /\ 0 <= r100 < DI100Y)
    by (split; [apply Z.div_mod | apply Z.mod_pos_bound]; unfold DI100Y; lia).
  assert (E4 : r100 = DI4Y * n4 + r4 /\ 0 <= r4 < DI4Y)
    by (split; [apply Z.div_mod | apply Z.mod_pos_bound]; unfold DI4Y; lia).
  assert (E1 : r4 = 365 * n1 + r1 /\ 0 <= r1 < 365)
    by (split; [apply Z.div_mod | apply Z.mod_pos_bound]; lia).
  clearbody n400 r400 n100 r100 n4 r4 n1 r1. unfold DI400Y, DI100Y, DI4Y in *.
  assert (0 <= n400) by lia. assert (0 <= n100 <= 4) by lia.
  assert (0 <= n4 <= 24) by lia. assert (0 <= n1 <= 4) by lia.
  destruct ((n1 =? 4) || (n100 =? 4)) eqn:Esp.
  - (* the last day of a four-year or four-century cycle *)
    apply orb_true_iff in Esp. rewrite !Z.eqb_eq in Esp.
    assert (exists b c e, 0 <= b <= 3 /\ 0 <= c <= 24 /\ e = 3 /\
              (c = 24 -> b = 3) /\
              n400 * 400 + 1 + n100 * 100 + n4 * 4 + n1 - 1 =
              n400 * 400 + 1 + b * 100 + c * 4 + e /\
              n0 = 146097 * n400 + 36524 * b + 1461 * c + 365 * e + 365)
      as (b & c & e & Hb & Hc & He & Hcb & Ey & En).
    { destruct (Z.eq_dec n100 4) as [E|E].
      - exists 3, 24, 3. lia.
      - exists n100, n4, 3. lia. }
    rewrite Ey. unfold valid_date, ymd2ord, days_before_month, days_in_month.
    rewrite days_before_year_digits, is_leap_digits by lia.
    subst e. simpl (3 =? 3). simpl (12 =? 2). simpl (2 <? 12).
    replace (negb (c =? 24) || (b =? 3)) with true.
    2:{ destruct (c =? 24) eqn:E; [|reflexivity].
        apply Z.eqb_eq in E.
        rewrite (proj2 (Z.eqb_eq b 3)); [reflexivity|lia]. }
    cbn [andb DAYS_BEFORE_MONTH DAYS_IN_MONTH b2z].
    change (b2z ((2 <? 12) && true)) with 1.
    unfold MINYEAR, MAXYEAR. split; [|lia].
    rewrite !andb_true_iff, !Z.leb_le. lia.
  - apply orb_false_iff in Esp. rewrite !Z.eqb_neq in Esp.
    pose proof (is_leap_digits n400 n100 n4 n1) as HL.
    pose proof (days_before_year_digits n400 n100 n4 n1) as HD.
    set (y := n400 * 400 + 1 + n100 * 100 + n4 * 4 + n1) in *.
    rewrite <- HL by lia.
    pose proof (month_day_spec r1 y) as HM.
    destruct (month_day r1 (is_leap y)) as [m d].
    destruct HM as (Hm & Hd & Hs); [destruct (is_leap y); simpl; lia|].
    unfold valid_date, ymd2ord, MINYEAR, MAXYEAR.
    rewrite HD by lia.
    assert (Ey : y = n400 * 400 + 1 + n100 * 100 + n4 * 4 + n1) by reflexivity.
    assert (En : n0 = n - 1) by reflexivity.
    clearbody y n0. split; [|lia].
    rewrite !andb_true_iff, !Z.leb_le. lia.
Qed.

(** Dates are ordered as their ordinals are. *)
Lemma days_before_year_mono y y' :
  y <= y' -> days_before_year y <= days_before_year y'.
Proof.
  intros H. unfold days_before_year.
  Z.to_euclidean_division_equations; lia.
Qed.

Lemma ymd2ord_bounds y m d :
  valid_date y m d = true ->
  days_before_year y < ymd2ord y m d <= days_before_year (y + 1).
Proof.
  unfold valid_date. rewrite !andb_true_iff, !Z.leb_le.
  intros [[[[[Hy1 Hy2] Hm1] Hm2] Hd1] Hd2].
  rewrite days_before_year_succ. unfold ymd2ord, days_before_month.
  unfold days_in_month in Hd2.
  assert (Hm : m = 1 \/ m = 2 \/ m = 3 \/ m = 4 \/ m = 5 \/ m = 6 \/
               m = 7 \/ m = 8 \/ m = 9 \/ m = 10 \/ m = 11 \/ m = 12) by lia.
  destruct (is_leap y);
  repeat (destruct Hm as [-> | Hm]; [cbn in *; lia|]); subst m; cbn in *; lia.
Qed.

Lemma ymd2ord_range y m d :
  valid_date y m d = true -> 1 <= ymd2ord y m d <= MAXORDINAL.
Proof.
  intros H. pose proof (ymd2ord_bounds _ _ _ H) as B.
  unfold valid_date in H. rewrite !andb_true_iff, !Z.leb_le in H.
  unfold MINYEAR, MAXYEAR in H.
  pose proof (days_before_year_mono 1 y ltac:(lia)).
  pose proof (days_before_year_mono (y + 1) 10000 ltac:(lia)).
  change (days_before_year 1) with 0 in *.
  change (days_before_year 10000) with 3652059 in *.
  unfold MAXORDINAL. lia.
Qed.

Lemma ymd2ord_inj y m d y' m' d' :
  valid_date y m d = true -> valid_date y' m' d' = true ->
  ymd2ord y m d = ymd2ord y' m' d' -> (y, m, d) = (y', m', d').
Proof.
  intros V V' E.
  pose proof (ymd2ord_bounds _ _ _ V) as B.
  pose proof (ymd2ord_bounds _ _ _ V') as B'.
  assert (y = y').
  { destruct (Z.lt_trichotomy y y') as [L | [L | L]];
      [exfalso | exact L | exfalso].
    - pose proof (days_before_year_mono (y + 1) y' ltac:(lia)). lia.
    - pose proof (days_before_year_mono (y' + 1) y ltac:(lia)). lia. }
  subst y'. clear B B'.
  unfold valid_date in V, V'. rewrite !andb_true_iff, !Z.leb_le in V, V'.
  unfold ymd2ord, days_before_month in E. unfold days_in_month in V, V'.
  assert (Hm : m = 1 \/ m = 2 \/ m = 3 \/ m = 4 \/ m = 5 \/ m = 6 \/
               m = 7 \/ m = 8 \/ m = 9 \/ m = 10 \/ m = 11 \/ m = 12) by lia.
  assert (Hm' : m' = 1 \/ m' = 2 \/ m' = 3 \/ m' = 4 \/ m' = 5 \/ m' = 6 \/
               m' = 7 \/ m' = 8 \/ m' = 9 \/ m' = 10 \/ m' = 11 \/ m' = 12) by lia.
  assert (m = m' /\ d = d') as [-> ->]; [|reflexivity].
  destruct (is_leap y);
  repeat (destruct Hm as [-> | Hm]);
  repeat (destruct Hm' as [-> | Hm']); subst; cbn in *; lia.
Qed.

Lemma ymd2ord_ord2ymd y m d :
  valid_date y m d = true -> ord2ymd (ymd2ord y m d) = (y, m, d).
Proof.
  intros V. pose proof (ord2ymd_ymd2ord _ (ymd2ord_range _ _ _ V)) as H.
  destruct (ord2ymd (ymd2ord y m d)) as [[y' m'] d'].
  destruct H as [V' E]. apply ymd2ord_inj; assumption.
Qed.

(** *** Arithmetic on datetimes *)

Lemma valid_fields t :
  valid t = true ->
  valid_date (year t) (month t) (day t) = true /\
  0 <= hour t <= 23 /\ 0 <= minute t <= 59 /\ 0 <= second t <= 59 /\
  0 <= microsecond t <= 999999.
Proof.
  unfold valid, valid_time. rewrite !andb_true_iff, !Z.leb_le. tauto.
Qed.

Lemma timedelta_of_normal d s us :
  Z.abs d <= MAXDELTADAYS -> 0 <= s < 86400 -> 0 <= us < 1000000 ->
  timedelta_of d s us = Ok (mktimedelta d s us).
Proof.
  intros Hd Hs Hus. unfold timedelta_of.
  rewrite (Z.div_small us), (Z.mod_small us) by lia.
  rewrite Z.add_0_r, (Z.div_small s), (Z.mod_small s), Z.add_0_r by lia.
  destruct (Z.abs d >? MAXDELTADAYS) eqn:E; [|reflexivity].
  apply Z.gtb_lt in E. lia.
Qed.

(** What [timedelta_of] computes: the normal form of a number of
    microseconds. *)
Lemma timedelta_of_total d s us :
  let total := (d * 86400 + s) * 1000000 + us in
  Z.abs (total / 86400000000) <= MAXDELTADAYS ->
  timedelta_of d s us =
  Ok (mktimedelta (total / 86400000000)
        (total mod 86400000000 / 1000000) (total mod 1000000)).
Proof.
  intros total H. unfold timedelta_of.
  assert (E1 : d + (s + us / 1000000) / 86400 = total / 86400000000).
  { unfold total. Z.to_euclidean_division_equations. lia. }
  assert (E2 : (s + us / 1000000) mod 86400 = total mod 86400000000 / 1000000).
  { unfold total. Z.to_euclidean_division_equations. lia. }
  assert (E3 : us mod 1000000 = total mod 1000000).
  { unfold total. Z.to_euclidean_division_equations. lia. }
  rewrite E1, E2, E3.
  destruct (Z.abs (total / 86400000000) >? MAXDELTADAYS) eqn:E; [|reflexivity].
  apply Z.gtb_lt in E. lia.
Qed.

Lemma toordinal_range t :
  valid t = true -> 1 <= toordinal t <= MAXORDINAL.
Proof.
  intros V. apply valid_fields in V. apply ymd2ord_range. tauto.
Qed.


(** [datetime + timedelta] is the datetime of the sum of the instants,
    when that sum is one a datetime can hold. *)
Lemma add_representable t td :
  valid t = true ->
  representable (abs_us t + td_us td) ->
  add t td = Ok (of_abs_us (abs_us t + td_us td)).
Proof.
  intros V R. pose proof (toordinal_range t V) as Ho.
  destruct (valid_fields t V) as (_ & Hh & Hmi & Hs & Hus).
  unfold representable, MAXORDINAL in *. unfold add.
  rewrite timedelta_of_normal by (unfold MAXDELTADAYS; lia). cbn [rbind].
  unfold td_add. cbn [td_days td_seconds td_microseconds].
  set (total := abs_us t + td_us td) in *.
  pose proof (timedelta_of_total (toordinal t + td_days td)
                (second t + minute t * 60 + hour t * 3600 + td_seconds td)
                (microsecond t + td_microseconds td)) as T.
  cbv zeta in T.
  replace ((((toordinal t + td_days td) * 86400
             + (second t + minute t * 60 + hour t * 3600 + td_seconds td))
            * 1000000 + (microsecond t + td_microseconds td)))
    with total in T by (unfold total, abs_us, td_us; lia).
  assert (Hd : 1 <= total / 86400000000 <= 3652059).
  { split.
    - apply Z.div_le_lower_bound; lia.
    - apply Z.lt_succ_r. apply Z.div_lt_upper_bound; lia. }
  rewrite T by (unfold MAXDELTADAYS; lia). clear T. cbn [rbind].
  cbn [td_days td_seconds td_microseconds].
  replace ((0 <? total / 86400000000) && (total / 86400000000 <=? MAXORDINAL))
    with true
    by (symmetry; apply andb_true_iff; rewrite Z.ltb_lt, Z.leb_le;
        unfold MAXORDINAL; lia).
  unfold of_abs_us. destruct (ord2ymd (total / 86400000000)) as [[y m] d].
  reflexivity.
Qed.

Lemma of_abs_us_spec us :
  representable us -> valid (of_abs_us us) = true /\ abs_us (of_abs_us us) = us.
Proof.
  intros R. unfold representable, MAXORDINAL in R.
  assert (Hd : 1 <= us / 86400000000 <= 3652059).
  { split.
    - apply Z.div_le_lower_bound; lia.
    - apply Z.lt_succ_r. apply Z.div_lt_upper_bound; lia. }
  unfold of_abs_us.
  pose proof (ord2ymd_ymd2ord (us / 86400000000)) as O.
  destruct (ord2ymd (us / 86400000000)) as [[y m] d].
  destruct O as [Vd Eo]; [unfold MAXORDINAL; lia|]. split.
  - unfold valid. cbn [year month day hour minute second microsecond].
    rewrite Vd. cbn [andb]. unfold valid_time.
    rewrite !andb_true_iff, !Z.leb_le.
    Z.to_euclidean_division_equations. lia.
  - unfold abs_us, toordinal.
    cbn [year month day hour minute second microsecond]. rewrite Eo.
    Z.to_euclidean_division_equations. lia.
Qed.

(** Outside the range of datetimes the sum raises [OverflowError]. *)
Lemma add_overflow t td :
  valid t = true ->
  0 <= td_seconds td < 86400 -> 0 <= td_microseconds td < 1000000 ->
  ~ representable (abs_us t + td_us td) ->
  add t td = Raise OverflowError.
Proof.
  intros V Hts Htu R. pose proof (toordinal_range t V) as Ho.
  destruct (valid_fields t V) as (_ & Hh & Hmi & Hs & Hus).
  unfold representable, MAXORDINAL in *. unfold add.
  rewrite timedelta_of_normal by (unfold MAXDELTADAYS; lia). cbn [rbind].
  unfold td_add. cbn [td_days td_seconds td_microseconds].
  set (total := abs_us t + td_us td) in *.
  unfold timedelta_of at 1.
  set (d := toordinal t + td_days td + _).
  assert (Ed : d = total / 86400000000).
  { unfold d, total, abs_us, td_us. Z.to_euclidean_division_equations. lia. }
  destruct (Z.abs d >? MAXDELTADAYS) eqn:E; [reflexivity|].
  cbn [rbind td_days].
  destruct ((0 <? d) && (d <=? 3652059)) eqn:E'.
  - exfalso. apply andb_true_iff in E'. rewrite Z.ltb_lt, Z.leb_le in E'.
    apply R. rewrite Ed in E'. clearbody total.
    Z.to_euclidean_division_equations. lia.
  - unfold MAXORDINAL. rewrite E'. reflexivity.
Qed.

Lemma midnight_valid y m d :
  valid_date y m d = true -> valid (midnight y m d) = true.
Proof. intros V. unfold valid, midnight. cbn. rewrite V. reflexivity. Qed.

Lemma abs_us_midnight y m d :
  abs_us (midnight y m d) = ymd2ord y m d * 86400000000.
Proof. unfold abs_us, midnight, toordinal. cbn. lia. Qed.

Lemma of_abs_us_midnight k :
  of_abs_us (k * 86400000000) = day_of_ordinal k.
Proof.
  unfold of_abs_us, day_of_ordinal.
  rewrite Z.div_mul, Z.mod_mul by lia.
  replace (k * 86400000000 mod 1000000) with 0
    by (symmetry; replace (k * 86400000000) with (k * 86400 * 1000000) by lia;
        apply Z.mod_mul; lia).
  destruct (ord2ymd k) as [[y m] d]. reflexivity.
Qed.

(** Day number [k] of a period: [start_day + timedelta(days=k)]. *)
Lemma add_days y m d k :
  valid_date y m d = true ->
  1 <= ymd2ord y m d + k <= MAXORDINAL ->
  (let? delta := timedelta_of k 0 0 in add (midnight y m d) delta) =
  Ok (day_of_ordinal (ymd2ord y m d + k)).
Proof.
  intros V H. pose proof (ymd2ord_range _ _ _ V) as Ho.
  unfold MAXORDINAL in *.
  rewrite timedelta_of_normal by (unfold MAXDELTADAYS; lia). cbn [rbind].
  rewrite add_representable.
  - rewrite abs_us_midnight. unfold td_us.
    cbn [td_days td_seconds td_microseconds].
    rewrite <- of_abs_us_midnight. do 2 f_equal. lia.
  - apply midnight_valid, V.
  - rewrite abs_us_midnight. unfold td_us, representable, MAXORDINAL.
    cbn [td_days td_seconds td_microseconds]. lia.
Qed.

Lemma sub_midnights y m d y' m' d' :
  valid_date y m d = true -> valid_date y' m' d' = true ->
  sub (midnight y m d) (midnight y' m' d') =
  Ok (mktimedelta (ymd2ord y m d - ymd2ord y' m' d') 0 0).
Proof.
  intros V V'. pose proof (ymd2ord_range _ _ _ V).
  pose proof (ymd2ord_range _ _ _ V'). unfold MAXORDINAL in *.
  unfold sub, midnight, toordinal.
  cbn [year month day hour minute second microsecond].
  apply timedelta_of_normal; unfold MAXDELTADAYS; lia.
Qed.

Lemma day_of_ordinal_spec k :
  1 <= k <= MAXORDINAL ->
  valid (day_of_ordinal k) = true /\ toordinal (day_of_ordinal k) = k /\
  hour (day_of_ordinal k) = 0 /\ minute (day_of_ordinal k) = 0 /\
  second (day_of_ordinal k) = 0 /\ microsecond (day_of_ordinal k) = 0.
Proof.
  intros H. unfold day_of_ordinal.
  pose proof (ord2ymd_ymd2ord k H) as O.
  destruct (ord2ymd k) as [[y m] d]. destruct O as [V E].
  split; [apply midnight_valid, V|]. split; [exact E|]. repeat split.
Qed.

Lemma day_of_ordinal_toordinal y m d :
  valid_date y m d = true -> day_of_ordinal (ymd2ord y m d) = midnight y m d.
Proof.
  intros V. unfold day_of_ordinal. rewrite ymd2ord_ord2ymd by exact V.
  reflexivity.
Qed.

End DatetimeFacts.

(** ** [strptime]: the texts it accepts *)

Module StrptimeFacts.
Import Unicode Strptime.

Lemma length_append_string (p r : string) :
  String.length (p ++ r) = (String.length p + String.length r)%nat.
Proof. induction p as [|c p IH]; cbn; [reflexivity | now rewrite IH]. Qed.

Lemma some_inj {A : Type} (a b : A) : Some a = Some b -> a = b.
Proof. congruence. Qed.

(** *** Decimal digits *)

Lemma decimal_ascii c : 48 <= c <= 57 -> decimal c = Some (c - 48).
Proof.
  intros H. unfold decimal, digit_ranges. cbn [find fst snd].
  replace ((48 <=? c) && (c <=? 57)) with true.
  - cbv beta iota. cbn [fst]. rewrite Z.mod_small by lia. reflexivity.
  - symmetry. apply andb_true_iff. rewrite !Z.leb_le. lia.
Qed.

Lemma decimal_blank : decimal 32 = None.
Proof. vm_compute. reflexivity. Qed.

Lemma consumed_app (p r : list Z) : consumed (p ++ r) r = p.
Proof.
  unfold consumed. rewrite length_app.
  replace (List.length p + List.length r - List.length r)%nat
    with (List.length p + 0)%nat by lia.
  rewrite firstn_app_2. cbn. apply app_nil_r.
Qed.

Lemma consumed_1 a r : consumed (a :: r) r = [a].
Proof. apply (consumed_app [a] r). Qed.

Lemma consumed_2 a b r : consumed (a :: b :: r) r = [a; b].
Proof. apply (consumed_app [a; b] r). Qed.

Lemma consumed_4 a b c d r : consumed (a :: b :: c :: d :: r) r = [a; b; c; d].
Proof. apply (consumed_app [a; b; c; d] r). Qed.

Ltac codes :=
  change (ch "0") with 48 in *; change (ch "1") with 49 in *;
  change (ch "2") with 50 in *; change (ch "3") with 51 in *;
  change (ch "9") with 57 in *; change (ch " ") with 32 in *;
  change (ch "-") with 45 in *.

Ltac step :=
  match goal with
  | |- context [match ?s with [] => _ | _ :: _ => _ end] =>
      is_var s; destruct s
  | |- context [?x =? ?y] => destruct (Z.eqb_spec x y)
  | |- context [?x <=? ?y] => destruct (Z.leb_spec x y)
  | |- context [decimal ?c] =>
      first [ rewrite (decimal_ascii c) by lia
            | let D := fresh "D" in destruct (decimal c) eqn:D ]
  end; cbn [andb]; cbv beta iota; try (exfalso; lia).


Ltac leaf :=
  intros;
  match goal with
  | K : ?f _ ((_, consumed _ _) :: _) = Some _ |- _ =>
      rewrite ?consumed_1, ?consumed_2, ?consumed_4 in K;
      refine (ex_intro _ _ (ex_intro _ _ (conj _ (conj _ K))));
      [reflexivity|]
  end.

Lemma re_m_inv {X : Type} s g (k : list Z -> groups -> option X) x :
  re_match re_m s g k = Some x ->
  exists ms rest,
    s = ms ++ rest /\ month_value ms <> None /\
    k rest (("m"%string, ms) :: g) = Some x.
Proof.
  unfold re_m. cbn [re_match]. unfold in_range. codes.
  repeat step;
  repeat match goal with
  | |- context [match k ?r ?e with _ => _ end] =>
      let K := fresh "K" in destruct (k r e) eqn:K
  end; intros HM; try discriminate HM; try (injection HM as <-).
  all: leaf.
  all: unfold month_value, between; codes; repeat step; discriminate.
Qed.


Lemma re_d_inv {X : Type} s g (k : list Z -> groups -> option X) x :
  re_match re_d s g k = Some x ->
  exists ds rest,
    s = ds ++ rest /\ day_value ds <> None /\
    k rest (("d"%string, ds) :: g) = Some x.
Proof.
  unfold re_d. cbn [re_match]. unfold in_range, is_digit. codes.
  repeat step;
  repeat match goal with
  | |- context [match k ?r ?e with _ => _ end] =>
      let K := fresh "K" in destruct (k r e) eqn:K
  end; intros HM; try discriminate HM; try (injection HM as <-).
  all: leaf.
  all: unfold day_value, between; codes; repeat step; try discriminate.
  all: rewrite ?decimal_ascii in * by lia; congruence.
Qed.

Lemma re_Y_inv {X : Type} s g (k : list Z -> groups -> option X) x :
  re_match re_Y s g k = Some x ->
  exists ys rest,
    s = ys ++ rest /\ year_value ys <> None /\
    k rest (("Y"%string, ys) :: g) = Some x.
Proof.
  unfold re_Y. cbn [re_match]. unfold is_digit.
  destruct s as [|a [|b [|c [|d rest]]]]; cbv beta iota;
    repeat match goal with
    | |- context [decimal ?c] =>
        let D := fresh "D" in destruct (decimal c) eqn:D
    end; try discriminate.
  rewrite consumed_4. intros K. exists [a; b; c; d], rest.
  split; [reflexivity|]. split; [|exact K].
  unfold year_value. rewrite D, D0, D1, D2. discriminate.
Qed.


(** A text of a year is matched as it stands. *)
Lemma re_Y_text {X : Type} ys y rest g (k : list Z -> groups -> option X) :
  year_value ys = Some y ->
  re_match re_Y (ys ++ rest) g k = k rest (("Y"%string, ys) :: g).
Proof.
  unfold year_value.
  destruct ys as [|a [|b [|c [|d [|]]]]]; try discriminate.
  destruct (decimal a) eqn:Da; [|discriminate].
  destruct (decimal b) eqn:Db; [|discriminate].
  destruct (decimal c) eqn:Dc; [|discriminate].
  destruct (decimal d) eqn:Dd; [|discriminate].
  intros _. unfold re_Y. cbn [re_match app]. unfold is_digit.
  rewrite Da, Db, Dc, Dd, consumed_4. reflexivity.
Qed.

(** A text of a month in front of a hyphen is matched as it stands,
    when the rest of the pattern succeeds after it. *)
Lemma re_m_text {X : Type} ms v tail g (k : list Z -> groups -> option X) x :
  month_value ms = Some v ->
  k (45 :: tail) (("m"%string, ms) :: g) = Some x ->
  re_match re_m (ms ++ 45 :: tail) g k = Some x.
Proof.
  unfold month_value, between.
  destruct ms as [|a [|b [|]]]; try discriminate;
    unfold re_m; cbn [re_match app]; unfold in_range; codes;
    repeat step; try discriminate; intros _ K;
    rewrite ?consumed_1, ?consumed_2;
    first [exact K | rewrite K; reflexivity].
Qed.

(** A text of a day at the end of the string is matched as it stands. *)
Lemma re_d_text {X : Type} ds v g (k : list Z -> groups -> option X) x :
  day_value ds = Some v ->
  k [] (("d"%string, ds) :: g) = Some x ->
  re_match re_d ds g k = Some x.
Proof.
  unfold day_value, between.
  destruct ds as [|a [|b [|]]]; try discriminate;
    unfold re_d; cbn [re_match app]; unfold in_range, is_digit; codes;
    repeat step; try discriminate; intros _ K;
    rewrite ?(consumed_1 _ []), ?(consumed_2 _ _ []);
    first [exact K | rewrite K; reflexivity].
Qed.

(** *** The numbers that the groups stand for *)

Lemma int_year ys y : year_value ys = Some y -> int ys = Ok y.
Proof.
  unfold year_value.
  destruct ys as [|a [|b [|c [|d [|]]]]]; try discriminate.
  destruct (decimal a) as [va|] eqn:Da; [|discriminate].
  destruct (decimal b) as [vb|] eqn:Db; [|discriminate].
  destruct (decimal c) as [vc|] eqn:Dc; [|discriminate].
  destruct (decimal d) as [vd|] eqn:Dd; [|discriminate].
  intros E.
  replace y with (1000 * va + 100 * vb + 10 * vc + vd) by congruence.
  unfold int. cbn [lstrip]. codes.
  destruct (Z.eqb_spec a 32) as [->|_];
    [rewrite decimal_blank in Da; discriminate|].
  cbn [digits_value]. rewrite Da, Db, Dc, Dd. f_equal. lia.
Qed.

Lemma int_month ms m : month_value ms = Some m -> int ms = Ok m.
Proof.
  unfold month_value, between.
  destruct ms as [|a [|b [|]]]; try discriminate;
    unfold int; cbn [lstrip]; codes; repeat step; try discriminate;
    intros E; apply some_inj in E; rewrite <- E; cbn [digits_value];
    rewrite ?decimal_ascii by lia; f_equal; lia.
Qed.

Lemma int_day ds d : day_value ds = Some d -> int ds = Ok d.
Proof.
  unfold day_value, between.
  destruct ds as [|a [|b [|]]]; try discriminate;
    unfold int; cbn [lstrip]; codes; repeat step; try discriminate;
    intros E; apply some_inj in E; rewrite <- E; cbn [digits_value];
    rewrite ?decimal_ascii by lia; rewrite ?D; f_equal; lia.
Qed.

(** *** What [scan] reads *)

Lemma scan_inv t y m d : scan t = Ok (y, m, d) -> date_points t y m d.
Proof.
  unfold scan.
  destruct (re_match format_regex t [] (fun rest g => Some (rest, g)))
    as [[rest g]|] eqn:E; [|discriminate].
  unfold format_regex in E. cbn [re_match] in E. codes.
  apply re_Y_inv in E. destruct E as (ys & r1 & -> & Hy & E).
  destruct r1 as [|h1 r1]; [discriminate|].
  destruct (Z.eqb_spec h1 45) as [->|]; [|discriminate].
  apply re_m_inv in E. destruct E as (ms & r2 & -> & Hm & E).
  destruct r2 as [|h2 r2]; [discriminate|].
  destruct (Z.eqb_spec h2 45) as [->|]; [|discriminate].
  apply re_d_inv in E. destruct E as (ds & r3 & -> & Hd & E).
  apply some_inj in E. injection E as <- <-.
  destruct r3; [|discriminate].
  cbn [group String.eqb Ascii.eqb Bool.eqb].
  destruct (year_value ys) as [vy|] eqn:Ey; [|contradiction].
  destruct (month_value ms) as [vm|] eqn:Em; [|contradiction].
  destruct (day_value ds) as [vd|] eqn:Ed; [|contradiction].
  rewrite (int_year _ _ Ey), (int_month _ _ Em), (int_day _ _ Ed).
  cbv beta iota delta [rbind]. intros H.
  assert (E1 : y = vy) by congruence.
  assert (E2 : m = vm) by congruence.
  assert (E3 : d = vd) by congruence.
  subst y m d. exists ys, ms, ds. rewrite app_nil_r. auto.
Qed.

Lemma scan_text t y m d : date_points t y m d -> scan t = Ok (y, m, d).
Proof.
  intros (ys & ms & ds & -> & Hy & Hm & Hd).
  unfold scan, format_regex. cbn [re_match]. codes.
  rewrite (re_Y_text ys y _ _ _ Hy). cbv beta iota. rewrite Z.eqb_refl.
  rewrite (re_m_text ms m ds _ _
             ([], [("d"%string, ds); ("m"%string, ms); ("Y"%string, ys)]) Hm).
  - cbn [group String.eqb Ascii.eqb Bool.eqb].
    rewrite (int_year _ _ Hy), (int_month _ _ Hm), (int_day _ _ Hd).
    reflexivity.
  - cbv beta iota. rewrite Z.eqb_refl.
    apply (re_d_text ds d); [exact Hd | reflexivity].
Qed.

(** *** What [strptime] accepts *)

Lemma valid_date_ranges y m d :
  Datetime.valid_date y m d = true ->
  1 <= y <= 9999 /\ 1 <= m <= 12 /\ 1 <= d <= 31.
Proof.
  unfold Datetime.valid_date, Datetime.MINYEAR, Datetime.MAXYEAR.
  rewrite !andb_true_iff, !Z.leb_le.
  intros [[[[[Hy1 Hy2] Hm1] Hm2] Hd1] Hd2].
  assert (Datetime.days_in_month y m <= 31); [|lia].
  unfold Datetime.days_in_month.
  destruct ((m =? 2)%Z && Datetime.is_leap y); [lia|].
  assert (Hm : m = 1 \/ m = 2 \/ m = 3 \/ m = 4 \/ m = 5 \/ m = 6 \/
               m = 7 \/ m = 8 \/ m = 9 \/ m = 10 \/ m = 11 \/ m = 12) by lia.
  repeat (destruct Hm as [-> | Hm]; [cbn; lia|]). subst m. cbn. lia.
Qed.

Theorem strptime_accepts s t :
  strptime s = Ok t <->
  exists y m d,
    Datetime.valid_date y m d = true /\
    date_points (codepoints s) y m d /\
    t = Datetime.midnight y m d.
Proof.
  unfold strptime. split.
  - destruct (scan (codepoints s)) as [[[y m] d]|] eqn:E; [|discriminate].
    cbv beta iota delta [rbind].
    destruct (Datetime.valid_date y m d) eqn:V; [|discriminate].
    intros H. injection H as <-. exists y, m, d.
    split; [exact V|]. split; [|reflexivity]. apply scan_inv, E.
  - intros (y & m & d & V & H & ->).
    rewrite (scan_text _ _ _ _ H).
    cbv beta iota delta [rbind]. rewrite V. reflexivity.
Qed.

(** Every failure of [strptime] is a [ValueError]. *)
Lemma strptime_raises s e : strptime s = Raise e -> e = ValueError.
Proof.
  unfold strptime, scan.
  destruct (re_match format_regex (codepoints s) []
              (fun rest g => Some (rest, g)))
    as [[rest g]|]; [|cbn; congruence].
  destruct rest; [|cbn; congruence].
  assert (I : forall t e', int t = Raise e' -> e' = ValueError).
  { intros t e'. unfold int. destruct (lstrip t); [congruence|].
    destruct (digits_value _ _); congruence. }
  destruct (int (group "Y" g)) eqn:EY; [|apply I in EY; cbn; congruence].
  destruct (int (group "m" g)) eqn:Em; [|apply I in Em; cbn; congruence].
  destruct (int (group "d" g)) eqn:Ed; [|apply I in Ed; cbn; congruence].
  cbn. destruct (Datetime.valid_date _ _ _); congruence.
Qed.

(** *** The strict text of a date *)

Lemma format_4_table :
  forallb (fun y => String.eqb (PyFormat.format_0d 4 y) (four_digits y))
    (range 0 10000) = true.
Proof. vm_compute. reflexivity. Qed.

Lemma format_4 y : 0 <= y <= 9999 -> PyFormat.format_0d 4 y = four_digits y.
Proof.
  intros H. pose proof format_4_table as T. rewrite forallb_forall in T.
  apply String.eqb_eq, T, In_range. lia.
Qed.

Lemma codepoints_ascii a s :
  byte_of a < 128 -> codepoints (String a s) = byte_of a :: codepoints s.
Proof.
  intros H. cbn [codepoints]. cbv zeta.
  destruct (Z.ltb_spec (byte_of a) 128); [reflexivity | lia].
Qed.

Lemma codepoints_app p q :
  is_ascii p = true ->
  codepoints (p ++ q) = codepoints p ++ codepoints q.
Proof.
  induction p as [|a p IH]; [reflexivity|].
  cbn [is_ascii]. rewrite andb_true_iff, Z.ltb_lt. intros [Ha Hp].
  cbn [append]. rewrite !codepoints_ascii by exact Ha.
  cbn [app]. now rewrite IH.
Qed.

Lemma reads_spec value t n :
  reads value t n = true ->
  is_ascii t = true /\ value (codepoints t) = Some n.
Proof.
  unfold reads. rewrite andb_true_iff.
  destruct (value (codepoints t)) as [v|]; [|intros [_ H]; discriminate].
  rewrite Z.eqb_eq. intros [H ->]. auto.
Qed.

Lemma year_table :
  forallb (fun y => reads year_value (four_digits y) y) (range 0 10000)
  = true.
Proof. vm_compute. reflexivity. Qed.

Lemma month_table :
  forallb (fun m => reads month_value (two_digits m) m) (range 1 13) = true.
Proof. vm_compute. reflexivity. Qed.

Lemma day_table :
  forallb (fun d => reads day_value (two_digits d) d) (range 1 32) = true.
Proof. vm_compute. reflexivity. Qed.

(** The strict text of a date is a text of that date. *)
Lemma date_points_iso y m d :
  0 <= y <= 9999 -> 1 <= m <= 12 -> 1 <= d <= 31 ->
  date_points (codepoints (isoformat y m d)) y m d.
Proof.
  intros Hy Hm Hd. unfold isoformat.
  rewrite format_4, !format_2 by lia.
  pose proof year_table as Ty. rewrite forallb_forall in Ty.
  destruct (reads_spec _ _ _ (Ty y ltac:(apply In_range; lia))) as [Ay Vy].
  pose proof month_table as Tm. rewrite forallb_forall in Tm.
  destruct (reads_spec _ _ _ (Tm m ltac:(apply In_range; lia))) as [Am Vm].
  pose proof day_table as Td. rewrite forallb_forall in Td.
  destruct (reads_spec _ _ _ (Td d ltac:(apply In_range; lia))) as [_ Vd].
  assert (Eh : byte_of "-" = 45) by reflexivity.
  exists (codepoints (four_digits y)), (codepoints (two_digits m)),
         (codepoints (two_digits d)).
  split; [|auto].
  rewrite (codepoints_app _ _ Ay). f_equal.
  change ("-" ++ two_digits m ++ "-" ++ two_digits d)%string
    with (String "-" (two_digits m ++ String "-" (two_digits d))).
  rewrite codepoints_ascii, Eh by (rewrite Eh; lia). f_equal.
  rewrite (codepoints_app _ _ Am). reflexivity.
Qed.

End StrptimeFacts.

(** ** [bi5_to_df] *)

Lemma unpack_fields_length o cs bs :
  List.length (Struct.unpack_fields o cs bs) = List.length cs.
Proof.
  revert bs. induction cs as [|c cs IH]; intros bs; cbn; [reflexivity|].
  now rewrite IH.
Qed.

Lemma row_of_tuple_six t :
  List.length t = 6%nat -> exists r, row_of_tuple t = Ok r.
Proof.
  destruct t as [|a [|b [|c [|d [|e [|f [|g t]]]]]]]; try discriminate.
  intros _. eexists; reflexivity.
Qed.

Lemma row_of_tuple_inv t r : row_of_tuple t = Ok r -> List.length t = 6%nat.
Proof.
  destruct t as [|a [|b [|c [|d [|e [|f [|g t]]]]]]]; try discriminate.
  reflexivity.
Qed.

Lemma calcsize_nonneg fmt : 0 <= Struct.calcsize fmt.
Proof.
  unfold Struct.calcsize.
  induction (Struct.codes fmt) as [|c cs IH]; cbn [fold_right]; [lia|].
  destruct c; cbn [Struct.size]; lia.
Qed.

Section Chunks.

Variable raw : bytes.
Variable fmt : Struct.format.

Let c := Struct.calcsize fmt.
Let count := len raw / c.

Hypothesis c_pos : 0 < c.

Lemma chunk_in_buffer step :
  0 <= step < count -> 0 <= c * step /\ c * step + c <= len raw.
Proof.
  intros H. pose proof (Z.mul_div_le (len raw) c c_pos). fold count in H0.
  nia.
Qed.

Lemma unpack_chunk step :
  0 <= step < count ->
  Struct.unpack fmt (slice raw (c * step) (c * step + c)) =
  Ok (Struct.unpack_fields (Struct.order fmt) (Struct.codes fmt)
        (slice raw (c * step) (c * step + c))).
Proof.
  intros H. destruct (chunk_in_buffer step H) as [H1 H2].
  unfold Struct.unpack. rewrite len_slice by lia.
  fold c. replace (c * step + c - c * step =? c) with true; [reflexivity|].
  symmetry. apply Z.eqb_eq. lia.
Qed.

Lemma bi5_to_df_complete_chunks :
  bi5_to_df (Bytes (slice raw 0 (c * count))) fmt = bi5_to_df (Bytes raw) fmt.
Proof.
  pose proof (Z.mul_div_le (len raw) c c_pos) as Hle. fold count in Hle.
  assert (Hc : 0 <= count) by (apply Z.div_pos; [apply len_nonneg | lia]).
  unfold bi5_to_df. cbn [as_bytes rbind]. fold c.
  rewrite len_slice by nia. rewrite Z.sub_0_r.
  unfold floordiv. destruct (c =? 0) eqn:E; [reflexivity|]. cbn [rbind].
  rewrite Z.mul_comm, Z.div_mul by lia. fold count.
  rewrite (rmap_ext _ (fun step =>
             Struct.unpack fmt (slice raw (c * step) (c * step + c)))).
  - reflexivity.
  - intros step Hin. apply range_In in Hin. rewrite Z.mul_comm.
    rewrite slice_slice; [reflexivity | nia | nia].
Qed.

End Chunks.

(** C2, as amended. With a format of six fields and chunk size
    [c > 0], [bi5_to_df] returns [len(raw) // c] rows; row number [step]
    is the decoding of [raw[c*step : c*step + c]]; and the bytes after
    the last complete chunk play no part.  A buffer of 45 bytes and a
    six-field format of 20 bytes give two rows. *)
Theorem bi5_to_df_six_fields (raw : bytes) (fmt : Struct.format) :
  0 < Struct.calcsize fmt ->
  List.length (Struct.codes fmt) = 6%nat ->
  (exists df,
     bi5_to_df (Bytes raw) fmt = Ok df /\
     len df = len raw / Struct.calcsize fmt /\
     (forall step, 0 <= step < len raw / Struct.calcsize fmt ->
        exists fields r,
          Struct.unpack fmt
            (slice raw (Struct.calcsize fmt * step)
               (Struct.calcsize fmt * step + Struct.calcsize fmt))
          = Ok fields /\
          row_of_tuple fields = Ok r /\
          nth_error df (Z.to_nat step) = Some r) /\
     bi5_to_df
       (Bytes (slice raw 0
                 (Struct.calcsize fmt * (len raw / Struct.calcsize fmt))))
       fmt = Ok df) /\
  (Struct.calcsize Example.short_candle = 20 /\
   len Example.buffer45 = 45 /\
   exists r0 r1,
     bi5_to_df (Bytes Example.buffer45) Example.short_candle = Ok [r0; r1]).
Proof.
  intros Hc H6.
  split; [|repeat split; eexists _, _; vm_compute; reflexivity].
  set (c := Struct.calcsize fmt) in *.
  assert (Hn : 0 <= len raw / c) by (apply Z.div_pos; [apply len_nonneg | lia]).
  destruct (rmap_total
              (fun step => Struct.unpack fmt (slice raw (c * step) (c * step + c)))
              (range 0 (len raw / c))) as [data_list Ed].
  { intros step Hin. apply range_In in Hin. unfold c.
    rewrite (unpack_chunk raw fmt Hc step Hin). eexists; reflexivity. }
  pose proof Ed as Fd. apply rmap_ok in Fd.
  destruct (rmap_total row_of_tuple data_list) as [df Edf].
  { intros t Hin. apply In_nth_error in Hin. destruct Hin as [i Hi].
    apply row_of_tuple_six.
    destruct (Forall2_nth_error _ _ _ i t (Forall2_flip Fd) Hi)
      as (step & Hs & Hu).
    apply nth_error_In, range_In in Hs. unfold c in Hu.
    rewrite (unpack_chunk raw fmt Hc step Hs) in Hu. injection Hu as <-.
    rewrite unpack_fields_length. exact H6. }
  pose proof Edf as Fdf. apply rmap_ok in Fdf.
  assert (Eb : bi5_to_df (Bytes raw) fmt = Ok df).
  { unfold bi5_to_df. cbn [as_bytes rbind]. fold c. unfold floordiv.
    replace (c =? 0) with false by (symmetry; apply Z.eqb_neq; lia).
    cbn [rbind]. rewrite Ed. cbn [rbind]. exact Edf. }
  exists df. split; [exact Eb|]. split; [|split].
  - unfold len at 1. rewrite <- (Forall2_length Fdf), <- (Forall2_length Fd).
    rewrite length_range. lia.
  - intros step Hs.
    pose proof (nth_error_range 0 (len raw / c) step Hs) as Hr.
    rewrite Z.sub_0_r in Hr.
    destruct (Forall2_nth_error _ _ _ _ _ Fd Hr) as (fields & Hf & Hu).
    destruct (Forall2_nth_error _ _ _ _ _ Fdf Hf) as (r & Hrow & Ht).
    exists fields, r. auto.
  - unfold c. rewrite (bi5_to_df_complete_chunks raw fmt Hc). exact Eb.
Qed.

(** The theorem on the 45 bytes of [Example.buffer45] and the format
    [>4i2h]. *)
Lemma bi5_to_df_six_fields_witness :
  0 < Struct.calcsize Example.short_candle /\
  List.length (Struct.codes Example.short_candle) = 6%nat /\
  exists df,
    bi5_to_df (Bytes Example.buffer45) Example.short_candle = Ok df /\
    len df = len Example.buffer45 / Struct.calcsize Example.short_candle.
Proof.
  assert (Hc : 0 < Struct.calcsize Example.short_candle) by reflexivity.
  assert (H6 : List.length (Struct.codes Example.short_candle) = 6%nat)
    by reflexivity.
  split; [exact Hc|]. split; [exact H6|].
  destruct (bi5_to_df_six_fields Example.buffer45 Example.short_candle Hc H6)
    as [(df & E & L & _) _].
  exists df. split; [exact E | exact L].
Defined.

Lemma row_of_tuple_other t :
  List.length t <> 6%nat -> row_of_tuple t = Raise ValueError.
Proof.
  destruct t as [|a [|b [|c [|d [|e [|f [|g t]]]]]]]; try reflexivity.
  intros H. contradiction H. reflexivity.
Qed.

(** A format with another number of fields than six makes the
    construction of the table raise as soon as there is one complete
    chunk; without a complete chunk the table is empty. *)
Lemma bi5_to_df_other_fields (raw : bytes) (fmt : Struct.format) :
  0 < Struct.calcsize fmt ->
  List.length (Struct.codes fmt) <> 6%nat ->
  bi5_to_df (Bytes raw) fmt =
  if Struct.calcsize fmt <=? len raw then Raise ValueError else Ok [].
Proof.
  intros Hc H6. set (c := Struct.calcsize fmt) in *.
  destruct (rmap_total
              (fun step => Struct.unpack fmt (slice raw (c * step) (c * step + c)))
              (range 0 (len raw / c))) as [data_list Ed].
  { intros step Hin. apply range_In in Hin. unfold c.
    rewrite (unpack_chunk raw fmt Hc step Hin). eexists; reflexivity. }
  unfold bi5_to_df. cbn [as_bytes rbind]. fold c. unfold floordiv.
  replace (c =? 0) with false by (symmetry; apply Z.eqb_neq; lia).
  cbn [rbind]. rewrite Ed. cbn [rbind].
  apply rmap_ok in Ed. destruct (c <=? len raw) eqn:E.
  - apply Z.leb_le in E.
    assert (Hn : 1 <= len raw / c) by (apply Z.div_le_lower_bound; lia).
    pose proof (nth_error_range 0 (len raw / c) 0 ltac:(lia)) as H0.
    change (Z.to_nat (0 - 0)) with 0%nat in H0.
    destruct (Forall2_nth_error _ _ _ _ _ Ed H0) as (t & Ht & Hu).
    unfold c in Hu. rewrite (unpack_chunk raw fmt Hc 0) in Hu by (fold c; lia).
    injection Hu as <-.
    destruct data_list as [|t0 rest]; [discriminate|].
    cbn in Ht. injection Ht as ->.
    unfold DataFrame_of. cbn [rmap].
    rewrite row_of_tuple_other; [reflexivity|].
    rewrite unpack_fields_length. exact H6.
  - apply Z.leb_gt in E.
    rewrite Z.div_small in Ed by (pose proof (len_nonneg raw); lia).
    inversion Ed. reflexivity.
Qed.

(** C2 as stated fails: the five-field tick format of the provider has
    chunk size 20, and on a buffer of 45 bytes the construction of the
    six-column table raises [ValueError]; so it is not for every format
    of positive chunk size that [len(raw) // c] rows are returned. *)
Lemma bi5_to_df_five_fields :
  Struct.calcsize Example.tick = 20 /\
  len Example.buffer45 = 45 /\
  bi5_to_df (Bytes Example.buffer45) Example.tick = Raise ValueError /\
  ~ (forall (raw : bytes) (fmt : Struct.format),
       0 < Struct.calcsize fmt ->
       exists df,
         bi5_to_df (Bytes raw) fmt = Ok df /\
         len df = len raw / Struct.calcsize fmt).
Proof.
  assert (E : bi5_to_df (Bytes Example.buffer45) Example.tick
              = Raise ValueError) by (vm_compute; reflexivity).
  split; [reflexivity|]. split; [reflexivity|]. split; [exact E|].
  intros H. destruct (H Example.buffer45 Example.tick) as (df & E' & _).
  - reflexivity.
  - rewrite E in E'. discriminate E'.
Qed.

(** ** [normalize_df] *)

Section Normalize.

Import Datetime DatetimeFacts.

Lemma abs_us_valid t : valid t = true -> representable (abs_us t).
Proof.
  intros V. pose proof (toordinal_range t V).
  destruct (valid_fields t V) as (_ & Hh & Hmi & Hs & Hus).
  unfold representable, abs_us, MAXORDINAL in *. lia.
Qed.

(** [timedelta(seconds=x)] for an integer [x] lasts [x] seconds. *)
Lemma timedelta_seconds_int x :
  Z.abs (x * 1000000 / 86400000000) <= MAXDELTADAYS ->
  exists td, timedelta_seconds (Int x) = Ok td /\ td_us td = x * 1000000.
Proof.
  intros H. cbn [timedelta_seconds].
  pose proof (timedelta_of_total 0 x 0) as T. cbv zeta in T.
  replace ((0 * 86400 + x) * 1000000 + 0) with (x * 1000000) in T by lia.
  rewrite T by exact H. eexists. split; [reflexivity|].
  unfold td_us. cbn [td_days td_seconds td_microseconds].
  Z.to_euclidean_division_equations. lia.
Qed.

(** The time of a row whose offset is the integer [x]. *)
Lemma time_of_int day x :
  valid day = true ->
  representable (abs_us day + x * 1000000) ->
  (let? delta := timedelta_seconds (Int x) in add day delta) =
  Ok (of_abs_us (abs_us day + x * 1000000)).
Proof.
  intros V R. pose proof (abs_us_valid day V) as Rd.
  destruct (timedelta_seconds_int x) as (td & -> & Etd).
  { unfold representable, MAXORDINAL, MAXDELTADAYS in *.
    Z.to_euclidean_division_equations. lia. }
  cbn [rbind]. rewrite add_representable; rewrite ?Etd; auto.
Qed.

Lemma truediv_1000_number x :
  is_number x = true ->
  exists y, truediv_1000 x = Ok y /\ divided_by_1000 x y.
Proof.
  destruct x; try discriminate; intros _; eexists; split; reflexivity.
Qed.

Lemma parsed_row_cells r :
  parsed_row r = true ->
  is_number (time r) = true /\ is_number (open r) = true /\
  is_number (high r) = true /\ is_number (low r) = true /\
  is_number (close r) = true /\ is_number (volume r) = true.
Proof. unfold parsed_row. rewrite !andb_true_iff. tauto. Qed.

Lemma Forall2_trans_rel {A B C : Type} (R : A -> B -> Prop) (S : B -> C -> Prop)
  (T : A -> C -> Prop) xs ys zs :
  (forall x y z, R x y -> S y z -> T x z) ->
  Forall2 R xs ys -> Forall2 S ys zs -> Forall2 T xs zs.
Proof.
  intros H H1. revert zs. induction H1; intros zs H2; inversion H2; subst.
  - constructor.
  - constructor; eauto.
Qed.

(** What line 96 does to a table, row by row. *)
Lemma apply_time_rows day df df1 :
  apply_time day df = Ok df1 <->
  Forall2 (fun r r1 =>
             exists delta t,
               timedelta_seconds (time r) = Ok delta /\
               add day delta = Ok t /\
               r1 = mkrow (Date t) (open r) (high r) (low r) (close r)
                      (volume r))
          df df1.
Proof.
  unfold apply_time. split; intros H.
  - apply rmap_ok in H.
    eapply Forall2_impl; [|exact H]. intros r r1 E. cbn beta in E.
    destruct (timedelta_seconds (time r)) as [delta|] eqn:Ed; [|discriminate].
    cbn [rbind] in E. destruct (add day delta) as [t|] eqn:Ea; [|discriminate].
    cbn [rbind] in E. injection E as <-. eauto.
  - apply rmap_ok.
    eapply Forall2_impl; [|exact H]. intros r r1 (delta & t & -> & E & ->).
    cbn [rbind]. rewrite E. reflexivity.
Qed.

(** What line 97 does to a table of numbers, row by row. *)
Lemma scale_prices_rows df :
  Forall (fun r => is_number (open r) = true /\ is_number (high r) = true /\
                   is_number (low r) = true /\ is_number (close r) = true) df ->
  exists out,
    scale_prices df = Ok out /\
    Forall2 (fun r r' =>
               time r' = time r /\
               divided_by_1000 (open r) (open r') /\
               divided_by_1000 (high r) (high r') /\
               divided_by_1000 (low r) (low r') /\
               divided_by_1000 (close r) (close r') /\
               volume r' = volume r)
            df out.
Proof.
  intros H. unfold scale_prices.
  induction H as [|r df (Ho & Hh & Hl & Hc) H IH]; cbn [rmap].
  - exists []. split; [reflexivity | constructor].
  - destruct (truediv_1000_number _ Ho) as (o & -> & Do).
    destruct (truediv_1000_number _ Hh) as (h & -> & Dh).
    destruct (truediv_1000_number _ Hl) as (l & -> & Dl).
    destruct (truediv_1000_number _ Hc) as (c & -> & Dc).
    destruct IH as (out & -> & F). cbn [rbind].
    eexists. split; [reflexivity|]. constructor; [|exact F].
    cbn. auto 10.
Qed.

Lemma Forall2_Forall_l {A B : Type} (P : A -> Prop) (R S : A -> B -> Prop)
  xs ys :
  (forall x y, P x -> R x y -> S x y) ->
  Forall P xs -> Forall2 R xs ys -> Forall2 S xs ys.
Proof.
  intros H HP HR. induction HR; inversion HP; subst; constructor; auto.
Qed.

(** The two steps of [normalize_df] on parsed records whose times
    convert. *)
Lemma normalize_df_steps df day :
  Forall (fun r => parsed_row r = true) df ->
  Forall (time_converts day) df ->
  exists df1 out,
    normalize_df df day = Ok out /\
    Forall2 (fun r r1 =>
               exists delta t,
                 timedelta_seconds (time r) = Ok delta /\
                 add day delta = Ok t /\
                 r1 = mkrow (Date t) (open r) (high r) (low r) (close r)
                        (volume r))
            df df1 /\
    Forall2 (fun r r' =>
               time r' = time r /\
               divided_by_1000 (open r) (open r') /\
               divided_by_1000 (high r) (high r') /\
               divided_by_1000 (low r) (low r') /\
               divided_by_1000 (close r) (close r') /\
               volume r' = volume r)
            df1 out.
Proof.
  intros P T.
  destruct (rmap_total
              (fun r =>
                 let? delta := timedelta_seconds (time r) in
                 let? t := add day delta in
                 Ok (mkrow (Date t) (open r) (high r) (low r) (close r)
                       (volume r))) df) as [df1 E1].
  { intros r Hin. rewrite Forall_forall in T.
    destruct (T r Hin) as (delta & t & -> & Ea). cbn [rbind]. rewrite Ea.
    eexists; reflexivity. }
  fold (apply_time day df) in E1. pose proof E1 as F1.
  apply apply_time_rows in F1.
  destruct (scale_prices_rows df1) as (out & E2 & F2).
  { rewrite Forall_forall. intros r1 Hin. apply In_nth_error in Hin.
    destruct Hin as [i Hi].
    destruct (Forall2_nth_error _ _ _ i r1 (Forall2_flip F1) Hi)
      as (r & Hr & delta & t & _ & _ & ->).
    apply nth_error_In in Hr. rewrite Forall_forall in P.
    apply P, parsed_row_cells in Hr. cbn. tauto. }
  exists df1, out. split; [|split; assumption].
  unfold normalize_df. rewrite E1. cbn [rbind]. rewrite E2. reflexivity.
Qed.

(** C4. On parsed records, whenever the time column converts (line 96
    does not raise), [normalize_df] returns; it has divided exactly the
    four prices of every record by 1000 and left the volume as it
    was.  An open of 123456 becomes 123.456. *)
Theorem normalize_df_prices (df : DataFrame) (day : datetime) :
  Forall (fun r => parsed_row r = true) df ->
  Forall (time_converts day) df ->
  (exists out,
     normalize_df df day = Ok out /\
     Forall2 (fun r r' =>
                divided_by_1000 (open r) (open r') /\
                divided_by_1000 (high r) (high r') /\
                divided_by_1000 (low r) (low r') /\
                divided_by_1000 (close r) (close r') /\
                volume r' = volume r)
             df out) /\
  truediv_1000 (Int 123456) = Ok (Float 123.456).
Proof.
  intros P T. split; [|reflexivity].
  destruct (normalize_df_steps df day P T) as (df1 & out & E & F1 & F2).
  exists out. split; [exact E|].
  eapply Forall2_trans_rel; [|exact F1|exact F2].
  intros r r1 r' (delta & t & _ & _ & ->) H. cbn in H. tauto.
Qed.

(** The theorem on the record of [Example.sample] and the day
    2024-01-01. *)
Lemma normalize_df_prices_witness :
  (exists out,
     normalize_df Example.sample (midnight 2024 1 1) = Ok out /\
     Forall2 (fun r r' =>
                divided_by_1000 (open r) (open r') /\
                divided_by_1000 (high r) (high r') /\
                divided_by_1000 (low r) (low r') /\
                divided_by_1000 (close r) (close r') /\
                volume r' = volume r)
             Example.sample out) /\
  truediv_1000 (Int 123456) = Ok (Float 123.456).
Proof.
  apply (normalize_df_prices Example.sample (midnight 2024 1 1)).
  - repeat constructor.
  - repeat constructor.
    exists (mktimedelta 0 3661 0), (mkdatetime 2024 1 1 1 1 1 0).
    split; reflexivity.
Defined.

(** The example of the specification: an open of 123456 becomes
    123.456, and 3661 s after midnight of 2024-01-01 is 01:01:01. *)
Example normalize_df_sample :
  normalize_df Example.sample (midnight 2024 1 1) =
  Ok [mkrow (Date (mkdatetime 2024 1 1 1 1 1 0))
        (Float 123.456) (Float 123.5) (Float (PrimFloat.div 123400 1000))
        (Float 123.45) (Float 1.5)].
Proof. vm_compute. reflexivity. Qed.

(** C5. For a valid day and records with integer offsets, each
    [day + offset] within the range of datetimes: [normalize_df] returns
    and the time of every row is the datetime whose instant is that of
    [day] plus [offset] seconds.  An offset of 3661 on 2024-01-01 gives
    2024-01-01 01:01:01. *)
Theorem normalize_df_time (df : DataFrame) (day : datetime) :
  valid day = true ->
  Forall (fun r => parsed_row r = true) df ->
  Forall (fun r => exists x, time r = Int x /\
                             representable (abs_us day + x * 1000000)) df ->
  (exists out,
     normalize_df df day = Ok out /\
     Forall2 (fun r r' =>
                exists x t,
                  time r = Int x /\ time r' = Date t /\ valid t = true /\
                  abs_us t = abs_us day + x * 1000000)
             df out) /\
  (exists r',
     normalize_df Example.sample (midnight 2024 1 1) = Ok [r'] /\
     time r' = Date (mkdatetime 2024 1 1 1 1 1 0)).
Proof.
  intros V P R.
  split; [|eexists; split; [vm_compute; reflexivity | reflexivity]].
  assert (T : Forall (time_converts day) df).
  { eapply Forall_impl; [|exact R]. intros r (x & Ex & Rx).
    pose proof (time_of_int day x V Rx) as E. unfold time_converts.
    rewrite Ex.
    destruct (timedelta_seconds (Int x)) as [delta|]; [|discriminate].
    cbn [rbind] in E. eauto. }
  destruct (normalize_df_steps df day P T) as (df1 & out & E & F1 & F2).
  exists out. split; [exact E|].
  assert (F : Forall2 (fun r r' =>
                         exists delta t, timedelta_seconds (time r) = Ok delta /\
                                         add day delta = Ok t /\
                                         time r' = Date t) df out).
  { eapply Forall2_trans_rel; [|exact F1|exact F2].
    intros r r1 r' (delta & t & Ed & Ea & ->) H. cbn in H.
    exists delta, t. intuition. }
  eapply Forall2_Forall_l; [|exact R|exact F].
  intros r r' (x & Ex & Rx) (delta & t & Ed & Ea & Et).
  exists x, t. pose proof (time_of_int day x V Rx) as E'.
  rewrite Ex in Ed. rewrite Ed in E'. cbn [rbind] in E'. rewrite Ea in E'.
  injection E' as ->. destruct (of_abs_us_spec _ Rx). auto.
Qed.

(** The theorem on the record of [Example.sample], 3661 s after
    midnight, and the day 2024-01-01. *)
Lemma normalize_df_time_witness :
  (exists out,
     normalize_df Example.sample (midnight 2024 1 1) = Ok out /\
     Forall2 (fun r r' =>
                exists x t,
                  time r = Int x /\ time r' = Date t /\ valid t = true /\
                  abs_us t = abs_us (midnight 2024 1 1) + x * 1000000)
             Example.sample out) /\
  (exists r',
     normalize_df Example.sample (midnight 2024 1 1) = Ok [r'] /\
     time r' = Date (mkdatetime 2024 1 1 1 1 1 0)).
Proof.
  apply (normalize_df_time Example.sample (midnight 2024 1 1)).
  - reflexivity.
  - repeat constructor.
  - repeat constructor. exists 3661. split; [reflexivity|].
    unfold representable. vm_compute. split; [discriminate | reflexivity].
Defined.

End Normalize.

(** ** Chronological order *)

Lemma Ok_inj {A : Type} (a b : A) : Ok a = Ok b -> a = b.
Proof. congruence. Qed.

Lemma range_empty lo hi : hi <= lo -> range lo hi = [].
Proof.
  intros H. unfold range. replace (Z.to_nat (hi - lo)) with 0%nat by lia.
  reflexivity.
Qed.


Lemma range_cons lo hi : lo < hi -> range lo hi = lo :: range (lo + 1) hi.
Proof.
  intros H. unfold range.
  replace (Z.to_nat (hi - lo)) with (S (Z.to_nat (hi - (lo + 1)))) by lia.
  cbn [seq map]. f_equal; [lia|].
  rewrite <- seq_shift, map_map. apply map_ext. intros k. lia.
Qed.

Lemma ascending_cons a l :
  Forall (fun b => a <= b) l -> ascending l = true ->
  ascending (a :: l) = true.
Proof.
  intros H A. cbn [ascending]. rewrite A, andb_true_r.
  destruct l as [|b l]; [reflexivity|].
  inversion H; subst. now apply Z.leb_le.
Qed.

Lemma ascending_app l1 l2 mid :
  ascending l1 = true -> ascending l2 = true ->
  Forall (fun a => a <= mid) l1 -> Forall (fun b => mid <= b) l2 ->
  ascending (l1 ++ l2) = true.
Proof.
  intros A1 A2 H1 H2. induction l1 as [|a l1 IH]; [exact A2|].
  inversion H1 as [|? ? Ha Hl1]; subst.
  cbn [ascending] in A1. apply andb_true_iff in A1. destruct A1 as [A0 A1].
  cbn [app ascending]. rewrite (IH A1 Hl1), andb_true_r.
  destruct l1 as [|b l1]; cbn [app].
  - destruct l2 as [|c l2]; [reflexivity|].
    inversion H2; subst. apply Z.leb_le. lia.
  - exact A0.
Qed.

Lemma instants_app xs ys :
  instants (xs ++ ys) =
  match instants xs, instants ys with
  | Some a, Some b => Some (a ++ b)
  | _, _ => None
  end.
Proof.
  induction xs as [|r xs IH]; cbn [app instants].
  - destruct (instants ys); reflexivity.
  - rewrite IH. destruct (instant (time r)); [|reflexivity].
    destruct (instants xs); [|reflexivity].
    destruct (instants ys); reflexivity.
Qed.

Lemma chronological_in_app lo mid hi xs ys :
  lo <= mid <= hi ->
  chronological_in lo mid xs -> chronological_in mid hi ys ->
  chronological_in lo hi (xs ++ ys).
Proof.
  intros H (l1 & E1 & A1 & B1) (l2 & E2 & A2 & B2).
  exists (l1 ++ l2). rewrite instants_app, E1, E2.
  split; [reflexivity|]. split.
  - apply (ascending_app l1 l2 mid); try assumption.
    + eapply Forall_impl; [|exact B1]. cbn. intros; lia.
    + eapply Forall_impl; [|exact B2]. cbn. intros; lia.
  - apply Forall_app. split.
    + eapply Forall_impl; [|exact B1]. cbn. intros; lia.
    + eapply Forall_impl; [|exact B2]. cbn. intros; lia.
Qed.

Lemma chronological_in_order lo hi rows :
  chronological_in lo hi rows -> chronological rows = true.
Proof.
  intros (l & E & A & _). unfold chronological. now rewrite E.
Qed.

(** What [normalize_df] makes of the times. *)
Lemma normalize_df_times df day rows :
  normalize_df df day = Ok rows ->
  Forall2 (fun r r' =>
             exists delta t,
               timedelta_seconds (time r) = Ok delta /\
               Datetime.add day delta = Ok t /\ time r' = Date t)
          df rows.
Proof.
  unfold normalize_df.
  destruct (apply_time day df) as [df1|] eqn:E1; [|discriminate].
  cbn [rbind].
  destruct (scale_prices df1) as [df2|] eqn:E2; [|discriminate].
  cbn [rbind]. intros H. injection H as <-.
  apply apply_time_rows in E1. unfold scale_prices in E2.
  apply rmap_ok in E2.
  eapply Forall2_trans_rel; [|exact E1|exact E2].
  cbn beta. intros r r1 r2 (delta & t & Ed & Et & ->) H.
  exists delta, t. split; [exact Ed|]. split; [exact Et|].
  cbn [open high low close time volume] in H.
  destruct (truediv_1000 (open r)); [|discriminate].
  destruct (truediv_1000 (high r)); [|discriminate].
  destruct (truediv_1000 (low r)); [|discriminate].
  destruct (truediv_1000 (close r)); [|discriminate].
  cbn [rbind] in H. injection H as <-. reflexivity.
Qed.

Lemma instants_cons r rows t l :
  time r = Date t -> instants rows = Some l ->
  instants (r :: rows) = Some (abs_us t :: l).
Proof. intros E1 E2. cbn [instants]. now rewrite E1, E2. Qed.

Lemma rbind_Ok {A B : Type} (a : A) (f : A -> result B) :
  rbind (Ok a) f = f a.
Proof. reflexivity. Qed.

Lemma midnight_abs_us k :
  1 <= k <= Datetime.MAXORDINAL ->
  abs_us (day_of_ordinal k) = k * 86400000000.
Proof.
  intros Hk.
  destruct (DatetimeFacts.day_of_ordinal_spec k Hk)
    as (V & Ek & Eh & Em & Es & Eu).
  unfold abs_us. rewrite Ek, Eh, Em, Es, Eu. lia.
Qed.

(** The instant of a whole second of a day. *)
Lemma second_of_day k x delta t :
  1 <= k <= Datetime.MAXORDINAL -> 0 <= x < 86400 ->
  timedelta_seconds (Int x) = Ok delta ->
  Datetime.add (day_of_ordinal k) delta = Ok t ->
  abs_us t = k * 86400000000 + x * 1000000.
Proof.
  intros Hk Hx Ed Et.
  destruct (DatetimeFacts.day_of_ordinal_spec k Hk) as (V & _).
  pose proof (midnight_abs_us k Hk) as Ea.
  assert (R : representable (abs_us (day_of_ordinal k) + x * 1000000)).
  { rewrite Ea. unfold representable, Datetime.MAXORDINAL in *. lia. }
  pose proof (time_of_int (day_of_ordinal k) x V R) as T.
  rewrite Ed, rbind_Ok, Et in T.
  apply Ok_inj in T. rewrite T, <- Ea.
  apply DatetimeFacts.of_abs_us_spec, R.
Qed.

Lemma ordered_rows_from k lo df rows :
  1 <= k <= Datetime.MAXORDINAL -> 0 <= lo ->
  day_ordered lo df = true ->
  Forall2 (fun r r' =>
             exists delta t,
               timedelta_seconds (time r) = Ok delta /\
               Datetime.add (day_of_ordinal k) delta = Ok t /\
               time r' = Date t)
          df rows ->
  chronological_in (k * 86400000000 + lo * 1000000) ((k + 1) * 86400000000)
    rows.
Proof.
  intros Hk H0 O N. revert lo H0 O.
  induction N as [|r r' df rows (delta & t & Ed & Et & Er) N IH];
    intros lo H0 O.
  - exists []. repeat split; constructor.
  - cbn [day_ordered] in O. destruct (time r) as [x| | |] eqn:Tr;
      try discriminate.
    rewrite !andb_true_iff, Z.leb_le, Z.ltb_lt in O.
    destruct O as [[Hlo Hx] O].
    destruct (IH x ltac:(lia) O) as (l & El & Al & Bl).
    pose proof (second_of_day k x delta t Hk ltac:(lia) Ed Et) as Ab.
    exists (abs_us t :: l).
    split; [apply instants_cons; assumption|]. rewrite Ab. split.
    + apply ascending_cons; [|exact Al].
      eapply Forall_impl; [|exact Bl]. cbn. intros; lia.
    + constructor; [lia|].
      eapply Forall_impl; [|exact Bl]. cbn. intros; lia.
Qed.

(** The rows of the day of ordinal [k], from records in order, are in
    chronological order and lie in that day. *)
Lemma ordered_day_rows k rows :
  1 <= k <= Datetime.MAXORDINAL ->
  ordered_day (day_of_ordinal k) rows ->
  chronological_in (k * 86400000000) ((k + 1) * 86400000000) rows.
Proof.
  intros Hk (df & O & N). apply normalize_df_times in N.
  replace (k * 86400000000) with (k * 86400000000 + 0 * 1000000) at 1 by lia.
  apply (ordered_rows_from k 0 df); [exact Hk | lia | exact O | exact N].
Qed.

(** Days one after the other, each with its rows in order: the rows
    of all of them are in chronological order. *)
Lemma ordered_days_rows n : forall a tables,
  1 <= a -> a + Z.of_nat n <= Datetime.MAXORDINAL + 1 ->
  Forall2 ordered_day
    (map day_of_ordinal (range a (a + Z.of_nat n))) tables ->
  chronological_in (a * 86400000000) ((a + Z.of_nat n) * 86400000000)
    (List.concat tables).
Proof.
  induction n as [|n IH]; intros a tables Ha Hb F.
  - rewrite range_empty in F by lia. inversion F; subst.
    exists []. repeat split; constructor.
  - replace (a + Z.of_nat (S n)) with (a + 1 + Z.of_nat n) in * by lia.
    rewrite range_cons in F by lia. cbn [map] in F.
    inversion F as [|day rows days rest Hd Hr]; subst.
    cbn [List.concat].
    apply (chronological_in_app _ ((a + 1) * 86400000000)); [lia| |].
    + apply ordered_day_rows; [lia | exact Hd].
    + apply IH; [lia | lia | exact Hr].
Qed.

(** ** The pipeline *)

Section PipelineFacts.

Variable World : Type.
Variable requests_get : string -> World -> result response * World.
Variable lzma_decompress : bytes -> option bytes.

Notation "x <- m ;; k" := (bind m (fun x => k))
  (at level 61, m at next level, right associativity).
Notation "m ;;; k" := (bind m (fun _ => k))
  (at level 61, right associativity).

Local Abbreviation read_day := (read_day World requests_get lzma_decompress).
Local Abbreviation process_day :=
  (process_day World requests_get lzma_decompress).
Local Abbreviation period_step :=
  (period_step World requests_get lzma_decompress).
Local Abbreviation period_rows :=
  (period_rows World requests_get lzma_decompress).
Local Abbreviation download_period :=
  (download_period World requests_get lzma_decompress).
Local Abbreviation data_step := (data_step World requests_get lzma_decompress).
Local Abbreviation download_data :=
  (download_data World requests_get lzma_decompress).
Local Abbreviation symbol_block :=
  (symbol_block World requests_get lzma_decompress).
Local Abbreviation tagged_block :=
  (tagged_block World requests_get lzma_decompress).

Implicit Types st : State World.

Lemma bind_ret_r {A : Type} (m : M World A) st :
  (x <- m ;; ret x) st = m st.
Proof. unfold bind, ret. destruct (m st) as [[a|e] st']; reflexivity. Qed.

Lemma bind_lift_lift {A B C : Type} (r : result A) (f : A -> result B)
  (k : B -> M World C) st :
  (a <- lift r ;; b <- lift (f a) ;; k b) st =
  (b <- lift (let? a := r in f a) ;; k b) st.
Proof. unfold bind, lift. destruct r as [a|e]; reflexivity. Qed.

Lemma for_each_ext {A B : Type} (body body' : B -> A -> M World B) xs acc st :
  (forall acc x st, In x xs -> body acc x st = body' acc x st) ->
  for_each World xs acc body st = for_each World xs acc body' st.
Proof.
  revert acc st. induction xs as [|x xs IH]; intros acc st H; cbn [for_each].
  - reflexivity.
  - unfold bind. rewrite (H acc x st) by (left; reflexivity).
    destruct (body' acc x st) as [[acc'|e] st']; [|reflexivity].
    apply IH. intros; apply H; right; assumption.
Qed.

(** A loop that appends what each element yields is the concatenation
    of what the elements yield, one after the other. *)
Lemma for_each_append {A B : Type} (f : A -> M World (list B)) xs acc st :
  for_each World xs acc (fun acc x => r <- f x ;; ret (acc ++ r)) st =
  (rs <- map_m World f xs ;; ret (acc ++ List.concat rs)) st.
Proof.
  revert acc st. induction xs as [|x xs IH]; intros acc st;
    cbn [for_each map_m].
  - unfold bind, ret. cbn. now rewrite app_nil_r.
  - unfold bind, ret in *.
    destruct (f x st) as [[r|e] st']; [|reflexivity].
    rewrite IH.
    destruct (map_m World f xs st') as [[rs|e] st'']; [|reflexivity].
    cbn [List.concat]. now rewrite app_assoc.
Qed.

Lemma map_m_map {A B C : Type} (g : A -> B) (f : B -> M World C) xs st :
  map_m World f (map g xs) st = map_m World (fun x => f (g x)) xs st.
Proof.
  revert st. induction xs as [|x xs IH]; intros st; cbn [map map_m].
  - reflexivity.
  - unfold bind. destruct (f (g x) st) as [[y|e] st']; [|reflexivity].
    rewrite IH. reflexivity.
Qed.

Lemma map_m_ext {A B : Type} (f g : A -> M World B) xs st :
  (forall x st, In x xs -> f x st = g x st) ->
  map_m World f xs st = map_m World g xs st.
Proof.
  revert st. induction xs as [|x xs IH]; intros st H; cbn [map_m].
  - reflexivity.
  - unfold bind. rewrite (H x st) by (left; reflexivity).
    destruct (g x st) as [[y|e] st']; [|reflexivity].
    rewrite IH; [reflexivity|]. intros; apply H; right; assumption.
Qed.

(** One turn of the loop of [download_period] processes one day and
    appends its rows. *)
Lemma period_step_day symbol y m d fmt dataset k st :
  Datetime.valid_date y m d = true ->
  1 <= Datetime.ymd2ord y m d + k <= Datetime.MAXORDINAL ->
  period_step symbol (Datetime.midnight y m d) fmt dataset k st =
  (r <- process_day symbol fmt (day_of_ordinal (Datetime.ymd2ord y m d + k)) ;;
   ret (dataset ++ r)) st.
Proof.
  intros V H. unfold period_step. rewrite bind_lift_lift.
  rewrite (DatetimeFacts.add_days y m d k V H).
  set (current_day := day_of_ordinal (Datetime.ymd2ord y m d + k)).
  unfold process_day, bind, lift, ret.
  destruct (read_day symbol current_day st) as [[raw_day|e] st'];
    [|reflexivity].
  destruct (ne_int raw_day (-1)); [|now rewrite app_nil_r].
  destruct (bi5_to_df raw_day fmt) as [df|e]; [|reflexivity].
  destruct (normalize_df df current_day) as [df'|e]; reflexivity.
Qed.

Lemma toordinal_midnight y m d :
  Datetime.toordinal (Datetime.midnight y m d) = Datetime.ymd2ord y m d.
Proof. reflexivity. Qed.

Lemma strptime_midnight s t :
  Strptime.strptime s = Ok t ->
  exists y m d, Datetime.valid_date y m d = true /\ t = Datetime.midnight y m d.
Proof.
  intros H. apply StrptimeFacts.strptime_accepts in H.
  destruct H as (y & m & d & V & _ & ->). eauto.
Qed.

(** [download_period] between two dates that parse: the days of
    [[start, end)] in ascending order, each processed in its turn, their
    rows in that order. *)
Lemma download_period_parsed symbol start_day end_day fmt sd ed st :
  Strptime.strptime start_day = Ok sd ->
  Strptime.strptime end_day = Ok ed ->
  download_period symbol start_day end_day fmt st =
  period_rows symbol fmt (days_between sd ed) st.
Proof.
  intros Es Ee. unfold download_period. rewrite Es, Ee.
  destruct (strptime_midnight _ _ Es) as (y & m & d & V & ->).
  destruct (strptime_midnight _ _ Ee) as (y' & m' & d' & V' & ->).
  unfold bind at 1 2 3. unfold lift at 1 2 3.
  rewrite (DatetimeFacts.sub_midnights y' m' d' y m d V' V).
  cbn [Datetime.td_days]. rewrite bind_ret_r.
  unfold period_rows, days_between, Datetime.toordinal, Datetime.midnight.
  cbn [Datetime.year Datetime.month Datetime.day].
  fold (Datetime.midnight y m d).
  pose proof (DatetimeFacts.ymd2ord_range _ _ _ V) as R.
  pose proof (DatetimeFacts.ymd2ord_range _ _ _ V') as R'.
  rewrite (for_each_ext _
             (fun acc k =>
                r <- process_day symbol fmt
                       (day_of_ordinal (Datetime.ymd2ord y m d + k)) ;;
                ret (acc ++ r))).
  - rewrite (for_each_append
               (fun k => process_day symbol fmt
                           (day_of_ordinal (Datetime.ymd2ord y m d + k)))).
    rewrite (range_shift (Datetime.ymd2ord y m d)), map_map.
    unfold bind. rewrite map_m_map. reflexivity.
  - intros acc k st' Hin. apply range_In in Hin.
    apply period_step_day; [exact V | lia].
Qed.

(** A date that does not parse stops [download_period] at once: no
    request, no output, the state as it was. *)
Lemma download_period_unparsed symbol start_day end_day fmt st :
  (exists e, Strptime.strptime start_day = Raise e) \/
  (exists e, Strptime.strptime end_day = Raise e) ->
  download_period symbol start_day end_day fmt st = (Raise ValueError, st).
Proof.
  intros H. unfold download_period, bind, lift.
  destruct (Strptime.strptime start_day) as [sd|e] eqn:Es.
  - destruct H as [[e H] | [e H]]; [discriminate|]. rewrite H.
    now rewrite (StrptimeFacts.strptime_raises _ _ H).
  - now rewrite (StrptimeFacts.strptime_raises _ _ Es).
Qed.


(** *** [read_day] *)

Lemma read_day_not_found symbol day st res w' :
  requests_get (url symbol day) (world st) = (Ok res, w') ->
  status_code res = 404 ->
  read_day symbol day st =
  (Ok (Int (-1)),
   mkstate w' (log st ++ [EvGet (url symbol day); EvPrint "download failed..."])).
Proof.
  intros E H. unfold read_day, bind, get, print, emit, ret. rewrite E, H.
  cbn. now rewrite <- app_assoc.
Qed.

(** C3. A day for which the service answers 404: [read_day] returns
    the sentinel, the turn of the loop leaves the table as it was, and
    the loop goes on with the remaining days from the state reached. *)
Theorem not_found_day_skipped symbol start_day fmt dataset d rest
  current_day res w' st :
  (let? delta := Datetime.timedelta_of d 0 0
   in Datetime.add start_day delta) = Ok current_day ->
  requests_get (url symbol current_day) (world st) = (Ok res, w') ->
  status_code res = 404 ->
  let st' :=
    mkstate w'
      (log st ++ [EvGet (url symbol current_day);
                  EvPrint "download failed..."]) in
  read_day symbol current_day st = (Ok (Int (-1)), st') /\
  period_step symbol start_day fmt dataset d st = (Ok dataset, st') /\
  for_each World (d :: rest) dataset (period_step symbol start_day fmt) st =
  for_each World rest dataset (period_step symbol start_day fmt) st'.
Proof.
  intros Ed E H st'.
  pose proof (read_day_not_found symbol current_day st res w' E H) as R.
  fold st' in R.
  assert (S : period_step symbol start_day fmt dataset d st
              = (Ok dataset, st')).
  { unfold period_step. rewrite bind_lift_lift, Ed.
    unfold bind, lift. rewrite R. reflexivity. }
  split; [exact R|]. split; [exact S|].
  cbn [for_each]. unfold bind. rewrite S. reflexivity.
Qed.

(** C8. The service answers with another status than 404 and the body
    is empty, or the decompressor refuses it: [read_day] reads the local
    variable [decompresseddata] that was never assigned, and raises
    [UnboundLocalError].  With an empty body no decompression is
    attempted; on a corrupt stream the diagnostic is printed first. *)
Theorem read_day_unbound symbol day st res w' :
  requests_get (url symbol day) (world st) = (Ok res, w') ->
  status_code res <> 404 ->
  (content res = [] ->
   read_day symbol day st =
   (Raise UnboundLocalError,
    mkstate w' (log st ++ [EvGet (url symbol day)]))) /\
  (content res <> [] -> lzma_decompress (content res) = None ->
   read_day symbol day st =
   (Raise UnboundLocalError,
    mkstate w'
      (log st ++ [EvGet (url symbol day); EvDecompress (content res);
                  EvPrint "decompress failed. continuing.."]))).
Proof.
  intros E H. unfold read_day, bind, get, print, emit, ret, read_local, raise.
  rewrite E. replace (status_code res =? 404) with false
    by (symmetry; apply Z.eqb_neq; exact H).
  split.
  - intros ->. reflexivity.
  - intros Hc Hd. destruct (content res) as [|b bs] eqn:Ec; [congruence|].
    replace (len (b :: bs) =? 0) with false
      by (symmetry; apply Z.eqb_neq; unfold len; cbn; lia).
    cbn [negb]. rewrite Hd. cbn. now rewrite <- !app_assoc.
Qed.

(** The first thing [read_day] does is to request the address of the
    day. *)
Lemma read_day_requests symbol day st :
  exists r st' evs,
    read_day symbol day st = (r, st') /\
    log st' = log st ++ EvGet (url symbol day) :: evs.
Proof.
  unfold read_day, bind, get, print, emit, ret, read_local, raise.
  destruct (requests_get (url symbol day) (world st)) as [[res|e] w'].
  - destruct (status_code res =? 404).
    + eexists _, _, _. split; [reflexivity|]. cbn. now rewrite <- app_assoc.
    + destruct (negb (len (content res) =? 0)).
      * destruct (lzma_decompress (content res)).
        -- eexists _, _, _. split; [reflexivity|]. cbn.
           now rewrite <- app_assoc.
        -- eexists _, _, _. split; [reflexivity|]. cbn.
           now rewrite <- !app_assoc.
      * eexists _, _, []. split; reflexivity.
  - eexists _, _, []. split; reflexivity.
Qed.

(** *** [download_period] *)

(** C6, as amended. Between two dates that parse, [download_period]
    is the processing, one after the other and in ascending order, of
    the calendar days of the half-open interval from the start day to
    the end day, the rows of each day appended after those of the days
    before; these days are exactly the dates whose ordinal is at least
    that of the start and below that of the end.  The rows of a day
    keep the order of the records of its file: the table is in
    chronological order when every file lists its records in ascending
    order of times that are whole seconds of its day. *)
Theorem download_period_days symbol start_day end_day fmt sd ed st :
  Strptime.strptime start_day = Ok sd ->
  Strptime.strptime end_day = Ok ed ->
  Datetime.toordinal sd <= Datetime.toordinal ed ->
  download_period symbol start_day end_day fmt st =
  period_rows symbol fmt (days_between sd ed) st /\
  map Datetime.toordinal (days_between sd ed) =
  range (Datetime.toordinal sd) (Datetime.toordinal ed) /\
  (forall y m d,
     Datetime.valid_date y m d = true ->
     In (Datetime.midnight y m d) (days_between sd ed) <->
     Datetime.toordinal sd <= Datetime.ymd2ord y m d < Datetime.toordinal ed) /\
  (forall tables st',
     map_m World (process_day symbol fmt) (days_between sd ed) st =
     (Ok tables, st') ->
     Forall2 ordered_day (days_between sd ed) tables ->
     download_period symbol start_day end_day fmt st =
     (Ok (List.concat tables), st') /\
     chronological (List.concat tables) = true).
Proof.
  intros Es Ee Hle.
  pose proof (download_period_parsed symbol start_day end_day fmt sd ed st
                Es Ee) as P.
  split; [exact P|].
  destruct (strptime_midnight _ _ Es) as (y0 & m0 & d0 & V0 & ->).
  destruct (strptime_midnight _ _ Ee) as (y1 & m1 & d1 & V1 & ->).
  pose proof (DatetimeFacts.ymd2ord_range _ _ _ V0) as R0.
  pose proof (DatetimeFacts.ymd2ord_range _ _ _ V1) as R1.
  unfold days_between in *. rewrite !toordinal_midnight in *.
  split; [|split].
  - rewrite map_map. rewrite <- (map_id (range _ _)) at 2.
    apply map_ext_in. intros k Hk. apply range_In in Hk.
    destruct (DatetimeFacts.day_of_ordinal_spec k) as (_ & Ho & _);
      [lia | exact Ho].
  - intros y m d V. rewrite in_map_iff. split.
    + intros (k & Ek & Hk). apply range_In in Hk.
      destruct (DatetimeFacts.day_of_ordinal_spec k) as (_ & Ho & _); [lia|].
      rewrite Ek, toordinal_midnight in Ho. lia.
    + intros Hk. exists (Datetime.ymd2ord y m d). split.
      * apply DatetimeFacts.day_of_ordinal_toordinal, V.
      * apply In_range, Hk.
  - intros tables st' Et F. split.
    + rewrite P. unfold period_rows, bind. rewrite Et. reflexivity.
    + apply (chronological_in_order
               (Datetime.ymd2ord y0 m0 d0 * 86400000000)
               (Datetime.ymd2ord y1 m1 d1 * 86400000000)).
      replace (Datetime.ymd2ord y1 m1 d1)
        with (Datetime.ymd2ord y0 m0 d0
              + Z.of_nat (Z.to_nat (Datetime.ymd2ord y1 m1 d1
                                    - Datetime.ymd2ord y0 m0 d0)))
        in F |- * by lia.
      apply ordered_days_rows; [lia | lia | exact F].
Qed.

(** *** [download_data] *)

Lemma map_m_app {A B : Type} (f : A -> M World B) xs ys st :
  map_m World f (xs ++ ys) st =
  (a <- map_m World f xs ;; b <- map_m World f ys ;; ret (a ++ b)) st.
Proof.
  revert st. induction xs as [|x xs IH]; intros st; cbn [app map_m].
  - unfold bind, ret.
    destruct (map_m World f ys st) as [[b|e] st']; reflexivity.
  - unfold bind, ret in *. destruct (f x st) as [[y|e] st1]; [|reflexivity].
    rewrite IH. destruct (map_m World f xs st1) as [[a|e] st2]; [|reflexivity].
    destruct (map_m World f ys st2) as [[b|e] st3]; reflexivity.
Qed.

Lemma download_data_blocks_of symbols symbols_names start_day end_day fmt st :
  download_data symbols symbols_names start_day end_day fmt st =
  (blocks <- map_m World (symbol_block start_day end_day fmt)
               (combine symbols symbols_names) ;;
   ret (List.concat blocks)) st.
Proof.
  unfold download_data.
  rewrite (for_each_ext _
             (fun acc sn => r <- symbol_block start_day end_day fmt sn ;;
                            ret (acc ++ r))).
  - rewrite (for_each_append (symbol_block start_day end_day fmt)).
    reflexivity.
  - intros acc [s n] st' _. unfold data_step, symbol_block, bind, ret.
    destruct (print World _ st') as [[u|e] st1]; [|reflexivity].
    destruct (download_period s start_day end_day fmt st1) as [[tmp|e] st2];
      reflexivity.
Qed.


(** Between dates that parse, the block that [download_data] makes is
    the block of the days of the interval, refused when it has no row. *)
Lemma symbol_block_with_rows start_day end_day fmt sd ed sn st :
  Strptime.strptime start_day = Ok sd ->
  Strptime.strptime end_day = Ok ed ->
  symbol_block start_day end_day fmt sn st =
  with_rows (tagged_block fmt (days_between sd ed) sn) st.
Proof.
  intros Es Ee. destruct sn as [s n].
  unfold symbol_block, with_rows, tagged_block, bind.
  destruct (print World _ st) as [[u|e] st1]; [|reflexivity].
  rewrite (download_period_parsed s start_day end_day fmt sd ed st1 Es Ee).
  destruct (period_rows s fmt (days_between sd ed) st1) as [[rows|e] st2];
    [|reflexivity].
  destruct rows; reflexivity.
Qed.

Lemma map_m_with_rows {A B : Type} (f : A -> M World (list B)) xs blocks st
  st' :
  map_m World f xs st = (Ok blocks, st') ->
  Forall (fun b => b <> []) blocks ->
  map_m World (fun x => with_rows (f x)) xs st = (Ok blocks, st').
Proof.
  revert blocks st. induction xs as [|x xs IH]; intros blocks st E H.
  - exact E.
  - cbn [map_m] in *. unfold bind in *. unfold with_rows at 1. unfold bind.
    destruct (f x st) as [[b|e] s1]; [|discriminate].
    destruct (map_m World f xs s1) as [[bs|e] s2] eqn:Exs; [|discriminate].
    cbn in E. injection E as <- <-. inversion H as [|? ? Hb Hbs]; subst.
    destruct b as [|r b]; [congruence|].
    cbn. rewrite (IH bs s1 Exs Hbs). reflexivity.
Qed.

(** C7. With as many display names as symbols, the pairs are the
    symbols and the names in step, and [download_data] makes one block
    for each pair, in the order of the symbols: the rows of the days of
    the interval, in ascending order of the days, every row with the
    display name of the pair.  When every block has a row the table is
    the concatenation of the blocks.  A block without a row, which is
    what a symbol gives when none of its days has a file, is refused:
    line 175 raises [ValueError], no table is returned and the blocks
    made before are lost. *)
Theorem download_data_blocks symbols symbols_names start_day end_day fmt
  sd ed st :
  List.length symbols = List.length symbols_names ->
  Strptime.strptime start_day = Ok sd ->
  Strptime.strptime end_day = Ok ed ->
  map fst (combine symbols symbols_names) = symbols /\
  map snd (combine symbols symbols_names) = symbols_names /\
  download_data symbols symbols_names start_day end_day fmt st =
  (blocks <- map_m World
               (fun sn => with_rows (tagged_block fmt (days_between sd ed) sn))
               (combine symbols symbols_names) ;;
   ret (List.concat blocks)) st /\
  (forall blocks st',
     map_m World (tagged_block fmt (days_between sd ed))
       (combine symbols symbols_names) st = (Ok blocks, st') ->
     Forall (fun b => b <> []) blocks ->
     download_data symbols symbols_names start_day end_day fmt st =
     (Ok (List.concat blocks), st')) /\
  (forall pre sn post blocks st1 st2,
     combine symbols symbols_names = pre ++ sn :: post ->
     map_m World (tagged_block fmt (days_between sd ed)) pre st =
     (Ok blocks, st1) ->
     Forall (fun b => b <> []) blocks ->
     tagged_block fmt (days_between sd ed) sn st1 = (Ok [], st2) ->
     download_data symbols symbols_names start_day end_day fmt st =
     (Raise ValueError, st2)).
Proof.
  intros Hl Es Ee.
  assert (E : download_data symbols symbols_names start_day end_day fmt st =
              (blocks <- map_m World
                 (fun sn =>
                    with_rows (tagged_block fmt (days_between sd ed) sn))
                 (combine symbols symbols_names) ;;
               ret (List.concat blocks)) st).
  { rewrite download_data_blocks_of. unfold bind at 1 2.
    rewrite (map_m_ext (symbol_block start_day end_day fmt)
               (fun sn =>
                  with_rows (tagged_block fmt (days_between sd ed) sn)));
      [reflexivity|].
    intros sn st' _. apply symbol_block_with_rows; assumption. }
  split; [|split; [|split; [exact E|split]]].
  - clear E. revert symbols_names Hl.
    induction symbols as [|s ss IH]; intros [|n ns] Hl; try discriminate.
    + reflexivity.
    + cbn. f_equal. apply IH. now injection Hl.
  - clear E. revert symbols_names Hl.
    induction symbols as [|s ss IH]; intros [|n ns] Hl; try discriminate.
    + reflexivity.
    + cbn. f_equal. apply IH. now injection Hl.
  - intros blocks st' Eb Hb. rewrite E. unfold bind.
    rewrite (map_m_with_rows _ _ _ _ _ Eb Hb). reflexivity.
  - intros pre sn post blocks st1 st2 Ep Eb Hb Esn.
    rewrite E, Ep. unfold bind at 1. rewrite map_m_app. unfold bind at 1.
    rewrite (map_m_with_rows _ _ _ _ _ Eb Hb).
    cbn [map_m]. unfold bind, with_rows. unfold bind. rewrite Esn.
    reflexivity.
Qed.


(** C9, as amended. [download_period] fails at once, with
    [ValueError], before any request and without output, exactly when
    the start day or the end day is not a date text: a year of four
    decimal digits, of any script; a hyphen; a month written [10] to
    [12], [01] to [09] or [1] to [9] in ASCII digits; a hyphen; a day
    written [30], [31], [1] or [2] and a decimal digit of any script,
    [01] to [09], [1] to [9], or a blank and [1] to [9]; the whole
    naming a date that exists in the years 1 to 9999.  When both are
    date texts they parse and the pipeline runs over the days between
    them.  Every date that exists, written strictly as YYYY-MM-DD, is a
    date text. *)
Theorem download_period_dates symbol start_day end_day fmt st :
  (~ date_text start_day \/ ~ date_text end_day ->
   download_period symbol start_day end_day fmt st = (Raise ValueError, st)) /\
  (date_text start_day -> date_text end_day ->
   exists sd ed,
     Strptime.strptime start_day = Ok sd /\
     Strptime.strptime end_day = Ok ed /\
     download_period symbol start_day end_day fmt st =
     period_rows symbol fmt (days_between sd ed) st) /\
  (forall y m d,
     Datetime.valid_date y m d = true -> date_text (isoformat y m d)).
Proof.
  assert (A : forall s, date_text s <-> exists t, Strptime.strptime s = Ok t).
  { intros s. unfold date_text. split.
    - intros (y & m & d & V & Hin). exists (Datetime.midnight y m d).
      apply StrptimeFacts.strptime_accepts. eauto 6.
    - intros (t & E). apply StrptimeFacts.strptime_accepts in E.
      destruct E as (y & m & d & V & Hin & _). eauto. }
  assert (B : forall s, ~ date_text s ->
              exists e, Strptime.strptime s = Raise e).
  { intros s H. destruct (Strptime.strptime s) as [t|e] eqn:E.
    - exfalso. apply H, A. eauto.
    - eauto. }
  split; [|split].
  - intros [H | H]; apply download_period_unparsed; [left | right];
      apply B, H.
  - intros Hs He. apply A in Hs. apply A in He.
    destruct Hs as [sd Es]. destruct He as [ed Ee]. exists sd, ed.
    split; [exact Es|]. split; [exact Ee|].
    apply download_period_parsed; assumption.
  - intros y m d V. exists y, m, d. split; [exact V|].
    pose proof (StrptimeFacts.valid_date_ranges _ _ _ V).
    apply StrptimeFacts.date_points_iso; lia.
Qed.

End PipelineFacts.

(** ** The address of a day *)

Section Paths.

Variable sep : ascii.

Lemma split_on_nonempty s : split_on sep s <> [].
Proof.
  destruct s as [|c s]; cbn; [discriminate|].
  destruct (Ascii.eqb c sep); [discriminate|].
  destruct (split_on sep s); discriminate.
Qed.

Lemma split_on_app (a b : string) :
  split_on sep (a ++ String sep b) = split_on sep a ++ split_on sep b.
Proof.
  induction a as [|c a IH]; cbn.
  - now rewrite Ascii.eqb_refl.
  - destruct (Ascii.eqb c sep); [now rewrite IH|].
    rewrite IH. pose proof (split_on_nonempty a) as N.
    destruct (split_on sep a); [contradiction | reflexivity].
Qed.

Lemma split_on_free (t : string) :
  free_of sep t = true -> split_on sep t = [t].
Proof.
  induction t as [|c t IH]; cbn; [reflexivity|].
  rewrite andb_true_iff, negb_true_iff. intros [-> H].
  now rewrite IH.
Qed.

Lemma free_of_app (a b : string) :
  free_of sep (a ++ b) = free_of sep a && free_of sep b.
Proof.
  induction a as [|c a IH]; cbn; [reflexivity|].
  now rewrite IH, andb_assoc.
Qed.

End Paths.

Lemma digit_char_not_slash d :
  0 <= d <= 9 -> Ascii.eqb (PyFormat.digit_char d) "/" = false.
Proof.
  intros H.
  assert (C : d = 0 \/ d = 1 \/ d = 2 \/ d = 3 \/ d = 4 \/
              d = 5 \/ d = 6 \/ d = 7 \/ d = 8 \/ d = 9) by lia.
  repeat (destruct C as [-> | C]; [reflexivity|]). subst d. reflexivity.
Qed.

Lemma digits_free fuel n acc :
  free_of "/" acc = true -> free_of "/" (PyFormat.digits fuel n acc) = true.
Proof.
  revert n acc. induction fuel as [|fuel IH]; intros n acc H; cbn.
  - exact H.
  - assert (F : free_of "/" (String (PyFormat.digit_char (n mod 10)) acc)
                = true).
    { cbn [free_of]. rewrite digit_char_not_slash, H; [reflexivity|].
      pose proof (Z.mod_pos_bound n 10). lia. }
    destruct (n <? 10); [exact F | apply IH, F].
Qed.

Lemma zfill_free w s :
  free_of "/" s = true -> free_of "/" (PyFormat.zfill w s) = true.
Proof.
  intros H. unfold PyFormat.zfill. rewrite free_of_app, H, andb_true_r.
  induction (w - String.length s)%nat as [|k IH]; cbn; [reflexivity | exact IH].
Qed.

Lemma format_0d_free w n : free_of "/" (PyFormat.format_0d w n) = true.
Proof.
  unfold PyFormat.format_0d, PyFormat.str_of_nonneg.
  destruct (n <? 0); [cbn [free_of]; rewrite zfill_free; [reflexivity|] |
                      apply zfill_free]; apply digits_free; reflexivity.
Qed.

Lemma append_assoc_string (a b c : string) :
  ((a ++ b) ++ c = a ++ (b ++ c))%string.
Proof. induction a as [|x a IH]; cbn; [reflexivity | now rewrite IH]. Qed.

(** The last four segments of the address are the year, the month
    segment, the day and the file name, whatever the symbol. *)
Lemma url_segments symbol day :
  exists front,
    rev (split_on "/" (url symbol day)) =
    file_name
    :: PyFormat.format_0d 2 (Datetime.day day)
    :: PyFormat.format_0d 2 (Datetime.month day - 1)
    :: PyFormat.format_0d 4 (Datetime.year day)
    :: front.
Proof.
  exists (rev (split_on "/" (url_prefix ++ "/" ++ symbol))).
  unfold url.
  replace (url_prefix ++ "/" ++ symbol ++ "/"
           ++ PyFormat.format_0d 4 (Datetime.year day) ++ "/"
           ++ PyFormat.format_0d 2 (Datetime.month day - 1) ++ "/"
           ++ PyFormat.format_0d 2 (Datetime.day day) ++ "/" ++ file_name)%string
    with ((url_prefix ++ "/" ++ symbol)
          ++ String "/" (PyFormat.format_0d 4 (Datetime.year day)
          ++ String "/" (PyFormat.format_0d 2 (Datetime.month day - 1)
          ++ String "/" (PyFormat.format_0d 2 (Datetime.day day)
          ++ String "/" file_name))))%string.
  2:{ rewrite !append_assoc_string. reflexivity. }
  rewrite !split_on_app.
  rewrite !(split_on_free "/" (PyFormat.format_0d _ _)) by apply format_0d_free.
  rewrite (split_on_free "/" file_name) by reflexivity.
  rewrite !rev_app_distr. reflexivity.
Qed.

Lemma month_segment_two_digits m :
  1 <= m <= 12 -> PyFormat.format_0d 2 (m - 1) = two_digits (m - 1).
Proof.
  intros H.
  assert (C : m = 1 \/ m = 2 \/ m = 3 \/ m = 4 \/ m = 5 \/ m = 6 \/
              m = 7 \/ m = 8 \/ m = 9 \/ m = 10 \/ m = 11 \/ m = 12) by lia.
  repeat (destruct C as [-> | C]; [reflexivity|]). subst m. reflexivity.
Qed.

(** C1. For every symbol and every calendar day, the month segment
    of the address that [read_day] requests is the month of the day minus
    one, written with two digits: [02] for 2024-03-15. *)
Theorem url_month_segment (symbol : string) (day : Datetime.datetime) :
  Datetime.valid day = true ->
  segment_from_end 2 (url symbol day) =
  Some (two_digits (Datetime.month day - 1)) /\
  (forall (World : Type) requests_get lzma_decompress (st : State World),
     exists r st' evs,
       read_day World requests_get lzma_decompress symbol day st = (r, st') /\
       log st' = log st ++ EvGet (url symbol day) :: evs) /\
  segment_from_end 2 (url symbol (Datetime.midnight 2024 3 15))
  = Some "02"%string.
Proof.
  intros V. split; [|split].
  - destruct (url_segments symbol day) as [front E].
    unfold segment_from_end. rewrite E. cbn [nth_error]. f_equal.
    apply month_segment_two_digits.
    apply DatetimeFacts.valid_fields in V. destruct V as [V _].
    apply StrptimeFacts.valid_date_ranges in V. lia.
  - intros World requests_get lzma_decompress st. apply read_day_requests.
  - destruct (url_segments symbol (Datetime.midnight 2024 3 15)) as [front E].
    unfold segment_from_end. rewrite E. reflexivity.
Qed.

(** ** The properties on the small remote service *)

Open Scope string_scope.

Lemma url_month_segment_witness :
  segment_from_end 2 (url "EURUSD" (Datetime.midnight 2024 3 15)) =
  Some (two_digits (Datetime.month (Datetime.midnight 2024 3 15) - 1)) /\
  (forall (World : Type) requests_get lzma_decompress (st : State World),
     exists r st' evs,
       read_day World requests_get lzma_decompress "EURUSD"
         (Datetime.midnight 2024 3 15) st = (r, st') /\
       log st' =
       (log st ++ EvGet (url "EURUSD" (Datetime.midnight 2024 3 15)) :: evs)%list)
  /\
  segment_from_end 2 (url "EURUSD" (Datetime.midnight 2024 3 15)) = Some "02".
Proof.
  apply (url_month_segment "EURUSD" (Datetime.midnight 2024 3 15)).
  reflexivity.
Defined.

Lemma not_found_day_skipped_witness :
  let st' :=
    mkstate 1%nat
      ([] ++ [EvGet (url "EURUSD" (Datetime.midnight 2024 3 16));
              EvPrint "download failed..."])%list in
  Example.read_day "EURUSD" (Datetime.midnight 2024 3 16) Example.start =
  (Ok (Int (-1)), st') /\
  period_step Example.World (Example.serve Example.site) Example.stored
    "EURUSD" (Datetime.midnight 2024 3 15) Example.candle [] 1 Example.start =
  (Ok [], st') /\
  for_each Example.World [1; 2] []
    (period_step Example.World (Example.serve Example.site) Example.stored
       "EURUSD" (Datetime.midnight 2024 3 15) Example.candle) Example.start =
  for_each Example.World [2] []
    (period_step Example.World (Example.serve Example.site) Example.stored
       "EURUSD" (Datetime.midnight 2024 3 15) Example.candle) st'.
Proof.
  apply (not_found_day_skipped Example.World (Example.serve Example.site)
           Example.stored "EURUSD" (Datetime.midnight 2024 3 15)
           Example.candle [] 1 [2] (Datetime.midnight 2024 3 16)
           (mkresponse 404 []) 1%nat Example.start).
  - reflexivity.
  - reflexivity.
  - reflexivity.
Defined.

Lemma download_period_days_witness :
  (Example.download_period "EURUSD" "2024-03-15" "2024-03-18" Example.candle
     Example.start =
   period_rows Example.World (Example.serve Example.site) Example.stored
     "EURUSD" Example.candle
     (days_between (Datetime.midnight 2024 3 15) (Datetime.midnight 2024 3 18))
     Example.start /\
   map Datetime.toordinal
     (days_between (Datetime.midnight 2024 3 15)
        (Datetime.midnight 2024 3 18)) =
   range (Datetime.toordinal (Datetime.midnight 2024 3 15))
     (Datetime.toordinal (Datetime.midnight 2024 3 18)) /\
   (forall y m d,
      Datetime.valid_date y m d = true ->
      In (Datetime.midnight y m d)
        (days_between (Datetime.midnight 2024 3 15)
           (Datetime.midnight 2024 3 18)) <->
      Datetime.toordinal (Datetime.midnight 2024 3 15)
      <= Datetime.ymd2ord y m d
      < Datetime.toordinal (Datetime.midnight 2024 3 18))) /\
  exists rows st',
    Example.download_period "EURUSD" "2024-03-15" "2024-03-18" Example.candle
      Example.start = (Ok rows, st') /\
    List.length rows = 3%nat /\
    chronological rows = true.
Proof.
  destruct (download_period_days Example.World (Example.serve Example.site)
              Example.stored "EURUSD" "2024-03-15" "2024-03-18"
              Example.candle
              (Datetime.midnight 2024 3 15) (Datetime.midnight 2024 3 18)
              Example.start)
    as (H1 & H2 & H3 & H4).
  - reflexivity.
  - reflexivity.
  - discriminate.
  - split; [auto|].
    let v := eval vm_compute in
      (map_m Example.World
                   (process_day Example.World (Example.serve Example.site)
                      Example.stored "EURUSD" Example.candle)
                   (days_between (Datetime.midnight 2024 3 15)
                      (Datetime.midnight 2024 3 18))
                   Example.start) in
    pose (run := v).
    pose (tables := match fst run with Ok t => t | Raise _ => [] end).
    assert (Ed : days_between (Datetime.midnight 2024 3 15)
                   (Datetime.midnight 2024 3 18) =
                 [Datetime.midnight 2024 3 15; Datetime.midnight 2024 3 16;
                  Datetime.midnight 2024 3 17])
      by (vm_compute; reflexivity).
    pose (parsed := fun raw =>
                      match bi5_to_df (Bytes raw) Example.candle with
                      | Ok df => df
                      | Raise _ => []
                      end).
    destruct (H4 tables (snd run)) as [E C].
    + vm_compute. reflexivity.
    + rewrite Ed. apply Forall2_cons;
        [exists (parsed (Example.bar ++ Example.bar')%list);
         split; vm_compute; reflexivity|].
      apply Forall2_cons;
        [exists []; split; vm_compute; reflexivity|].
      apply Forall2_cons;
        [exists (parsed Example.bar); split; vm_compute; reflexivity|].
      apply Forall2_nil.
    + exists (List.concat tables), (snd run).
      split; [exact E|]. split; [vm_compute; reflexivity | exact C].
Defined.

(** The days of that period and the table it yields: the 16th has no
    file and contributes nothing. *)
Example download_period_three_days :
  days_between (Datetime.midnight 2024 3 15) (Datetime.midnight 2024 3 18) =
  [Datetime.midnight 2024 3 15; Datetime.midnight 2024 3 16;
   Datetime.midnight 2024 3 17] /\
  exists r1 r2 r3 st',
    Example.download_period "EURUSD" "2024-03-15" "2024-03-18" Example.candle
      Example.start = (Ok [r1; r2; r3], st') /\
    time r1 = Date (Datetime.mkdatetime 2024 3 15 1 1 1 0) /\
    time r2 = Date (Datetime.mkdatetime 2024 3 15 1 2 1 0) /\
    time r3 = Date (Datetime.mkdatetime 2024 3 17 1 1 1 0).
Proof.
  split; [vm_compute; reflexivity|].
  eexists _, _, _, _. split; [vm_compute; reflexivity|].
  repeat split.
Qed.

Lemma download_data_blocks_witness :
  (exists rows st',
     Example.download_data ["EURUSD"; "GBPUSD"] ["Euro"; "Pound"]
       "2024-03-15" "2024-03-17" Example.candle Example.start =
     (Ok rows, st') /\
     map ticker_full_name rows = ["Euro"; "Euro"; "Pound"]) /\
  (exists st',
     Example.download_data ["EURUSD"; "USDJPY"] ["Euro"; "Yen"]
       "2024-03-15" "2024-03-18" Example.candle Example.start =
     (Raise ValueError, st') /\
     requests_of (log st') =
     (map (url "EURUSD")
        (days_between (Datetime.midnight 2024 3 15)
           (Datetime.midnight 2024 3 18))
      ++ map (url "USDJPY")
           (days_between (Datetime.midnight 2024 3 15)
              (Datetime.midnight 2024 3 18)))%list).
Proof.
  split.
  - destruct (download_data_blocks Example.World
                (Example.serve Example.site) Example.stored
                ["EURUSD"; "GBPUSD"] ["Euro"; "Pound"]
                "2024-03-15" "2024-03-17" Example.candle
                (Datetime.midnight 2024 3 15) (Datetime.midnight 2024 3 17)
                Example.start)
      as (_ & _ & _ & H & _); try reflexivity.
    let v := eval vm_compute in
      (map_m Example.World
                   (tagged_block Example.World (Example.serve Example.site)
                      Example.stored Example.candle
                      (days_between (Datetime.midnight 2024 3 15)
                         (Datetime.midnight 2024 3 17)))
                   [("EURUSD", "Euro"); ("GBPUSD", "Pound")] Example.start) in
    pose (run := v).
    pose (blocks := match fst run with Ok b => b | Raise _ => [] end).
    exists (List.concat blocks), (snd run). split.
    + apply H; [vm_compute; reflexivity|].
      repeat constructor; discriminate.
    + reflexivity.
  - destruct (download_data_blocks Example.World
                (Example.serve Example.site) Example.stored
                ["EURUSD"; "USDJPY"] ["Euro"; "Yen"]
                "2024-03-15" "2024-03-18" Example.candle
                (Datetime.midnight 2024 3 15) (Datetime.midnight 2024 3 18)
                Example.start)
      as (_ & _ & _ & _ & H); try reflexivity.
    pose (block := tagged_block Example.World (Example.serve Example.site)
                     Example.stored Example.candle
                     (days_between (Datetime.midnight 2024 3 15)
                        (Datetime.midnight 2024 3 18))).
    let v := eval vm_compute in
      (map_m Example.World block [("EURUSD", "Euro")]
                   Example.start) in
    pose (run := v).
    pose (blocks := match fst run with Ok b => b | Raise _ => [] end).
    pose (st2 := snd (block ("USDJPY", "Yen") (snd run))).
    exists st2. split.
    + apply (H [("EURUSD", "Euro")] ("USDJPY", "Yen") [] blocks (snd run)
               st2).
      * reflexivity.
      * vm_compute. reflexivity.
      * repeat constructor; discriminate.
      * vm_compute. reflexivity.
    + vm_compute. reflexivity.
Defined.


(** The table of two symbols: the rows of the first, then the rows of
    the second. *)
Example download_data_two_symbols :
  exists t1 t2 t3 st',
    Example.download_data ["EURUSD"; "GBPUSD"] ["Euro"; "Pound"]
      "2024-03-15" "2024-03-17" Example.candle Example.start =
    (Ok [t1; t2; t3], st') /\
    map ticker_full_name [t1; t2; t3] = ["Euro"; "Euro"; "Pound"].
Proof.
  eexists _, _, _, _. split; [vm_compute; reflexivity|]. reflexivity.
Qed.

(** A third symbol without a display name is left out. *)
Example download_data_three_symbols :
  Example.download_data ["EURUSD"; "GBPUSD"; "USDJPY"] ["Euro"; "Pound"]
    "2024-03-15" "2024-03-17" Example.candle Example.start =
  Example.download_data ["EURUSD"; "GBPUSD"] ["Euro"; "Pound"]
    "2024-03-15" "2024-03-17" Example.candle Example.start.
Proof. reflexivity. Qed.

Lemma read_day_unbound_witness :
  (content (mkresponse 200 []) = [] ->
   Example.read_day "EURUSD" (Datetime.midnight 2024 3 18) Example.start =
   (Raise UnboundLocalError,
    mkstate 1%nat
      ([] ++ [EvGet (url "EURUSD" (Datetime.midnight 2024 3 18))])%list)) /\
  (content (mkresponse 200 []) <> [] ->
   Example.stored (content (mkresponse 200 [])) = None ->
   Example.read_day "EURUSD" (Datetime.midnight 2024 3 18) Example.start =
   (Raise UnboundLocalError,
    mkstate 1%nat
      ([] ++ [EvGet (url "EURUSD" (Datetime.midnight 2024 3 18));
              EvDecompress (content (mkresponse 200 []));
              EvPrint "decompress failed. continuing.."])%list)).
Proof.
  apply (read_day_unbound Example.World (Example.serve Example.site)
           Example.stored "EURUSD" (Datetime.midnight 2024 3 18)
           Example.start (mkresponse 200 []) 1%nat).
  - reflexivity.
  - discriminate.
Defined.

(** An empty body and a corrupt stream, on the small service: both end
    in [UnboundLocalError]. *)
Example read_day_empty_and_corrupt :
  fst (Example.read_day "EURUSD" (Datetime.midnight 2024 3 18) Example.start)
  = Raise UnboundLocalError /\
  fst (Example.read_day "EURUSD" (Datetime.midnight 2024 3 19) Example.start)
  = Raise UnboundLocalError /\
  fst (Example.download_period "EURUSD" "2024-03-17" "2024-03-20"
         Example.candle Example.start)
  = Raise UnboundLocalError.
Proof. repeat split; vm_compute; reflexivity. Qed.

(** The rows of a day keep the order of the records of the file,
    whatever their times, and a record may carry a time beyond its
    day: the table of a period is not always in chronological order. *)
Lemma download_period_unordered :
  (exists r1 r2 st',
     download_period Example.World (Example.serve Example.untidy)
       Example.stored "USDJPY" "2024-03-15" "2024-03-16" Example.candle
       Example.start = (Ok [r1; r2], st') /\
     time r1 = Date (Datetime.mkdatetime 2024 3 15 1 2 1 0) /\
     time r2 = Date (Datetime.mkdatetime 2024 3 15 1 1 1 0) /\
     chronological [r1; r2] = false) /\
  (exists r1 r2 st',
     download_period Example.World (Example.serve Example.untidy)
       Example.stored "AUDUSD" "2024-03-15" "2024-03-17" Example.candle
       Example.start = (Ok [r1; r2], st') /\
     time r1 = Date (Datetime.mkdatetime 2024 3 16 2 0 0 0) /\
     time r2 = Date (Datetime.mkdatetime 2024 3 16 1 1 1 0) /\
     chronological [r1; r2] = false).
Proof.
  split.
  - let v := eval vm_compute in
      (download_period Example.World (Example.serve Example.untidy)
         Example.stored "USDJPY" "2024-03-15" "2024-03-16" Example.candle
         Example.start) in
    match v with
    | (Ok [?r1; ?r2], ?s) => exists r1, r2, s
    end.
    repeat split; vm_compute; reflexivity.
  - let v := eval vm_compute in
      (download_period Example.World (Example.serve Example.untidy)
         Example.stored "AUDUSD" "2024-03-15" "2024-03-17" Example.candle
         Example.start) in
    match v with
    | (Ok [?r1; ?r2], ?s) => exists r1, r2, s
    end.
    repeat split; vm_compute; reflexivity.
Qed.

(** C9 as stated fails in both directions: [2024-3-5] is not in the
    strict form and yet parses, so that the period runs and the day is
    requested; [2024-02-30] is in the strict form and does not parse. *)
Lemma download_period_lenient :
  strict_shape "2024-3-5" = false /\
  Example.download_period "EURUSD" "2024-3-5" "2024-3-6" Example.candle
    Example.start =
  (Ok [],
   mkstate 1%nat
     [EvGet (url "EURUSD" (Datetime.midnight 2024 3 5));
      EvPrint "download failed..."]) /\
  strict_shape "2024-02-30" = true /\
  Example.download_period "EURUSD" "2024-02-30" "2024-03-01" Example.candle
    Example.start = (Raise ValueError, Example.start).
Proof. repeat split; vm_compute; reflexivity. Qed.

(** Decimal digits of other scripts: a year written in Arabic-Indic
    digits parses, and so does a day whose second digit is one; a month
    written in such digits does not. *)
Example strptime_other_scripts :
  Unicode.codepoints Example.arabic_year =
  [0x662; 0x660; 0x662; 0x664; 45; 48; 51; 45; 49; 53] /\
  Strptime.strptime Example.arabic_year = Ok (Datetime.midnight 2024 3 15) /\
  Strptime.strptime Example.arabic_day = Ok (Datetime.midnight 2024 3 15) /\
  Strptime.strptime Example.arabic_month = Raise ValueError /\
  Example.download_period "EURUSD" Example.arabic_year "2024-03-16"
    Example.candle Example.start =
  Example.download_period "EURUSD" "2024-03-15" "2024-03-16"
    Example.candle Example.start.
Proof. repeat split; vm_compute; reflexivity. Qed.

(** * Further properties

    Outcomes at the edges, how the functions compose, and what the
    program requests. *)

Close Scope string_scope.

(** ** More on lists and results *)

Lemma requests_of_app evs evs' :
  requests_of (evs ++ evs') = requests_of evs ++ requests_of evs'.
Proof. apply flat_map_app. Qed.

Lemma map_seq_from {B : Type} (f : nat -> B) a b :
  map f (seq a b) = map (fun k => f (a + k)%nat) (seq 0 b).
Proof.
  revert f a. induction b as [|b IH]; intros f a; cbn [seq map].
  - reflexivity.
  - rewrite Nat.add_0_r. f_equal.
    rewrite (IH f (S a)), (IH (fun k => f (a + k)%nat) 1%nat).
    apply map_ext. intros k. f_equal. lia.
Qed.

Lemma range_app lo mid hi :
  lo <= mid <= hi -> range lo hi = range lo mid ++ range mid hi.
Proof.
  intros H. unfold range.
  replace (Z.to_nat (hi - lo))
    with (Z.to_nat (mid - lo) + Z.to_nat (hi - mid))%nat by lia.
  rewrite seq_app, map_app. f_equal.
  rewrite map_seq_from. apply map_ext. intros k. lia.
Qed.

Lemma days_between_app sa sb sc :
  Datetime.toordinal sa <= Datetime.toordinal sb <= Datetime.toordinal sc ->
  days_between sa sc = days_between sa sb ++ days_between sb sc.
Proof.
  intros H. unfold days_between.
  rewrite (range_app _ (Datetime.toordinal sb)) by exact H.
  apply map_app.
Qed.

Lemma strptime_date_text s :
  date_text s <-> exists t, Strptime.strptime s = Ok t.
Proof.
  unfold date_text. split.
  - intros (y & m & d & V & Hin). exists (Datetime.midnight y m d).
    apply StrptimeFacts.strptime_accepts. eauto 6.
  - intros (t & E). apply StrptimeFacts.strptime_accepts in E.
    destruct E as (y & m & d & V & Hin & _). eauto.
Qed.

Lemma rmap_pure {A B : Type} (g : A -> B) xs :
  rmap (fun x => Ok (g x)) xs = Ok (map g xs).
Proof.
  induction xs as [|x xs IH]; cbn; [reflexivity|]. now rewrite IH.
Qed.

Lemma rmap_map {A B C : Type} (g : A -> B) (f : B -> result C) xs :
  rmap f (map g xs) = rmap (fun x => f (g x)) xs.
Proof.
  induction xs as [|x xs IH]; cbn; [reflexivity|]. now rewrite IH.
Qed.

Lemma rmap_app {A B : Type} (f : A -> result B) xs ys :
  rmap f (xs ++ ys) =
  let? a := rmap f xs in let? b := rmap f ys in Ok (a ++ b).
Proof.
  induction xs as [|x xs IH]; cbn [app rmap rbind].
  - destruct (rmap f ys); reflexivity.
  - destruct (f x) as [y|e]; cbn [rbind]; [|reflexivity].
    rewrite IH. destruct (rmap f xs) as [a|e]; cbn [rbind]; [|reflexivity].
    destruct (rmap f ys); reflexivity.
Qed.

Lemma rmap_raise {A B : Type} (f : A -> result B) xs e :
  rmap f xs = Raise e -> exists x, In x xs /\ f x = Raise e.
Proof.
  induction xs as [|x xs IH]; cbn [rmap]; [discriminate|].
  destruct (f x) as [y|e'] eqn:E; cbn [rbind].
  - destruct (rmap f xs) as [ys|e'] eqn:E'; cbn [rbind]; [discriminate|].
    intros [= ->]. destruct IH as (x' & Hin & Hx); [reflexivity|].
    exists x'. split; [right; exact Hin | exact Hx].
  - intros [= ->]. exists x. split; [left; reflexivity | exact E].
Qed.

Lemma combine_app {A B : Type} (xs xs' : list A) (ys ys' : list B) :
  List.length xs = List.length ys ->
  combine (xs ++ xs') (ys ++ ys') = combine xs ys ++ combine xs' ys'.
Proof.
  revert ys. induction xs as [|x xs IH]; intros [|y ys] H; try discriminate.
  - reflexivity.
  - cbn. f_equal. apply IH. now injection H.
Qed.

(** ** [bi5_to_df]: its outcomes *)

Lemma size_pos c : 0 < Struct.size c.
Proof. destruct c; reflexivity. Qed.

Lemma calcsize_zero fmt :
  Struct.calcsize fmt = 0 <-> Struct.codes fmt = [].
Proof.
  unfold Struct.calcsize. destruct (Struct.codes fmt) as [|c cs].
  - split; reflexivity.
  - cbn [fold_right]. pose proof (size_pos c).
    pose proof (calcsize_nonneg (Struct.mkformat Struct.BigEndian cs)) as N.
    unfold Struct.calcsize in N. cbn [Struct.codes] in N.
    split; [lia | discriminate].
Qed.

(** With a chunk size that is not zero, the table is made of the fields
    of the complete chunks, in their order. *)
Lemma bi5_to_df_chunks raw fmt :
  Struct.calcsize fmt <> 0 ->
  bi5_to_df (Bytes raw) fmt =
  DataFrame_of
    (map (chunk_fields fmt raw) (range 0 (len raw / Struct.calcsize fmt))).
Proof.
  intros Hc. pose proof (calcsize_nonneg fmt) as N.
  assert (Hp : 0 < Struct.calcsize fmt) by lia.
  unfold bi5_to_df. cbn [as_bytes rbind]. unfold floordiv.
  replace (Struct.calcsize fmt =? 0) with false
    by (symmetry; apply Z.eqb_neq; exact Hc).
  cbn [rbind].
  rewrite (rmap_ext _ (fun step => Ok (chunk_fields fmt raw step))).
  - rewrite rmap_pure. reflexivity.
  - intros step Hin. apply range_In in Hin.
    apply (unpack_chunk raw fmt Hp step Hin).
Qed.

Lemma bi5_to_df_no_field raw fmt :
  Struct.codes fmt = [] -> bi5_to_df (Bytes raw) fmt = Raise ZeroDivisionError.
Proof.
  intros H. apply calcsize_zero in H. unfold bi5_to_df.
  cbn [as_bytes rbind]. unfold floordiv. rewrite H. reflexivity.
Qed.

Lemma DataFrame_of_raises data_list e :
  DataFrame_of data_list = Raise e -> e = ValueError.
Proof.
  unfold DataFrame_of. intros H. apply rmap_raise in H.
  destruct H as (t & _ & H). unfold row_of_tuple in H.
  destruct t as [|a [|b [|c [|d [|x [|f [|g t]]]]]]]; congruence.
Qed.

(** X1. The outcomes of [bi5_to_df] on bytes.  It raises
    [ZeroDivisionError] exactly when the format has no field, on every
    buffer, the empty one included.  With a format that has fields, a
    buffer shorter than one chunk gives the empty table whatever the
    number of fields.  The only other exception is the [ValueError] of
    the table with six columns; the slices handed to [struct.unpack]
    always have the size of the format, and [struct.error] is never
    raised. *)
Theorem bi5_to_df_outcomes (raw : bytes) (fmt : Struct.format) :
  (bi5_to_df (Bytes raw) fmt = Raise ZeroDivisionError <->
   Struct.codes fmt = []) /\
  (Struct.codes fmt <> [] -> len raw < Struct.calcsize fmt ->
   bi5_to_df (Bytes raw) fmt = Ok []) /\
  (forall e, bi5_to_df (Bytes raw) fmt = Raise e ->
     e = ZeroDivisionError \/
     e = ValueError /\ List.length (Struct.codes fmt) <> 6%nat /\
     Struct.calcsize fmt <= len raw).
Proof.
  assert (S : Struct.codes fmt <> [] -> len raw < Struct.calcsize fmt ->
              bi5_to_df (Bytes raw) fmt = Ok []).
  { intros Hn Hs. rewrite bi5_to_df_chunks by (rewrite calcsize_zero; exact Hn).
    rewrite Z.div_small by (pose proof (len_nonneg raw); lia). reflexivity. }
  assert (R : forall e, bi5_to_df (Bytes raw) fmt = Raise e ->
              Struct.codes fmt <> [] ->
              e = ValueError /\ List.length (Struct.codes fmt) <> 6%nat /\
              Struct.calcsize fmt <= len raw).
  { intros e H Hn.
    assert (Hc : Struct.calcsize fmt <> 0) by (rewrite calcsize_zero; exact Hn).
    pose proof (calcsize_nonneg fmt) as N.
    pose proof H as H'. rewrite bi5_to_df_chunks in H' by exact Hc.
    apply DataFrame_of_raises in H'. subst e. split; [reflexivity|].
    split.
    - intros H6.
      destruct (rmap_total row_of_tuple
                  (map (chunk_fields fmt raw)
                     (range 0 (len raw / Struct.calcsize fmt))))
        as [df Edf].
      { intros t Hin. apply in_map_iff in Hin. destruct Hin as (step & <- & _).
        apply row_of_tuple_six. unfold chunk_fields.
        rewrite unpack_fields_length. exact H6. }
      rewrite bi5_to_df_chunks in H by exact Hc. unfold DataFrame_of in H.
      congruence.
    - destruct (Z.lt_ge_cases (len raw) (Struct.calcsize fmt)) as [L|L];
        [|exact L].
      rewrite (S Hn L) in H. discriminate. }
  split; [split|split].
  - intros H. destruct (Struct.codes fmt) as [|c cs] eqn:E; [reflexivity|].
    destruct (R _ H) as [D _]; discriminate.
  - apply bi5_to_df_no_field.
  - exact S.
  - intros e H. destruct (Struct.codes fmt) as [|c cs] eqn:E.
    + left. rewrite bi5_to_df_no_field in H by exact E. congruence.
    + right. apply R; [exact H | discriminate].
Qed.

(** ** [bi5_to_df]: buffers put end to end *)

Lemma slice_app_l {A : Type} (a b : list A) i j :
  0 <= i <= j -> j <= len a -> slice (a ++ b) i j = slice a i j.
Proof.
  unfold slice, len. intros H1 H2. rewrite skipn_app.
  replace (Z.to_nat i - List.length a)%nat with 0%nat by lia.
  cbn [skipn]. rewrite firstn_app.
  replace (Z.to_nat (j - i) - List.length (skipn (Z.to_nat i) a))%nat
    with 0%nat by (rewrite length_skipn; lia).
  cbn [firstn]. apply app_nil_r.
Qed.

Lemma slice_app_r {A : Type} (a b : list A) i j :
  len a <= i <= j -> slice (a ++ b) i j = slice b (i - len a) (j - len a).
Proof.
  unfold slice, len. intros H. rewrite skipn_app.
  rewrite (skipn_all2 a) by lia. cbn [app]. f_equal; [lia|]. f_equal. lia.
Qed.

Lemma len_app {A : Type} (a b : list A) : len (a ++ b) = len a + len b.
Proof. unfold len. rewrite length_app. lia. Qed.

(** X2. Buffers put end to end.  When the first buffer holds a whole
    number of chunks, the table of the two buffers put end to end is the
    table of the first followed by the table of the second, and it
    raises when one of them does. *)
Theorem bi5_to_df_app (a b : bytes) (fmt : Struct.format) :
  len a mod Struct.calcsize fmt = 0 ->
  bi5_to_df (Bytes (a ++ b)) fmt =
  let? x := bi5_to_df (Bytes a) fmt in
  let? y := bi5_to_df (Bytes b) fmt in
  Ok (x ++ y).
Proof.
  intros Hm. destruct (Z.eq_dec (Struct.calcsize fmt) 0) as [Hz|Hc].
  - apply calcsize_zero in Hz. rewrite !bi5_to_df_no_field by exact Hz.
    reflexivity.
  - pose proof (calcsize_nonneg fmt) as N.
    set (c := Struct.calcsize fmt) in *.
    set (k := len a / c). set (m := len b / c).
    assert (Ea : len a = c * k).
    { unfold k. pose proof (Z.div_mod (len a) c Hc). lia. }
    assert (Hk : 0 <= k) by (apply Z.div_pos; [apply len_nonneg | lia]).
    assert (Hm' : 0 <= m) by (apply Z.div_pos; [apply len_nonneg | lia]).
    rewrite !bi5_to_df_chunks by exact Hc. fold c. fold k. fold m.
    replace (len (a ++ b) / c) with (k + m).
    2:{ rewrite len_app. replace (len a + len b) with (len b + k * c) by lia.
        rewrite Z.div_add by exact Hc. unfold m. lia. }
    rewrite (range_app 0 k (k + m)) by lia. rewrite map_app.
    unfold DataFrame_of. rewrite rmap_app.
    replace (map (chunk_fields fmt (a ++ b)) (range 0 k))
      with (map (chunk_fields fmt a) (range 0 k)).
    2:{ apply map_ext_in. intros step Hin. apply range_In in Hin.
        unfold chunk_fields. fold c.
        rewrite slice_app_l; [reflexivity| |]; nia. }
    replace (map (chunk_fields fmt (a ++ b)) (range k (k + m)))
      with (map (chunk_fields fmt b) (range 0 m)).
    2:{ rewrite (range_shift k (k + m)), map_map.
        replace (k + m - k) with m by lia.
        apply map_ext_in. intros step Hin. apply range_In in Hin.
        unfold chunk_fields. fold c. rewrite slice_app_r by nia.
        do 2 f_equal; lia. }
    reflexivity.
Qed.

(** ** What [bi5_to_df] hands to [normalize_df] *)

Lemma unpack_fields_numbers o cs bs :
  Forall (fun x => is_number x = true) (Struct.unpack_fields o cs bs).
Proof.
  revert bs. induction cs as [|c cs IH]; intros bs; cbn [Struct.unpack_fields].
  - constructor.
  - constructor; [destruct c; reflexivity | apply IH].
Qed.

Lemma row_of_tuple_cells t r :
  row_of_tuple t = Ok r ->
  t = [time r; open r; high r; low r; close r; volume r].
Proof.
  destruct t as [|a [|b [|c [|d [|x [|f [|g t]]]]]]]; try discriminate.
  intros [= <-]. reflexivity.
Qed.

(** The rows of a table that [bi5_to_df] returns are the rows of the
    complete chunks. *)
Lemma bi5_to_df_rows raw_data fmt df :
  bi5_to_df raw_data fmt = Ok df ->
  exists raw,
    raw_data = Bytes raw /\ Struct.calcsize fmt <> 0 /\
    Forall2 (fun step r => row_of_tuple (chunk_fields fmt raw step) = Ok r)
      (range 0 (len raw / Struct.calcsize fmt)) df.
Proof.
  intros H. destruct raw_data as [z|f|raw|t]; try discriminate H.
  exists raw. split; [reflexivity|].
  assert (Hc : Struct.calcsize fmt <> 0).
  { intros Hz. apply calcsize_zero in Hz.
    rewrite bi5_to_df_no_field in H by exact Hz. discriminate. }
  split; [exact Hc|].
  rewrite bi5_to_df_chunks in H by exact Hc. unfold DataFrame_of in H.
  rewrite rmap_map in H. apply rmap_ok in H. exact H.
Qed.

Lemma bi5_to_df_parsed raw_data fmt df :
  bi5_to_df raw_data fmt = Ok df -> Forall (fun r => parsed_row r = true) df.
Proof.
  intros H. destruct (bi5_to_df_rows _ _ _ H) as (raw & _ & _ & F).
  rewrite Forall_forall. intros r Hin. apply In_nth_error in Hin.
  destruct Hin as [i Hi].
  destruct (Forall2_nth_error _ _ _ i r (Forall2_flip F) Hi)
    as (step & _ & Hr).
  cbn beta in Hr. apply row_of_tuple_cells in Hr.
  pose proof (unpack_fields_numbers (Struct.order fmt) (Struct.codes fmt)
                (slice raw (Struct.calcsize fmt * step)
                   (Struct.calcsize fmt * step + Struct.calcsize fmt))) as N.
  fold (chunk_fields fmt raw step) in N. rewrite Hr in N.
  unfold parsed_row.
  repeat (apply Forall_cons_iff in N; destruct N as [-> N]). reflexivity.
Qed.

Lemma timedelta_of_raises d s us e :
  Datetime.timedelta_of d s us = Raise e -> e = OverflowError.
Proof.
  unfold Datetime.timedelta_of. destruct (_ >? _); congruence.
Qed.

(** ** Times of four bytes: normalisation cannot fail *)

Lemma byte_val_range b : 0 <= Struct.byte_val b <= 255.
Proof.
  unfold Struct.byte_val. pose proof (Byte.to_N_bounded b). lia.
Qed.

(** An integer field of at most four bytes lies between [-2^31] and
    [2^32]. *)
Lemma decode_short o c bs :
  is_int_code c = true -> (List.length bs <= 4)%nat ->
  exists x, Struct.decode o c bs = Int x /\ - 2 ^ 31 <= x < 2 ^ 32.
Proof.
  intros Hc Hl.
  destruct bs as [|b1 [|b2 [|b3 [|b4 [|b5 bs]]]]]; [| | | | |cbn in Hl; lia];
    try pose proof (byte_val_range b1); try pose proof (byte_val_range b2);
    try pose proof (byte_val_range b3); try pose proof (byte_val_range b4);
    destruct o; destruct c; try discriminate Hc;
    cbn [Struct.decode]; unfold Struct.signed, Struct.unsigned, len;
    cbn [List.length rev app fold_left]; cbv zeta;
    eexists; (split; [reflexivity|]);
    try match goal with
        | |- context [if ?a <? ?b then _ else _] => destruct (Z.ltb_spec a b)
        end;
    cbn in *; lia.
Qed.

Lemma year_ordinal_bounds y m d :
  Datetime.valid_date y m d = true -> 100 <= y <= 9800 ->
  36160 <= Datetime.ymd2ord y m d <= 3579376.
Proof.
  intros V H. pose proof (DatetimeFacts.ymd2ord_bounds y m d V) as B.
  pose proof (DatetimeFacts.days_before_year_mono 100 y ltac:(lia)) as L.
  pose proof (DatetimeFacts.days_before_year_mono (y + 1) 9801 ltac:(lia)) as U.
  change (Datetime.days_before_year 100) with 36159 in L.
  change (Datetime.days_before_year 9801) with 3579376 in U.
  lia.
Qed.

(** Normalisation of a parsed table whose times are integers of at
    most four bytes, on a day far enough from the ends of the calendar:
    it returns, the times are the instants of the day plus the offsets,
    the prices are divided by 1000. *)
Lemma normalize_df_int_times df day :
  Datetime.valid day = true ->
  24857 <= Datetime.toordinal day <= 3602348 ->
  Forall (fun r => parsed_row r = true) df ->
  Forall (fun r => exists x, time r = Int x /\ - 2 ^ 31 <= x < 2 ^ 32) df ->
  exists out,
    normalize_df df day = Ok out /\
    Forall2 (fun r r' =>
               exists x t,
                 time r = Int x /\ time r' = Date t /\
                 Datetime.valid t = true /\
                 abs_us t = abs_us day + x * 1000000 /\
                 divided_by_1000 (open r) (open r') /\
                 divided_by_1000 (high r) (high r') /\
                 divided_by_1000 (low r) (low r') /\
                 divided_by_1000 (close r) (close r') /\
                 volume r' = volume r)
            df out.
Proof.
  intros V Ho P T.
  assert (R : Forall (fun r => exists x,
                        time r = Int x /\
                        representable (abs_us day + x * 1000000)) df).
  { eapply Forall_impl; [|exact T]. intros r (x & Ex & Hx).
    exists x. split; [exact Ex|].
    destruct (DatetimeFacts.valid_fields day V) as (_ & Hh & Hmi & Hs & Hus).
    unfold representable, abs_us, Datetime.MAXORDINAL.
    change (2 ^ 31) with 2147483648 in Hx.
    change (2 ^ 32) with 4294967296 in Hx. lia. }
  assert (C : Forall (time_converts day) df).
  { eapply Forall_impl; [|exact R]. intros r (x & Ex & Rx).
    pose proof (time_of_int day x V Rx) as E. unfold time_converts.
    rewrite Ex.
    destruct (timedelta_seconds (Int x)) as [delta|]; [|discriminate].
    cbn [rbind] in E. eauto. }
  destruct (normalize_df_steps df day P C) as (df1 & out & E & F1 & F2).
  exists out. split; [exact E|].
  assert (F : Forall2
                (fun r r' =>
                   exists delta t,
                     timedelta_seconds (time r) = Ok delta /\
                     Datetime.add day delta = Ok t /\
                     time r' = Date t /\
                     divided_by_1000 (open r) (open r') /\
                     divided_by_1000 (high r) (high r') /\
                     divided_by_1000 (low r) (low r') /\
                     divided_by_1000 (close r) (close r') /\
                     volume r' = volume r) df out).
  { eapply Forall2_trans_rel; [|exact F1|exact F2].
    intros r r1 r' (delta & t & Ed & Ea & ->) H. cbn in H.
    exists delta, t. intuition. }
  eapply Forall2_Forall_l; [|exact R|exact F].
  intros r r' (x & Ex & Rx) (delta & t & Ed & Ea & Et & Hp).
  exists x, t. pose proof (time_of_int day x V Rx) as E'.
  rewrite Ex in Ed. rewrite Ed in E'. cbn [rbind] in E'. rewrite Ea in E'.
  injection E' as ->. destruct (DatetimeFacts.of_abs_us_spec _ Rx). auto 10.
Qed.

Lemma bi5_to_df_six_ok raw fmt :
  List.length (Struct.codes fmt) = 6%nat ->
  exists df,
    bi5_to_df (Bytes raw) fmt = Ok df /\
    len df = len raw / Struct.calcsize fmt.
Proof.
  intros H6.
  assert (Hc : Struct.calcsize fmt <> 0).
  { rewrite calcsize_zero. intros E. rewrite E in H6. discriminate. }
  pose proof (calcsize_nonneg fmt) as N.
  rewrite bi5_to_df_chunks by exact Hc. unfold DataFrame_of.
  destruct (rmap_total row_of_tuple
              (map (chunk_fields fmt raw)
                 (range 0 (len raw / Struct.calcsize fmt)))) as [df Edf].
  { intros t Hin. apply in_map_iff in Hin. destruct Hin as (step & <- & _).
    apply row_of_tuple_six. unfold chunk_fields.
    rewrite unpack_fields_length. exact H6. }
  exists df. split; [exact Edf|]. apply rmap_ok, Forall2_length in Edf.
  unfold len at 1. rewrite <- Edf, length_map, length_range.
  assert (0 <= len raw / Struct.calcsize fmt)
    by (apply Z.div_pos; [apply len_nonneg | lia]).
  lia.
Qed.

Lemma bi5_to_df_short_times raw_data fmt df :
  short_time fmt = true -> bi5_to_df raw_data fmt = Ok df ->
  Forall (fun r => exists x, time r = Int x /\ - 2 ^ 31 <= x < 2 ^ 32) df.
Proof.
  intros Hs H. destruct (bi5_to_df_rows _ _ _ H) as (raw & _ & _ & F).
  rewrite Forall_forall. intros r Hin. apply In_nth_error in Hin.
  destruct Hin as [i Hi].
  destruct (Forall2_nth_error _ _ _ i r (Forall2_flip F) Hi)
    as (step & _ & Hr).
  cbn beta in Hr. apply row_of_tuple_cells in Hr.
  unfold short_time in Hs. unfold chunk_fields in Hr.
  destruct (Struct.codes fmt) as [|c cs]; [discriminate|].
  apply andb_true_iff in Hs. destruct Hs as [Hi' Hz]. apply Z.leb_le in Hz.
  cbn [Struct.unpack_fields] in Hr. injection Hr as Ht _.
  rewrite <- Ht. apply decode_short; [exact Hi'|].
  rewrite length_firstn. lia.
Qed.

Lemma parse_normalize_rows (raw : bytes) (fmt : Struct.format)
  (day : Datetime.datetime) :
  List.length (Struct.codes fmt) = 6%nat ->
  short_time fmt = true ->
  Datetime.valid day = true ->
  24857 <= Datetime.toordinal day <= 3602348 ->
  exists df out,
    bi5_to_df (Bytes raw) fmt = Ok df /\
    normalize_df df day = Ok out /\
    len df = len raw / Struct.calcsize fmt /\
    len out = len df.
Proof.
  intros H6 Hs V Ho.
  destruct (bi5_to_df_six_ok raw fmt H6) as (df & E & L).
  destruct (normalize_df_int_times df day V Ho) as (out & En & F).
  - eapply bi5_to_df_parsed, E.
  - eapply bi5_to_df_short_times; eassumption.
  - exists df, out. split; [exact E|]. split; [exact En|].
    split; [exact L|]. unfold len. now rewrite (Forall2_length F).
Qed.

Lemma valid_year_ordinal day :
  Datetime.valid day = true -> 100 <= Datetime.year day <= 9800 ->
  24857 <= Datetime.toordinal day <= 3602348.
Proof.
  intros V Hy. destruct (DatetimeFacts.valid_fields day V) as (Vd & _).
  pose proof (year_ordinal_bounds _ _ _ Vd Hy) as B.
  unfold Datetime.toordinal. lia.
Qed.

(** X4. Parsing and normalising a file cannot fail on the data the
    formats are meant for.  With a format of six fields whose time field
    is an integer of at most four bytes, and a valid day of a year from
    100 to 9800, [bi5_to_df] returns a table of [len(raw) // c] rows for
    every buffer, and [normalize_df] returns on it: row by row, the time
    is the datetime of the instant of the day plus the offset in
    seconds, the four prices are divided by 1000 and the volume is as it
    was. *)
Theorem parse_normalize_total (raw : bytes) (fmt : Struct.format)
  (day : Datetime.datetime) :
  List.length (Struct.codes fmt) = 6%nat ->
  short_time fmt = true ->
  Datetime.valid day = true ->
  100 <= Datetime.year day <= 9800 ->
  exists df out,
    bi5_to_df (Bytes raw) fmt = Ok df /\
    normalize_df df day = Ok out /\
    len df = len raw / Struct.calcsize fmt /\
    Forall2 (fun r r' =>
               exists x t,
                 time r = Int x /\ time r' = Date t /\
                 Datetime.valid t = true /\
                 abs_us t = abs_us day + x * 1000000 /\
                 divided_by_1000 (open r) (open r') /\
                 divided_by_1000 (high r) (high r') /\
                 divided_by_1000 (low r) (low r') /\
                 divided_by_1000 (close r) (close r') /\
                 volume r' = volume r)
            df out.
Proof.
  intros H6 Hs V Hy.
  destruct (bi5_to_df_six_ok raw fmt H6) as (df & E & L).
  destruct (normalize_df_int_times df day V (valid_year_ordinal day V Hy))
    as (out & En & F).
  - eapply bi5_to_df_parsed, E.
  - eapply bi5_to_df_short_times; eassumption.
  - exists df, out. auto.
Qed.

(** X5. Normalising twice fails.  The times of a normalised table
    are datetimes, which [timedelta(seconds=...)] refuses: on the table
    that [normalize_df] returned for a table with at least one row,
    [normalize_df] raises [TypeError], whatever the day. *)
Theorem normalize_df_twice (df out : DataFrame)
  (day day' : Datetime.datetime) :
  df <> [] ->
  normalize_df df day = Ok out ->
  normalize_df out day' = Raise TypeError.
Proof.
  intros Hn H. unfold normalize_df in H.
  destruct (apply_time day df) as [df1|] eqn:E1; cbn [rbind] in H;
    [|discriminate].
  destruct (scale_prices df1) as [df2|] eqn:E2; cbn [rbind] in H;
    [|discriminate].
  injection H as <-.
  apply apply_time_rows in E1. unfold scale_prices in E2. apply rmap_ok in E2.
  destruct df as [|r df]; [contradiction|].
  inversion E1 as [|? r1 ? df1' (delta & t & _ & _ & Hr1) F1]; subst.
  inversion E2 as [|? r2 ? df2' Hr2 F2]; subst.
  cbn in Hr2.
  destruct (truediv_1000 (open r)) as [o|]; [|discriminate].
  destruct (truediv_1000 (high r)) as [h|]; [|discriminate].
  destruct (truediv_1000 (low r)) as [l|]; [|discriminate].
  destruct (truediv_1000 (close r)) as [c|]; [|discriminate].
  cbn [rbind] in Hr2. injection Hr2 as <-.
  reflexivity.
Qed.

(** X6. A time outside the range of datetimes.  When the rows before
    [r] convert and the time of [r] is an integer offset that takes the
    day before 0001-01-01 or after 9999-12-31, [normalize_df] raises
    [OverflowError]; no table is returned, and the prices of the rows
    before are not divided. *)
Theorem normalize_df_overflow (pre post : DataFrame) (r : row)
  (day : Datetime.datetime) (x : Z) :
  Datetime.valid day = true ->
  Forall (time_converts day) pre ->
  time r = Int x ->
  ~ representable (abs_us day + x * 1000000) ->
  normalize_df (pre ++ r :: post) day = Raise OverflowError.
Proof.
  intros V C Ex R. unfold normalize_df, apply_time. rewrite rmap_app.
  destruct (rmap_total
              (fun r0 =>
                 let? delta := timedelta_seconds (time r0) in
                 let? t := Datetime.add day delta in
                 Ok (mkrow (Date t) (open r0) (high r0) (low r0) (close r0)
                       (volume r0))) pre) as [pre' ->].
  { intros r0 Hin. rewrite Forall_forall in C.
    destruct (C r0 Hin) as (delta & t & -> & Ea). cbn [rbind]. rewrite Ea.
    eexists; reflexivity. }
  cbn [rbind rmap]. rewrite Ex. cbn [timedelta_seconds].
  destruct (Datetime.timedelta_of 0 x 0) as [td|e] eqn:Et; cbn [rbind].
  - assert (A : Datetime.add day td = Raise OverflowError).
    { unfold Datetime.timedelta_of in Et.
      destruct (_ >? _); [discriminate|]. injection Et as <-.
      apply DatetimeFacts.add_overflow; cbn [Datetime.td_seconds
        Datetime.td_microseconds]; [exact V | | |].
      - apply Z.mod_pos_bound. lia.
      - apply Z.mod_pos_bound. lia.
      - intros H. apply R.
        replace (x * 1000000)
          with (td_us (Datetime.mktimedelta (0 + (x + 0 / 1000000) / 86400)
                         ((x + 0 / 1000000) mod 86400) (0 mod 1000000))).
        + exact H.
        + unfold td_us. cbn [Datetime.td_days Datetime.td_seconds
            Datetime.td_microseconds].
          Z.to_euclidean_division_equations. lia. }
    rewrite A. reflexivity.
  - apply timedelta_of_raises in Et. subst e. reflexivity.
Qed.

(** ** The pipeline: outcomes, composition, requests *)

Section PipelineEdges.

Variable World : Type.
Variable requests_get : string -> World -> result response * World.
Variable lzma_decompress : bytes -> option bytes.

Notation "x <- m ;; k" := (bind m (fun x => k))
  (at level 61, m at next level, right associativity).
Notation "m ;;; k" := (bind m (fun _ => k))
  (at level 61, right associativity).

Local Abbreviation read_day := (read_day World requests_get lzma_decompress).
Local Abbreviation process_day :=
  (process_day World requests_get lzma_decompress).
Local Abbreviation period_step :=
  (period_step World requests_get lzma_decompress).
Local Abbreviation period_rows :=
  (period_rows World requests_get lzma_decompress).
Local Abbreviation download_period :=
  (download_period World requests_get lzma_decompress).
Local Abbreviation download_data :=
  (download_data World requests_get lzma_decompress).
Local Abbreviation symbol_block :=
  (symbol_block World requests_get lzma_decompress).

Implicit Types st : State World.

Lemma period_rows_app symbol fmt days days' st :
  period_rows symbol fmt (days ++ days') st =
  (x <- period_rows symbol fmt days ;;
   y <- period_rows symbol fmt days' ;;
   ret (x ++ y)) st.
Proof.
  unfold period_rows, bind, ret. rewrite map_m_app. unfold bind, ret.
  destruct (map_m World _ days st) as [[a|e] st1]; [|reflexivity].
  destruct (map_m World _ days' st1) as [[b|e] st2]; [|reflexivity].
  now rewrite concat_app.
Qed.

(** What [read_day] writes in the log: the request, then events that
    are not requests. *)
Lemma read_day_log symbol day st :
  exists r w' evs,
    read_day symbol day st =
    (r, mkstate w' (log st ++ EvGet (url symbol day) :: evs)) /\
    requests_of evs = [].
Proof.
  unfold read_day, bind, get, print, emit, ret, read_local, raise.
  destruct (requests_get (url symbol day) (world st)) as [[res|e] w'].
  - destruct (status_code res =? 404).
    + eexists _, _, _. split; [cbn; rewrite <- app_assoc; reflexivity|].
      reflexivity.
    + destruct (negb (len (content res) =? 0)).
      * destruct (lzma_decompress (content res)).
        -- eexists _, _, _. split; [cbn; rewrite <- app_assoc; reflexivity|].
           reflexivity.
        -- eexists _, _, _. split; [cbn; rewrite <- !app_assoc; reflexivity|].
           reflexivity.
      * eexists _, _, []. split; reflexivity.
  - eexists _, _, []. split; reflexivity.
Qed.

(** X7. Whatever the service answers, [read_day] makes one request,
    for the address of the day, and no other.  When the request raises,
    the exception escapes.  On an answer it returns the sentinel [-1]
    exactly for status 404, the decompressed bytes exactly when the body
    of an answer of any other status is not empty and decompresses, and
    otherwise raises [UnboundLocalError] and nothing else. *)
Theorem read_day_outcome symbol day st a w' :
  requests_get (url symbol day) (world st) = (a, w') ->
  exists r evs,
    read_day symbol day st =
    (r, mkstate w' (log st ++ EvGet (url symbol day) :: evs)) /\
    requests_of evs = [] /\
    (forall e, a = Raise e -> r = Raise e /\ evs = []) /\
    (forall res, a = Ok res ->
       (r = Ok (Int (-1)) <-> status_code res = 404) /\
       (forall d, r = Ok (Bytes d) <->
          status_code res <> 404 /\ content res <> [] /\
          lzma_decompress (content res) = Some d) /\
       (forall e, r = Raise e <->
          e = UnboundLocalError /\ status_code res <> 404 /\
          (content res = [] \/ lzma_decompress (content res) = None))).
Proof.
  intros E. unfold read_day, bind, get, print, emit, ret, read_local, raise.
  rewrite E. destruct a as [res|e0].
  - destruct (status_code res =? 404) eqn:E4.
    + apply Z.eqb_eq in E4. eexists _, _.
      split; [cbn; rewrite <- app_assoc; reflexivity|].
      split; [reflexivity|]. split; [discriminate|].
      intros res' [= <-]. split; [tauto|]. split.
      * intros d. split; [discriminate | tauto].
      * intros e. split; [discriminate | tauto].
    + apply Z.eqb_neq in E4.
      destruct (content res) as [|b bs] eqn:Ec.
      * eexists _, []. split; [reflexivity|]. split; [reflexivity|].
        split; [discriminate|]. intros res' [= <-]. rewrite Ec.
        split; [split; [discriminate | tauto]|]. split.
        -- intros d. split; [discriminate | tauto].
        -- intros e. split; [intros [= <-]; tauto | intros [-> _]; reflexivity].
      * replace (len (b :: bs) =? 0) with false
          by (symmetry; apply Z.eqb_neq; unfold len; cbn; lia).
        cbn [negb].
        destruct (lzma_decompress (b :: bs)) as [d0|] eqn:Ed.
        -- eexists _, _. split; [cbn; rewrite <- app_assoc; reflexivity|].
           split; [reflexivity|]. split; [discriminate|].
           intros res' [= <-]. rewrite Ec, Ed.
           split; [split; [discriminate | tauto]|]. split.
           ++ intros d. split.
              ** intros [= <-]. repeat split; [exact E4 | discriminate].
              ** intros (_ & _ & [= <-]). reflexivity.
           ++ intros e. split; [discriminate|].
              intros (_ & _ & [H | H]); discriminate.
        -- eexists _, _. split; [cbn; rewrite <- !app_assoc; reflexivity|].
           split; [reflexivity|]. split; [discriminate|].
           intros res' [= <-]. rewrite Ec, Ed.
           split; [split; [discriminate | tauto]|]. split.
           ++ intros d. split; [discriminate|]. intros (_ & _ & H).
              discriminate.
           ++ intros e. split; [intros [= <-]; tauto|].
              intros [-> _]. reflexivity.
  - eexists _, []. split; [reflexivity|]. split; [reflexivity|].
    split; [intros e [= <-]; split; reflexivity | discriminate].
Qed.

(** X8. The loop of [download_period] has no handler.  When the days
    before [day] have been processed and [day] fails, in [read_day]
    (the request raises, the body is empty or corrupt) or in the parsing
    and normalisation of its bytes, [download_period] raises that
    exception: the rows of the days before are not returned and the
    days after are not requested. *)
Theorem failed_day_aborts symbol start_day end_day fmt sd ed pre day post
  done e st st1 st2 :
  Strptime.strptime start_day = Ok sd ->
  Strptime.strptime end_day = Ok ed ->
  days_between sd ed = pre ++ day :: post ->
  period_rows symbol fmt pre st = (Ok done, st1) ->
  read_day symbol day st1 = (Raise e, st2) \/
  (exists raw,
     read_day symbol day st1 = (Ok raw, st2) /\ ne_int raw (-1) = true /\
     (let? df := bi5_to_df raw fmt in normalize_df df day) = Raise e) ->
  download_period symbol start_day end_day fmt st = (Raise e, st2).
Proof.
  intros Es Ee Hd Hp Hf.
  rewrite (download_period_parsed World requests_get lzma_decompress
             symbol start_day end_day fmt sd ed st Es Ee).
  rewrite Hd, period_rows_app. unfold bind at 1. rewrite Hp.
  assert (P : process_day symbol fmt day st1 = (Raise e, st2)).
  { unfold process_day, bind, lift, ret.
    destruct Hf as [-> | (raw & -> & -> & H)]; [reflexivity|].
    destruct (bi5_to_df raw fmt) as [df|e']; cbn [rbind] in H.
    - rewrite H. reflexivity.
    - congruence. }
  unfold period_rows, bind. cbn [map_m]. unfold bind. rewrite P.
  reflexivity.
Qed.

(** X9. The end day is exclusive.  Between two dates that parse, the
    end day is never among the days that [download_period] processes;
    and when it is the start day or an earlier day the period has no
    day: [download_period] returns the empty table, requests nothing and
    prints nothing. *)
Theorem download_period_reversed symbol start_day end_day fmt sd ed st :
  Strptime.strptime start_day = Ok sd ->
  Strptime.strptime end_day = Ok ed ->
  ~ In ed (days_between sd ed) /\
  (Datetime.toordinal ed <= Datetime.toordinal sd ->
   download_period symbol start_day end_day fmt st = (Ok [], st)).
Proof.
  intros Es Ee. split.
  - destruct (strptime_midnight _ _ Es) as (y0 & m0 & d0 & V0 & ->).
    destruct (strptime_midnight _ _ Ee) as (y1 & m1 & d1 & V1 & ->).
    pose proof (DatetimeFacts.ymd2ord_range _ _ _ V0) as R0.
    pose proof (DatetimeFacts.ymd2ord_range _ _ _ V1) as R1.
    unfold days_between. rewrite !toordinal_midnight.
    intros Hin. apply in_map_iff in Hin. destruct Hin as (k & Ek & Hk).
    apply range_In in Hk.
    destruct (DatetimeFacts.day_of_ordinal_spec k) as (_ & Ho & _); [lia|].
    rewrite Ek, toordinal_midnight in Ho. lia.
  - intros H.
    rewrite (download_period_parsed World requests_get lzma_decompress
               symbol start_day end_day fmt sd ed st Es Ee).
    unfold days_between. rewrite range_empty by exact H. reflexivity.
Qed.

(** X10. A period can be downloaded in two parts: for three dates in
    order, [download_period] from the first to the third does what
    [download_period] from the first to the second followed by
    [download_period] from the second to the third do, and its table is
    the first table followed by the second. *)
Theorem download_period_split symbol day_a day_b day_c fmt sa sb sc st :
  Strptime.strptime day_a = Ok sa ->
  Strptime.strptime day_b = Ok sb ->
  Strptime.strptime day_c = Ok sc ->
  Datetime.toordinal sa <= Datetime.toordinal sb <= Datetime.toordinal sc ->
  download_period symbol day_a day_c fmt st =
  (x <- download_period symbol day_a day_b fmt ;;
   y <- download_period symbol day_b day_c fmt ;;
   ret (x ++ y)) st.
Proof.
  intros Ea Eb Ec H.
  rewrite (download_period_parsed World requests_get lzma_decompress
             symbol day_a day_c fmt sa sc st Ea Ec).
  rewrite (days_between_app sa sb sc H), period_rows_app.
  unfold bind.
  rewrite (download_period_parsed World requests_get lzma_decompress
             symbol day_a day_b fmt sa sb st Ea Eb).
  destruct (period_rows symbol fmt (days_between sa sb) st)
    as [[x|e] st1]; [|reflexivity].
  rewrite (download_period_parsed World requests_get lzma_decompress
             symbol day_b day_c fmt sb sc st1 Eb Ec).
  reflexivity.
Qed.

(** X11. [download_data] looks at the dates only inside the download of
    the first pair.  With a start day or an end day that is not a date
    text and at least one pair, it raises [ValueError] once the first
    display name has been announced, and requests nothing; with no pair
    it returns the empty table and the dates are never read. *)
Theorem download_data_bad_date symbols symbols_names start_day end_day fmt st :
  ~ date_text start_day \/ ~ date_text end_day ->
  download_data symbols symbols_names start_day end_day fmt st =
  match combine symbols symbols_names with
  | [] => (Ok [], st)
  | (s, n) :: _ =>
      (Raise ValueError,
       mkstate (world st)
         (log st ++ [EvPrint ("Downloading " ++ n ++ " data")%string]))
  end.
Proof.
  intros H. unfold download_data.
  destruct (combine symbols symbols_names) as [|[s n] pairs]; [reflexivity|].
  cbn [for_each]. unfold bind at 1. unfold data_step, bind, print, emit.
  rewrite (download_period_unparsed World requests_get lzma_decompress).
  - reflexivity.
  - destruct H as [H | H]; [left | right];
      (destruct (Strptime.strptime _) as [t|e] eqn:E;
       [exfalso; apply H, strptime_date_text; eauto | eauto]).
Qed.

Lemma map_m_requests {A B : Type} (f : A -> M World B)
  (g : A -> list string) xs :
  (forall x, In x xs -> requests_within (f x) (g x)) ->
  requests_within (map_m World f xs) (flat_map g xs).
Proof.
  induction xs as [|x xs IH]; intros H st; cbn [map_m flat_map].
  - exists (Ok []), st, []. split; [reflexivity|].
    split; [now rewrite app_nil_r|]. split; [exists []; reflexivity|].
    reflexivity.
  - destruct (H x (or_introl eq_refl) st) as (r & st1 & evs & E & L & P & Q).
    unfold bind. rewrite E. destruct r as [y|e].
    + destruct (IH (fun x' Hin => H x' (or_intror Hin)) st1)
        as (r' & st2 & evs' & E' & L' & P' & Q').
      rewrite E'.
      exists (match r' with Ok ys => Ok (y :: ys) | Raise e => Raise e end),
        st2, (evs ++ evs').
      split; [destruct r'; reflexivity|].
      split; [rewrite L', L, app_assoc; reflexivity|].
      rewrite requests_of_app, Q by eauto. split.
      * destruct P' as [rest ->]. exists rest. now rewrite app_assoc.
      * intros [ys Hy]. f_equal. apply Q'. destruct r'; [eauto | discriminate].
    + exists (Raise e), st1, evs. split; [reflexivity|]. split; [exact L|].
      split; [|intros [ys Hy]; discriminate].
      destruct P as [rest ->]. exists (rest ++ flat_map g xs).
      now rewrite app_assoc.
Qed.

Lemma flat_map_singleton {A B : Type} (g : A -> B) xs :
  flat_map (fun x => [g x]) xs = map g xs.
Proof. induction xs as [|x xs IH]; cbn; [reflexivity | now rewrite IH]. Qed.

Lemma process_day_requests symbol fmt day :
  requests_within (process_day symbol fmt day) [url symbol day].
Proof.
  intros st.
  destruct (read_day_log symbol day st)
    as (r & w' & evs & E & Hr).
  unfold process_day, bind, lift, ret. rewrite E.
  assert (Hq : requests_of (EvGet (url symbol day) :: evs)
               = [url symbol day]).
  { change (requests_of (EvGet (url symbol day) :: evs))
      with (url symbol day :: requests_of evs). now rewrite Hr. }
  assert (Hp : prefix_of (requests_of (EvGet (url symbol day) :: evs))
                 [url symbol day]).
  { rewrite Hq. exists []. reflexivity. }
  destruct r as [raw|e].
  - destruct (ne_int raw (-1)).
    + destruct (bi5_to_df raw fmt) as [df|e]; eexists _, _, _;
        (split; [reflexivity|]); (split; [reflexivity|]); auto.
    + eexists _, _, _. split; [reflexivity|]. split; [reflexivity|]. auto.
  - eexists _, _, _. split; [reflexivity|]. split; [reflexivity|]. auto.
Qed.

Lemma period_rows_requests symbol fmt days :
  requests_within (period_rows symbol fmt days) (map (url symbol) days).
Proof.
  intros st.
  destruct (map_m_requests (process_day symbol fmt)
              (fun day => [url symbol day]) days
              (fun day _ => process_day_requests symbol fmt day) st)
    as (r & st' & evs & E & L & P & Q).
  rewrite flat_map_singleton in P, Q.
  unfold period_rows, bind, ret. rewrite E. destruct r as [per_day|e].
  - eexists _, _, evs. split; [reflexivity|]. split; [exact L|].
    split; [exact P|]. intros _. apply Q. eauto.
  - eexists _, _, evs. split; [reflexivity|]. split; [exact L|].
    split; [exact P|]. intros [a Ha]. discriminate.
Qed.

(** X12. The requests of [download_period] between two dates that
    parse: one for each calendar day of the interval, for the address of
    that day, in ascending order of the days, and none besides.  They
    are all made when a table is returned; when an exception escapes,
    those up to the day that fails. *)
Theorem download_period_requests symbol start_day end_day fmt sd ed :
  Strptime.strptime start_day = Ok sd ->
  Strptime.strptime end_day = Ok ed ->
  requests_within (download_period symbol start_day end_day fmt)
    (map (url symbol) (days_between sd ed)).
Proof.
  intros Es Ee st.
  rewrite (download_period_parsed World requests_get lzma_decompress
             symbol start_day end_day fmt sd ed st Es Ee).
  apply period_rows_requests.
Qed.

Lemma symbol_block_requests start_day end_day fmt sd ed sn :
  Strptime.strptime start_day = Ok sd ->
  Strptime.strptime end_day = Ok ed ->
  requests_within (symbol_block start_day end_day fmt sn)
    (map (url (fst sn)) (days_between sd ed)).
Proof.
  intros Es Ee st. destruct sn as [s n]. cbn [fst].
  unfold symbol_block, bind, print, emit, ret.
  rewrite (download_period_parsed World requests_get lzma_decompress
             s start_day end_day fmt sd ed _ Es Ee).
  destruct (period_rows_requests s fmt (days_between sd ed)
              (mkstate (world st)
                 (log st ++ [EvPrint ("Downloading " ++ n ++ " data")%string])))
    as (r & st' & evs & E & L & P & Q).
  rewrite E. cbn [log] in L.
  destruct r as [rows|e]; eexists _, _, (EvPrint _ :: evs);
    (split; [reflexivity|]);
    (split; [rewrite L, <- app_assoc; reflexivity|]);
    (split; [exact P|]).
  - intros _. apply Q. eauto.
  - intros [a Ha]. discriminate.
Qed.

(** X13. The requests of [download_data] between two dates that
    parse: for each pair in turn, the addresses of all the days of the
    interval for the symbol of the pair, in ascending order.  A symbol
    that is listed twice is downloaded twice.  When an exception
    escapes, the requests made are a beginning of this list. *)
Theorem download_data_requests symbols symbols_names start_day end_day fmt
  sd ed :
  Strptime.strptime start_day = Ok sd ->
  Strptime.strptime end_day = Ok ed ->
  requests_within
    (download_data symbols symbols_names start_day end_day fmt)
    (flat_map (fun sn => map (url (fst sn)) (days_between sd ed))
       (combine symbols symbols_names)).
Proof.
  intros Es Ee st.
  rewrite (download_data_blocks_of World requests_get lzma_decompress).
  destruct (map_m_requests (symbol_block start_day end_day fmt)
              (fun sn => map (url (fst sn)) (days_between sd ed))
              (combine symbols symbols_names)
              (fun sn _ =>
                 symbol_block_requests start_day end_day fmt sd ed sn Es Ee)
              st)
    as (r & st' & evs & E & L & P & Q).
  unfold bind, ret. rewrite E. destruct r as [blocks|e].
  - eexists _, _, evs. split; [reflexivity|]. split; [exact L|].
    split; [exact P|]. intros _. apply Q. eauto.
  - eexists _, _, evs. split; [reflexivity|]. split; [exact L|].
    split; [exact P|]. intros [a Ha]. discriminate.
Qed.

(** ** A service whose files are absent or sound *)

Lemma process_day_total symbol fmt day st :
  List.length (Struct.codes fmt) = 6%nat ->
  short_time fmt = true ->
  Datetime.valid day = true ->
  24857 <= Datetime.toordinal day <= 3602348 ->
  (exists res w',
     requests_get (url symbol day) (world st) = (Ok res, w') /\
     answer_ok lzma_decompress res = true) ->
  exists rows st', process_day symbol fmt day st = (Ok rows, st').
Proof.
  intros H6 Hs V Ho (res & w' & E & A).
  unfold process_day, read_day, bind, get, print, emit, ret, read_local, raise,
    lift.
  rewrite E. unfold answer_ok in A.
  destruct (status_code res =? 404); [eexists _, _; reflexivity|].
  cbn [orb] in A. apply andb_true_iff in A. destruct A as [-> A].
  destruct (lzma_decompress (content res)) as [payload|]; [|discriminate].
  unfold ret. cbv beta iota. cbn [ne_int]. cbv beta iota.
  destruct (bi5_to_df_six_ok payload fmt H6) as (df & Eb & _).
  rewrite Eb.
  destruct (normalize_df_int_times df day V Ho) as (out & En & _).
  - eapply bi5_to_df_parsed, Eb.
  - eapply bi5_to_df_short_times; eassumption.
  - rewrite En. eexists _, _. reflexivity.
Qed.

Lemma map_m_process_day_total symbol fmt days st :
  List.length (Struct.codes fmt) = 6%nat ->
  short_time fmt = true ->
  Forall (fun day =>
            Datetime.valid day = true /\
            24857 <= Datetime.toordinal day <= 3602348 /\
            forall w, exists res w',
              requests_get (url symbol day) w = (Ok res, w') /\
              answer_ok lzma_decompress res = true) days ->
  exists per_day st',
    map_m World (process_day symbol fmt) days st = (Ok per_day, st').
Proof.
  intros H6 Hs F. revert st.
  induction F as [|day days (V & Ho & A) F IH]; intros st; cbn [map_m].
  - eexists _, _. reflexivity.
  - destruct (process_day_total symbol fmt day st H6 Hs V Ho (A (world st)))
      as (rows & st1 & E).
    unfold bind. rewrite E. destruct (IH st1) as (per_day & st2 & E').
    rewrite E'. eexists _, _. reflexivity.
Qed.

(** X14. With a service whose files, for the days of the period, are
    absent (status 404) or sound (a body that is not empty and
    decompresses), a format of six fields whose time field is an integer
    of at most four bytes, and dates from the year 100 to the year 9800,
    [download_period] returns a table: no exception can escape. *)
Theorem download_period_total symbol start_day end_day fmt sd ed st :
  Strptime.strptime start_day = Ok sd ->
  Strptime.strptime end_day = Ok ed ->
  100 <= Datetime.year sd ->
  Datetime.year ed <= 9800 ->
  List.length (Struct.codes fmt) = 6%nat ->
  short_time fmt = true ->
  (forall day w,
     In day (days_between sd ed) ->
     exists res w',
       requests_get (url symbol day) w = (Ok res, w') /\
       answer_ok lzma_decompress res = true) ->
  exists rows st',
    download_period symbol start_day end_day fmt st = (Ok rows, st').
Proof.
  intros Es Ee Ys Ye H6 Hs A.
  rewrite (download_period_parsed World requests_get lzma_decompress
             symbol start_day end_day fmt sd ed st Es Ee).
  destruct (strptime_midnight _ _ Es) as (y0 & m0 & d0 & V0 & ->).
  destruct (strptime_midnight _ _ Ee) as (y1 & m1 & d1 & V1 & ->).
  cbn [Datetime.year Datetime.midnight] in Ys, Ye.
  destruct (StrptimeFacts.valid_date_ranges _ _ _ V0) as (Hy0 & _).
  destruct (StrptimeFacts.valid_date_ranges _ _ _ V1) as (Hy1 & _).
  pose proof (DatetimeFacts.ymd2ord_bounds _ _ _ V0) as B0.
  pose proof (DatetimeFacts.ymd2ord_bounds _ _ _ V1) as B1.
  pose proof (DatetimeFacts.days_before_year_mono 100 y0 ltac:(lia)) as L.
  pose proof (DatetimeFacts.days_before_year_mono (y1 + 1) 9801 ltac:(lia))
    as U.
  change (Datetime.days_before_year 100) with 36159 in L.
  change (Datetime.days_before_year 9801) with 3579376 in U.
  destruct (map_m_process_day_total symbol fmt
              (days_between (Datetime.midnight y0 m0 d0)
                 (Datetime.midnight y1 m1 d1)) st H6 Hs)
    as (per_day & st' & E).
  - rewrite Forall_forall. intros day Hin. pose proof Hin as Hin'.
    unfold days_between in Hin. apply in_map_iff in Hin.
    destruct Hin as (k & <- & Hk). apply range_In in Hk.
    rewrite !toordinal_midnight in Hk.
    destruct (DatetimeFacts.day_of_ordinal_spec k) as (V & Ho & _).
    { unfold Datetime.MAXORDINAL. lia. }
    split; [exact V|]. split; [rewrite Ho; lia|].
    intros w. apply A, Hin'.
  - unfold period_rows, bind, ret. rewrite E. eexists _, _. reflexivity.
Qed.

(** X15. A day with a sound file.  The service answers with another
    status than 404 and a body that decompresses to [payload]; the format
    has six fields and a time field of at most four bytes, the day is of
    a year from 100 to 9800.  Then [read_day] returns the payload and
    prints nothing, the turn of the loop appends to the table the
    [len(payload) // c] rows of the day, after the rows it held, and the
    loop goes on with the remaining days. *)
Theorem data_day_appended symbol start_day fmt dataset d rest current_day
  res w' payload st :
  (let? delta := Datetime.timedelta_of d 0 0
   in Datetime.add start_day delta) = Ok current_day ->
  Datetime.valid current_day = true ->
  100 <= Datetime.year current_day <= 9800 ->
  List.length (Struct.codes fmt) = 6%nat ->
  short_time fmt = true ->
  requests_get (url symbol current_day) (world st) = (Ok res, w') ->
  status_code res <> 404 ->
  content res <> [] ->
  lzma_decompress (content res) = Some payload ->
  let st' :=
    mkstate w'
      (log st ++ [EvGet (url symbol current_day);
                  EvDecompress (content res)]) in
  read_day symbol current_day st = (Ok (Bytes payload), st') /\
  exists rows,
    len rows = len payload / Struct.calcsize fmt /\
    period_step symbol start_day fmt dataset d st =
    (Ok (dataset ++ rows), st') /\
    for_each World (d :: rest) dataset (period_step symbol start_day fmt) st =
    for_each World rest (dataset ++ rows) (period_step symbol start_day fmt)
      st'.
Proof.
  intros Ed V Hy H6 Hs E H4 Hc Hd st'.
  assert (R : read_day symbol current_day st = (Ok (Bytes payload), st')).
  { unfold read_day, bind, get, print, emit, ret, read_local, raise.
    rewrite E. replace (status_code res =? 404) with false
      by (symmetry; apply Z.eqb_neq; exact H4).
    destruct (content res) as [|b bs] eqn:Ec; [congruence|].
    replace (len (b :: bs) =? 0) with false
      by (symmetry; apply Z.eqb_neq; unfold len; cbn; lia).
    cbn [negb]. rewrite Hd. unfold st'. cbn. now rewrite <- app_assoc. }
  split; [exact R|].
  destruct (parse_normalize_rows payload fmt current_day H6 Hs V
              (valid_year_ordinal current_day V Hy))
    as (df & rows & Eb & En & L1 & L2).
  exists rows. split; [lia|].
  assert (S : period_step symbol start_day fmt dataset d st
              = (Ok (dataset ++ rows), st')).
  { unfold period_step.
    rewrite (bind_lift_lift World), Ed.
    unfold bind, lift, ret. rewrite R. cbn [ne_int]. rewrite Eb, En.
    reflexivity. }
  split; [exact S|].
  cbn [for_each]. unfold bind. rewrite S. reflexivity.
Qed.

(** X16. The symbols can be downloaded in two batches: when the first
    batch has as many display names as symbols, [download_data] on the
    two batches put end to end does what [download_data] on the first
    followed by [download_data] on the second do, and its table is the
    first table followed by the second. *)
Theorem download_data_app symbols symbols' names names' start_day end_day
  fmt st :
  List.length symbols = List.length names ->
  download_data (symbols ++ symbols') (names ++ names') start_day end_day
    fmt st =
  (x <- download_data symbols names start_day end_day fmt ;;
   y <- download_data symbols' names' start_day end_day fmt ;;
   ret (x ++ y)) st.
Proof.
  intros H.
  rewrite (download_data_blocks_of World requests_get lzma_decompress).
  rewrite (combine_app _ _ _ _ H).
  unfold bind at 1. rewrite map_m_app. unfold bind, ret.
  rewrite (download_data_blocks_of World requests_get lzma_decompress).
  unfold bind, ret.
  destruct (map_m World (symbol_block start_day end_day fmt)
              (combine symbols names) st) as [[a|e] st1]; [|reflexivity].
  rewrite (download_data_blocks_of World requests_get lzma_decompress).
  unfold bind, ret.
  destruct (map_m World (symbol_block start_day end_day fmt)
              (combine symbols' names') st1) as [[b|e] st2]; [|reflexivity].
  now rewrite concat_app.
Qed.

End PipelineEdges.

(** ** The address of a day: its layout, and the day it stands for *)

Lemma zeros_decimal k : read_decimal (PyFormat.zeros k) 0 = Some 0.
Proof. induction k as [|k IH]; cbn; [reflexivity | exact IH]. Qed.

(** A number formatted with zeros in front reads back as itself. *)
Lemma format_0d_decimal w n :
  0 <= n -> read_decimal (PyFormat.format_0d w n) 0 = Some n.
Proof.
  intros H. unfold PyFormat.format_0d, PyFormat.zfill.
  replace (n <? 0) with false by (symmetry; apply Z.ltb_ge; exact H).
  rewrite decimal_app, zeros_decimal. apply str_of_nonneg_decimal, H.
Qed.

Lemma append_inj_l (p a b : string) : (p ++ a = p ++ b)%string -> a = b.
Proof.
  induction p as [|c p IH]; cbn [append]; [auto|].
  intros [= H]. apply IH, H.
Qed.

Lemma append_inj_r (a b r : string) : (a ++ r = b ++ r)%string -> a = b.
Proof.
  revert b. induction a as [|c a IH]; intros [|c' b] H; cbn [append] in H.
  - reflexivity.
  - exfalso. apply (f_equal String.length) in H. cbn [String.length] in H.
    rewrite StrptimeFacts.length_append_string in H. lia.
  - exfalso. apply (f_equal String.length) in H. cbn [String.length] in H.
    rewrite StrptimeFacts.length_append_string in H. lia.
  - injection H as -> H. f_equal. apply IH, H.
Qed.

(** X17. The layout of the address of a day.  For a valid day it is
    the prefix, the symbol, the year with four digits, the month minus
    one with two digits, the day of the month with two digits and the
    name of the file, with [/] between them; its length is that of the
    symbol plus 73; and whatever the symbol, slashes included, the year,
    the day and the file name are the fourth, the second and the first
    segment from the end. *)
Theorem url_layout (symbol : string) (day : Datetime.datetime) :
  Datetime.valid day = true ->
  url symbol day =
  (url_prefix ++ "/" ++ symbol ++ "/"
   ++ four_digits (Datetime.year day) ++ "/"
   ++ two_digits (Datetime.month day - 1) ++ "/"
   ++ two_digits (Datetime.day day) ++ "/" ++ file_name)%string /\
  String.length (url symbol day) = (String.length symbol + 73)%nat /\
  segment_from_end 3 (url symbol day)
  = Some (four_digits (Datetime.year day)) /\
  segment_from_end 1 (url symbol day) = Some (two_digits (Datetime.day day)) /\
  segment_from_end 0 (url symbol day) = Some file_name.
Proof.
  intros V. apply DatetimeFacts.valid_fields in V. destruct V as [V _].
  apply StrptimeFacts.valid_date_ranges in V. destruct V as (Hy & Hm & Hd).
  assert (E4 : PyFormat.format_0d 4 (Datetime.year day)
               = four_digits (Datetime.year day))
    by (apply StrptimeFacts.format_4; lia).
  assert (Em : PyFormat.format_0d 2 (Datetime.month day - 1)
               = two_digits (Datetime.month day - 1))
    by (apply format_2; lia).
  assert (Ed : PyFormat.format_0d 2 (Datetime.day day)
               = two_digits (Datetime.day day))
    by (apply format_2; lia).
  assert (L : url symbol day =
              (url_prefix ++ "/" ++ symbol ++ "/"
               ++ four_digits (Datetime.year day) ++ "/"
               ++ two_digits (Datetime.month day - 1) ++ "/"
               ++ two_digits (Datetime.day day) ++ "/" ++ file_name)%string).
  { unfold url. rewrite E4, Em, Ed. reflexivity. }
  split; [exact L|]. split.
  - rewrite L. rewrite !StrptimeFacts.length_append_string.
    unfold four_digits, two_digits. cbn [String.length].
    change (String.length url_prefix) with 39%nat.
    change (String.length file_name) with 21%nat. lia.
  - destruct (url_segments symbol day) as [front E].
    unfold segment_from_end. rewrite E, E4, Ed. repeat split.
Qed.

(** X18. The address stands for one symbol and one day.  Two
    addresses that are equal, for valid days, have the same symbol, the
    same year, the same month and the same day of the month: no two days
    of a period, and no two symbols, share a file. *)
Theorem url_injective (s1 s2 : string) (d1 d2 : Datetime.datetime) :
  Datetime.valid d1 = true -> Datetime.valid d2 = true ->
  url s1 d1 = url s2 d2 ->
  s1 = s2 /\ Datetime.year d1 = Datetime.year d2 /\
  Datetime.month d1 = Datetime.month d2 /\ Datetime.day d1 = Datetime.day d2.
Proof.
  intros V1 V2 E.
  apply DatetimeFacts.valid_fields in V1. destruct V1 as [V1 _].
  apply StrptimeFacts.valid_date_ranges in V1. destruct V1 as (Hy1 & Hm1 & Hd1).
  apply DatetimeFacts.valid_fields in V2. destruct V2 as [V2 _].
  apply StrptimeFacts.valid_date_ranges in V2. destruct V2 as (Hy2 & Hm2 & Hd2).
  destruct (url_segments s1 d1) as [f1 E1].
  destruct (url_segments s2 d2) as [f2 E2].
  rewrite E, E2 in E1. injection E1 as Ed Em Ey _.
  apply (f_equal (fun t => read_decimal t 0)) in Ed, Em, Ey.
  rewrite !format_0d_decimal in Ed, Em, Ey by lia.
  injection Ed as Ed. injection Em as Em. injection Ey as Ey.
  assert (Em' : Datetime.month d1 = Datetime.month d2) by lia.
  split; [|auto].
  unfold url in E. rewrite Ed, Em', Ey in E.
  apply append_inj_l in E. apply (append_inj_l "/") in E.
  apply append_inj_r in E. exact E.
Qed.

(** ** The further properties on the small remote service *)

Open Scope string_scope.

(** The file of 2024-03-15: status 200, a body that decompresses to
    two bars. *)
Lemma read_day_outcome_witness :
  exists r evs,
    Example.read_day "EURUSD" (Datetime.midnight 2024 3 15) Example.start =
    (r,
     mkstate 1%nat
       (log Example.start
        ++ EvGet (url "EURUSD" (Datetime.midnight 2024 3 15)) :: evs)%list) /\
    requests_of evs = [] /\
    r = Ok (Bytes (Example.bar ++ Example.bar')%list).
Proof.
  destruct (read_day_outcome Example.World (Example.serve Example.site)
              Example.stored "EURUSD" (Datetime.midnight 2024 3 15)
              Example.start
              (Ok (mkresponse 200
                     (x00%byte :: Example.bar ++ Example.bar')%list))
              1%nat eq_refl)
    as (r & evs & E & Q & _ & H).
  exists r, evs. split; [exact E|]. split; [exact Q|].
  destruct (H _ eq_refl) as (_ & Hb & _). apply Hb.
  split; [discriminate|]. split; [discriminate | reflexivity].
Defined.

(** From 2024-03-17 to 2024-03-20: the 17th has a file, the 18th an
    empty one.  The row of the 17th is lost and the 19th is not
    requested. *)
Lemma failed_day_aborts_witness :
  Example.download_period "EURUSD" "2024-03-17" "2024-03-20" Example.candle
    Example.start =
  (Raise UnboundLocalError,
   mkstate 2%nat
     [EvGet (url "EURUSD" (Datetime.midnight 2024 3 17));
      EvDecompress (x00%byte :: Example.bar);
      EvGet (url "EURUSD" (Datetime.midnight 2024 3 18))]).
Proof.
  apply (failed_day_aborts Example.World (Example.serve Example.site)
           Example.stored "EURUSD" "2024-03-17" "2024-03-20" Example.candle
           (Datetime.midnight 2024 3 17) (Datetime.midnight 2024 3 20)
           [Datetime.midnight 2024 3 17] (Datetime.midnight 2024 3 18)
           [Datetime.midnight 2024 3 19]
           [mkrow (Date (Datetime.mkdatetime 2024 3 17 1 1 1 0))
              (Float 123.456) (Float 123.5)
              (Float (PrimFloat.div 123400 1000)) (Float 123.45) (Float 1.5)]
           UnboundLocalError Example.start
           (mkstate 1%nat
              [EvGet (url "EURUSD" (Datetime.midnight 2024 3 17));
               EvDecompress (x00%byte :: Example.bar)])).
  - reflexivity.
  - reflexivity.
  - vm_compute. reflexivity.
  - vm_compute. reflexivity.
  - left. vm_compute. reflexivity.
Defined.

(** From 2024-03-18 back to 2024-03-15: nothing is requested. *)
Lemma download_period_reversed_witness :
  ~ In (Datetime.midnight 2024 3 15)
      (days_between (Datetime.midnight 2024 3 18)
         (Datetime.midnight 2024 3 15)) /\
  Example.download_period "EURUSD" "2024-03-18" "2024-03-15" Example.candle
    Example.start = (Ok [], Example.start).
Proof.
  destruct (download_period_reversed Example.World
              (Example.serve Example.site) Example.stored "EURUSD"
              "2024-03-18" "2024-03-15" Example.candle
              (Datetime.midnight 2024 3 18) (Datetime.midnight 2024 3 15)
              Example.start eq_refl eq_refl) as [N E].
  split; [exact N|]. apply E. discriminate.
Defined.

(** The period from the 15th to the 18th, cut at the 16th. *)
Lemma download_period_split_witness :
  Example.download_period "EURUSD" "2024-03-15" "2024-03-18" Example.candle
    Example.start =
  bind (Example.download_period "EURUSD" "2024-03-15" "2024-03-16"
          Example.candle)
    (fun x =>
       bind (Example.download_period "EURUSD" "2024-03-16" "2024-03-18"
               Example.candle)
         (fun y => ret (x ++ y)%list))
    Example.start.
Proof.
  apply (download_period_split Example.World (Example.serve Example.site)
           Example.stored "EURUSD" "2024-03-15" "2024-03-16" "2024-03-18"
           Example.candle (Datetime.midnight 2024 3 15)
           (Datetime.midnight 2024 3 16) (Datetime.midnight 2024 3 18)
           Example.start).
  - reflexivity.
  - reflexivity.
  - reflexivity.
  - split; discriminate.
Defined.

Lemma download_period_requests_witness :
  requests_within
    (Example.download_period "EURUSD" "2024-03-15" "2024-03-18"
       Example.candle)
    (map (url "EURUSD")
       (days_between (Datetime.midnight 2024 3 15)
          (Datetime.midnight 2024 3 18))).
Proof.
  apply (download_period_requests Example.World (Example.serve Example.site)
           Example.stored "EURUSD" "2024-03-15" "2024-03-18" Example.candle
           (Datetime.midnight 2024 3 15) (Datetime.midnight 2024 3 18)).
  - reflexivity.
  - reflexivity.
Defined.

(** The three requests of that period, the 16th included. *)
Example download_period_three_requests :
  requests_of
    (log (snd (Example.download_period "EURUSD" "2024-03-15" "2024-03-18"
                 Example.candle Example.start))) =
  [url "EURUSD" (Datetime.midnight 2024 3 15);
   url "EURUSD" (Datetime.midnight 2024 3 16);
   url "EURUSD" (Datetime.midnight 2024 3 17)].
Proof. vm_compute. reflexivity. Qed.

(** The thirtieth of February does not exist. *)
Lemma download_data_bad_date_witness :
  Example.download_data ["EURUSD"; "GBPUSD"] ["Euro"; "Pound"]
    "2024-02-30" "2024-03-02" Example.candle Example.start =
  (Raise ValueError, mkstate 0%nat [EvPrint "Downloading Euro data"]).
Proof.
  apply (download_data_bad_date Example.World (Example.serve Example.site)
           Example.stored ["EURUSD"; "GBPUSD"] ["Euro"; "Pound"]
           "2024-02-30" "2024-03-02" Example.candle Example.start).
  left. intros H. apply strptime_date_text in H. destruct H as [t H].
  vm_compute in H. discriminate H.
Defined.

(** Two bars, each a whole chunk of the format [>5if]. *)
Lemma bi5_to_df_app_witness :
  bi5_to_df (Bytes (Example.bar ++ Example.bar')%list) Example.candle =
  let? x := bi5_to_df (Bytes Example.bar) Example.candle in
  let? y := bi5_to_df (Bytes Example.bar') Example.candle in
  Ok (x ++ y)%list.
Proof.
  apply (bi5_to_df_app Example.bar Example.bar' Example.candle).
  reflexivity.
Defined.

Lemma parse_normalize_total_witness :
  exists df out,
    bi5_to_df (Bytes Example.bar) Example.candle = Ok df /\
    normalize_df df (Datetime.midnight 2024 1 1) = Ok out /\
    len df = len Example.bar / Struct.calcsize Example.candle /\
    len out = len df.
Proof.
  destruct (parse_normalize_total Example.bar Example.candle
              (Datetime.midnight 2024 1 1))
    as (df & out & E & En & L & F).
  - reflexivity.
  - reflexivity.
  - reflexivity.
  - cbn. lia.
  - exists df, out. split; [exact E|]. split; [exact En|].
    split; [exact L|]. unfold len. now rewrite (Forall2_length F).
Defined.

(** The normalised record of [Example.sample] cannot be normalised
    again. *)
Lemma normalize_df_twice_witness :
  normalize_df
    [mkrow (Date (Datetime.mkdatetime 2024 1 1 1 1 1 0))
       (Float 123.456) (Float 123.5) (Float (PrimFloat.div 123400 1000))
       (Float 123.45) (Float 1.5)]
    (Datetime.midnight 2024 1 1) = Raise TypeError.
Proof.
  apply (normalize_df_twice Example.sample _ (Datetime.midnight 2024 1 1)).
  - discriminate.
  - vm_compute. reflexivity.
Defined.

Lemma download_data_requests_witness :
  requests_within
    (Example.download_data ["EURUSD"; "GBPUSD"] ["Euro"; "Pound"]
       "2024-03-15" "2024-03-17" Example.candle)
    (flat_map
       (fun sn =>
          map (url (fst sn))
            (days_between (Datetime.midnight 2024 3 15)
               (Datetime.midnight 2024 3 17)))
       (combine ["EURUSD"; "GBPUSD"] ["Euro"; "Pound"])).
Proof.
  apply (download_data_requests Example.World (Example.serve Example.site)
           Example.stored ["EURUSD"; "GBPUSD"] ["Euro"; "Pound"]
           "2024-03-15" "2024-03-17" Example.candle
           (Datetime.midnight 2024 3 15) (Datetime.midnight 2024 3 17)).
  - reflexivity.
  - reflexivity.
Defined.

(** From the 15th to the 18th every file is absent or sound. *)
Lemma download_period_total_witness :
  exists rows st',
    Example.download_period "EURUSD" "2024-03-15" "2024-03-18" Example.candle
      Example.start = (Ok rows, st').
Proof.
  apply (download_period_total Example.World (Example.serve Example.site)
           Example.stored "EURUSD" "2024-03-15" "2024-03-18" Example.candle
           (Datetime.midnight 2024 3 15) (Datetime.midnight 2024 3 18)
           Example.start).
  - reflexivity.
  - reflexivity.
  - cbn. lia.
  - cbn. lia.
  - reflexivity.
  - reflexivity.
  - intros day w Hin.
    change (days_between (Datetime.midnight 2024 3 15)
              (Datetime.midnight 2024 3 18))
      with [Datetime.midnight 2024 3 15; Datetime.midnight 2024 3 16;
            Datetime.midnight 2024 3 17] in Hin.
    destruct Hin as [<- | [<- | [<- | []]]].
    + exists (mkresponse 200 (x00%byte :: Example.bar ++ Example.bar')%list),
        (S w).
      split; reflexivity.
    + exists (mkresponse 404 []), (S w). split; reflexivity.
    + exists (mkresponse 200 (x00%byte :: Example.bar)), (S w).
      split; reflexivity.
Defined.

(** The 15th, first day of a period: its two rows are appended. *)
Lemma data_day_appended_witness :
  Example.read_day "EURUSD" (Datetime.midnight 2024 3 15) Example.start =
  (Ok (Bytes (Example.bar ++ Example.bar')%list),
   mkstate 1%nat
     ([] ++ [EvGet (url "EURUSD" (Datetime.midnight 2024 3 15));
             EvDecompress (x00%byte :: Example.bar ++ Example.bar')])%list) /\
  exists rows,
    len rows = 2 /\
    period_step Example.World (Example.serve Example.site) Example.stored
      "EURUSD" (Datetime.midnight 2024 3 15) Example.candle [] 0
      Example.start =
    (Ok ([] ++ rows)%list,
     mkstate 1%nat
       ([] ++ [EvGet (url "EURUSD" (Datetime.midnight 2024 3 15));
               EvDecompress (x00%byte :: Example.bar ++ Example.bar')])%list).
Proof.
  destruct (data_day_appended Example.World (Example.serve Example.site)
              Example.stored "EURUSD" (Datetime.midnight 2024 3 15)
              Example.candle [] 0 [1; 2] (Datetime.midnight 2024 3 15)
              (mkresponse 200 (x00%byte :: Example.bar ++ Example.bar')%list)
              1%nat (Example.bar ++ Example.bar')%list Example.start)
    as (R & rows & L & S & _).
  - reflexivity.
  - reflexivity.
  - cbn. lia.
  - reflexivity.
  - reflexivity.
  - reflexivity.
  - discriminate.
  - discriminate.
  - reflexivity.
  - split; [exact R|]. exists rows. split; [exact L | exact S].
Defined.

Lemma url_layout_witness :
  url "EURUSD" (Datetime.midnight 2024 3 15) =
  "https://datafeed.dukascopy.com/datafeed/EURUSD/2024/02/15/BID_candles_min_1.bi5"
  /\ String.length (url "EURUSD" (Datetime.midnight 2024 3 15)) = 79%nat.
Proof.
  destruct (url_layout "EURUSD" (Datetime.midnight 2024 3 15) eq_refl)
    as (L & N & _).
  split; [exact L | exact N].
Defined.

(** The time of day plays no part in the address; the date does. *)
Lemma url_injective_witness :
  "EURUSD" = "EURUSD" /\
  Datetime.year (Datetime.midnight 2024 3 15) =
  Datetime.year (Datetime.mkdatetime 2024 3 15 10 30 0 0) /\
  Datetime.month (Datetime.midnight 2024 3 15) =
  Datetime.month (Datetime.mkdatetime 2024 3 15 10 30 0 0) /\
  Datetime.day (Datetime.midnight 2024 3 15) =
  Datetime.day (Datetime.mkdatetime 2024 3 15 10 30 0 0).
Proof.
  apply (url_injective "EURUSD" "EURUSD" (Datetime.midnight 2024 3 15)
           (Datetime.mkdatetime 2024 3 15 10 30 0 0)).
  - reflexivity.
  - reflexivity.
  - reflexivity.
Defined.

(** One day after the last day of the calendar. *)
Lemma normalize_df_overflow_witness :
  normalize_df
    ([] ++ mkrow (Int 86400) (Int 1) (Int 1) (Int 1) (Int 1) (Float 1.5)
        :: [])%list
    (Datetime.midnight 9999 12 31) = Raise OverflowError.
Proof.
  apply (normalize_df_overflow [] []
           (mkrow (Int 86400) (Int 1) (Int 1) (Int 1) (Int 1) (Float 1.5))
           (Datetime.midnight 9999 12 31) 86400).
  - reflexivity.
  - constructor.
  - reflexivity.
  - unfold representable. vm_compute. intros [_ H]. discriminate H.
Defined.

(** One symbol, then another. *)
Lemma download_data_app_witness :
  Example.download_data (["EURUSD"] ++ ["GBPUSD"])%list
    (["Euro"] ++ ["Pound"])%list "2024-03-15" "2024-03-17" Example.candle
    Example.start =
  bind (Example.download_data ["EURUSD"] ["Euro"] "2024-03-15" "2024-03-17"
          Example.candle)
    (fun x =>
       bind (Example.download_data ["GBPUSD"] ["Pound"] "2024-03-15"
               "2024-03-17" Example.candle)
         (fun y => ret (x ++ y)%list))
    Example.start.
Proof.
  apply (download_data_app Example.World (Example.serve Example.site)
           Example.stored ["EURUSD"] ["GBPUSD"] ["Euro"] ["Pound"]
           "2024-03-15" "2024-03-17" Example.candle Example.start).
  reflexivity.
Defined.
